(** * Agent usage analytics and XP engine: a shallow embedding

    The development embeds the analytical core of the repository:

    - [gamification/core/agent_logs_analyzer.py] (class [AgentLogsAnalyzer]):
      side-channel extraction from log entries, the collaboration backfill,
      squad formation detection, the synergy score, per-agent XP and the
      ten-level table;
    - [gamification/core/xp_system_redesign.py] (class [XPSystemRedesign]):
      per-session XP and the three-hundred-entry threshold table.

    Conventions of the embedding.

    - Python [int] is [Z]; [//] is [Z.div] (both floor).
    - Python [float] is modelled by exact rationals [Q]: every float
      operation of the source ([/], [*], [+], [-], [min], [max], [int(...)])
      is the corresponding exact operation, [int] being truncation toward
      zero.  Rounding of binary64 is therefore not part of the model.
    - Python [str] is [string], a character being a code point below 256;
      [lower], [strip] and the white space of patterns act on that range as
      Python does.
    - A [dict] is an association list in insertion order, as iteration over
      a Python dictionary is; its keys are distinct.
    - Exceptions are an error monad ([result]).
    - What the Python runtime decides and the source does not (iteration
      order of a [set], [repr] of a value, [re.findall],
      [datetime.fromisoformat]) is gathered in the class [Runtime]. *)

From Stdlib Require Import List String Ascii ZArith QArith Qround Bool Arith Lia
  Permutation.
From Stdlib Require Import Qminmax Sorted.
Import ListNotations.

Set Warnings "-register-all".

Open Scope string_scope.
Open Scope Z_scope.

(** ** Exceptions *)

Inductive exn : Type :=
| AttributeError
| TypeError
| ZeroDivisionError
| IndexError
| Unmodelled.   (* a value outside the fragment of Python values embedded here *)

Inductive result (A : Type) : Type :=
| Ok (a : A)
| Raise (e : exn).

Arguments Ok {A} a.
Arguments Raise {A} e.

Definition bind {A B : Type} (m : result A) (k : A -> result B) : result B :=
  match m with
  | Ok a => k a
  | Raise e => Raise e
  end.

Notation "x <- m ;; k" := (bind m (fun x => k))
  (at level 61, m at next level, right associativity).

(** ** Python strings *)

Module PyStr.

Definition dquote : ascii := ascii_of_nat 34.

Definition lower_char (c : ascii) : ascii :=
  let n := nat_of_ascii c in
  if ((65 <=? n) && (n <=? 90) ||
      (192 <=? n) && (n <=? 222) && negb (n =? 215))%nat
  then ascii_of_nat (n + 32) else c.

(* str.lower() *)
Fixpoint lower (s : string) : string :=
  match s with
  | EmptyString => EmptyString
  | String c s' => String (lower_char c) (lower s')
  end.

Fixpoint startswith (p s : string) : bool :=
  match p, s with
  | EmptyString, _ => true
  | String a p', String b s' => Ascii.eqb a b && startswith p' s'
  | String _ _, EmptyString => false
  end.

(* [needle in hay] on two strings *)
Fixpoint contains (needle hay : string) : bool :=
  startswith needle hay ||
  match hay with
  | EmptyString => false
  | String _ hay' => contains needle hay'
  end.

(* the characters str.strip() removes, within the 8-bit range *)
Definition is_space (c : ascii) : bool :=
  let n := nat_of_ascii c in
  ((9 <=? n) && (n <=? 13) || (28 <=? n) && (n <=? 32) ||
   (n =? 133) || (n =? 160))%nat.

Fixpoint lstrip (s : string) : string :=
  match s with
  | EmptyString => EmptyString
  | String c s' => if is_space c then lstrip s' else s
  end.

Fixpoint rstrip (s : string) : string :=
  match s with
  | EmptyString => EmptyString
  | String c s' =>
      match rstrip s' with
      | EmptyString => if is_space c then EmptyString else String c EmptyString
      | r => String c r
      end
  end.

Definition strip (s : string) : string := rstrip (lstrip s).

(* s[:n] *)
Fixpoint take (n : nat) (s : string) : string :=
  match n, s with
  | S n', String c s' => String c (take n' s')
  | _, _ => EmptyString
  end.

(* s.split(sep) for a one-character separator *)
Fixpoint split_on (sep : ascii) (s : string) : list string :=
  match s with
  | EmptyString => [EmptyString]
  | String c s' =>
      if Ascii.eqb c sep then EmptyString :: split_on sep s'
      else match split_on sep s' with
           | [] => [String c EmptyString]
           | w :: ws => String c w :: ws
           end
  end.

(* s.replace(old, new) for a one-character [old] *)
Fixpoint replace_char (old : ascii) (new : string) (s : string) : string :=
  match s with
  | EmptyString => EmptyString
  | String c s' =>
      if Ascii.eqb c old then new ++ replace_char old new s'
      else String c (replace_char old new s')
  end.

(* sep.join(parts) *)
Fixpoint join (sep : string) (parts : list string) : string :=
  match parts with
  | [] => EmptyString
  | [p] => p
  | p :: ps => p ++ sep ++ join sep ps
  end.

(* the order [<] of Python strings: lexicographic on code points *)
Fixpoint ltb (a b : string) : bool :=
  match a, b with
  | EmptyString, EmptyString => false
  | EmptyString, String _ _ => true
  | String _ _, EmptyString => false
  | String x a', String y b' =>
      let nx := nat_of_ascii x in
      let ny := nat_of_ascii y in
      if (nx <? ny)%nat then true
      else if (ny <? nx)%nat then false
      else ltb a' b'
  end.

Definition mem (x : string) (l : list string) : bool :=
  existsb (String.eqb x) l.

(* len(set(l)) and the elements of set(l): the distinct members of [l] *)
Definition distinct (l : list string) : list string := nodup string_dec l.

(* sorted(l) on strings: insertion sort, stable as Python's sort is *)
Fixpoint insert_sorted (x : string) (l : list string) : list string :=
  match l with
  | [] => [x]
  | y :: l' => if ltb y x then y :: insert_sorted x l' else x :: l
  end.

Definition sorted (l : list string) : list string :=
  fold_right insert_sorted [] l.

(* s.endswith(p) *)
Fixpoint endswith (p s : string) : bool :=
  String.eqb p s ||
  match s with
  | EmptyString => false
  | String _ s' => endswith p s'
  end.

(* s[1:] and s[:-1] *)
Definition tail (s : string) : string :=
  match s with
  | EmptyString => EmptyString
  | String _ s' => s'
  end.

Fixpoint init (s : string) : string :=
  match s with
  | EmptyString => EmptyString
  | String c s' =>
      match s' with
      | EmptyString => EmptyString
      | String _ _ => String c (init s')
      end
  end.

End PyStr.

(** ** JSON values, as [json.loads] returns them *)

Inductive json : Type :=
| JNull
| JBool (b : bool)
| JInt (z : Z)
| JFloat (q : Q)
| JStr (s : string)
| JList (l : list json)
| JDict (kv : list (string * json)).

Definition dict (V : Type) : Type := list (string * V).

Module Dict.

Fixpoint get {V : Type} (d : dict V) (k : string) : option V :=
  match d with
  | [] => None
  | (k', v) :: d' => if String.eqb k k' then Some v else get d' k
  end.

(* d.get(k, default) *)
Definition get_default {V : Type} (d : dict V) (k : string) (default : V) : V :=
  match get d k with
  | Some v => v
  | None => default
  end.

(* k in d *)
Definition has {V : Type} (d : dict V) (k : string) : bool :=
  match get d k with
  | Some _ => true
  | None => false
  end.

(* the grouping idiom
     if k not in d: d[k] = []
     d[k].append(x)
   which keeps keys in order of first insertion *)
Fixpoint append_to {A : Type} (d : dict (list A)) (k : string) (x : A)
  : dict (list A) :=
  match d with
  | [] => [(k, [x])]
  | (k', xs) :: d' =>
      if String.eqb k k' then (k', (xs ++ [x])%list) :: d'
      else (k', xs) :: append_to d' k x
  end.

Definition group_by {A : Type} (key : A -> string) (l : list A)
  : dict (list A) :=
  fold_left (fun d x => append_to d (key x) x) l [].

End Dict.

(* truthiness of a JSON value, as [if not v] tests it *)
Definition truthy (j : json) : bool :=
  match j with
  | JNull => false
  | JBool b => b
  | JInt z => negb (z =? 0)
  | JFloat q => negb (Qeq_bool q 0)
  | JStr s => negb (String.eqb s EmptyString)
  | JList l => match l with [] => false | _ => true end
  | JDict kv => match kv with [] => false | _ => true end
  end.

Definition is_str (o : option json) (s : string) : bool :=
  match o with
  | Some (JStr s') => String.eqb s' s
  | _ => false
  end.

(** ** Timestamps

    A [datetime] is an instant (microseconds since the epoch, UTC) with the
    UTC offset it was written in.  Comparison and subtraction of datetimes go
    by the instant; [date()] is the calendar day in the datetime's own
    offset.  All timestamps of one run are taken to be of one kind (all with
    an offset, as log timestamps are). *)

Record datetime : Type := mk_datetime {
  instant : Z;
  utcoffset : Z
}.

Definition us_per_day : Z := 86400000000.

(* timestamp.date(), as a day number *)
Definition date (t : datetime) : Z := (instant t + utcoffset t) / us_per_day.

(* (t2 - t1).total_seconds() *)
Definition total_seconds (t2 t1 : datetime) : Q :=
  Qmake (instant t2 - instant t1) 1000000.

(* int(x) on a float: truncation toward zero *)
Definition int_of_float (q : Q) : Z :=
  if Qle_bool 0 q then Qfloor q else Qceiling q.

(** ** What the Python runtime decides *)

Inductive agent_pattern : Type :=
| direct_call
| context_mention
| squad_mention.

Class Runtime : Type := {
  (* list(set(l)): the distinct members of [l] in the order the set yields them *)
  set_to_list : list string -> list string;
  set_to_list_NoDup : forall l, NoDup (set_to_list l);
  set_to_list_In : forall l x, In x (set_to_list l) <-> In x l;
  (* repr of a value that is not a string, as str(...) prints it *)
  py_repr : json -> string;
  (* re.findall(self.agent_patterns[p], text, re.IGNORECASE): the group of each match *)
  re_findall : agent_pattern -> string -> list string;
  (* datetime.fromisoformat; None when it raises *)
  fromisoformat : string -> option datetime
}.

(** ** [agent_logs_analyzer.py] *)

Module Analyzer.

Import PyStr.

Record AgentInvocation : Type := mk_invocation {
  agent_name : string;
  session_id : string;
  timestamp : datetime;
  project_path : string;
  task_description : string;
  tools_used : list string;
  success : bool;
  error_message : option string;
  duration_seconds : Q;
  tokens_used : Z;
  model : string;
  git_branch : string;
  collaboration_agents : option (list string);   (* None is the dataclass default *)
  inv_specialization_bonus : Z;
  inv_collaboration_bonus : Z;
  complexity_score : Q
}.

Record SquadFormation : Type := mk_formation {
  sf_session_id : string;
  agents : list string;
  start_time : datetime;
  end_time : datetime;
  sf_project_path : string;
  total_tasks : Z;
  success_rate : Q;
  synergy_score : Q;
  formation_type : string
}.

Record AgentXPCalculation : Type := mk_xp {
  xp_agent_name : string;
  base_xp : Z;
  success_bonus : Z;
  tool_mastery_bonus : Z;
  complexity_bonus : Z;
  collaboration_bonus : Z;
  specialization_bonus : Z;
  consistency_bonus : Z;
  total_xp : Z;
  level : Z;
  next_level_xp : Z
}.

(* self.specialization_categories *)
Definition specialization_categories : dict (list string) :=
  [ ("python", ["python-elite"; "python-pro"; "data-engineer"; "ai-engineer"; "ml-engineer"]);
    ("javascript", ["javascript-pro"; "frontend-developer"; "full-stack-architect"]);
    ("backend", ["backend-architect"; "golang-pro"; "rust-pro"; "sql-pro"]);
    ("infrastructure", ["devops-engineer"; "cloud-architect"; "deployment-engineer"; "incident-commander"]);
    ("quality", ["test-engineer"; "code-reviewer"; "performance-engineer"; "quality-engineer"]);
    ("security", ["security-auditor"]);
    ("data", ["data-engineer"; "data-ai-ml-engineer"; "ml-engineer"; "ai-engineer"]);
    ("business", ["business-analyst"; "content-marketer"; "user-feedback-analyst"]);
    ("product", ["api-documenter"; "dx-optimizer"; "tech-portfolio-resume-review-specialist"]) ].

(* self.squad_formations *)
Definition squad_formations : dict (list string) :=
  [ ("full-stack", ["frontend-developer"; "backend-architect"; "database-optimizer"]);
    ("data-pipeline", ["data-engineer"; "ai-engineer"; "devops-engineer"]);
    ("security-audit", ["security-auditor"; "code-reviewer"; "devops-engineer"]);
    ("performance-optimization", ["performance-engineer"; "database-optimizer"; "cloud-architect"]);
    ("feature-development", ["frontend-developer"; "backend-architect"; "test-engineer"]);
    ("ml-deployment", ["ml-engineer"; "devops-engineer"; "cloud-architect"]);
    ("incident-response", ["incident-commander"; "devops-troubleshooter"; "security-auditor"]) ].

(* self.xp_levels: (threshold, level) *)
Definition xp_levels : list (Z * Z) :=
  [ (0, 1); (100, 2); (300, 3); (600, 4); (1000, 5);
    (1500, 6); (2500, 7); (4000, 8); (6000, 9); (10000, 10) ].

Definition agent_keywords : list string :=
  [ "pro"; "elite"; "engineer"; "architect"; "specialist";
    "analyst"; "developer"; "commander"; "optimizer"; "auditor";
    "python"; "javascript"; "golang"; "rust"; "frontend"; "backend";
    "data"; "ml"; "ai"; "devops"; "cloud"; "security"; "test" ].

Definition _is_valid_agent_name (name : string) : bool :=
  let name_parts := split_on "-"%char name in
  existsb (fun keyword => mem keyword name_parts) agent_keywords.

(* _extract_project_path, on the name of the directory the log file lies
   in (log_file_path.parent.name) *)
Definition _extract_project_path (parent_dir : string) : string :=
  if startswith "-" parent_dir && endswith "-" parent_dir then
    let decoded_path := replace_char "-"%char "/" (init (tail parent_dir)) in
    "/" ++ decoded_path
  else parent_dir.

Section WithRuntime.

Context {rt : Runtime}.

(* str(j) *)
Definition py_str (j : json) : string :=
  match j with
  | JStr s => s
  | _ => py_repr j
  end.

Definition detect_agent_invocations (text : string) : list string :=
  let text_lower := lower text in
  let direct_matches := re_findall direct_call text_lower in
  let context_matches := re_findall context_mention text_lower in
  let squad_matches := re_findall squad_mention text_lower in
  set_to_list (filter _is_valid_agent_name direct_matches ++
               filter _is_valid_agent_name context_matches ++
               filter _is_valid_agent_name squad_matches)%list.

(* one turn of [for item in message["content"]] *)
Definition add_text_item (content : string) (item : json) : result string :=
  match item with
  | JDict d =>
      if is_str (Dict.get d "type") "text" then
        match Dict.get_default d "text" (JStr EmptyString) with
        | JStr t => Ok (content ++ t ++ " ")
        | _ => Raise TypeError
        end
      else Ok content
  | _ => Ok content
  end.

Definition _extract_message_content (entry : dict json) : result string :=
  match Dict.get_default entry "message" (JDict []) with
  | JDict message =>
      match Dict.get message "content" with
      | Some (JStr s) => Ok (strip s)
      | Some (JList items) =>
          content <- fold_left
                       (fun acc item => content <- acc ;; add_text_item content item)
                       items (Ok EmptyString) ;;
          Ok (strip content)
      | _ => Ok EmptyString
      end
  | _ => Ok EmptyString
  end.

(* the tool patterns: a quoted key [name], a colon, any white space, the
   quoted tool identifier *)
Definition quoted (s : string) : string :=
  String dquote (s ++ String dquote EmptyString).

Definition name_key : string := quoted "name" ++ ":".

Fixpoint drop (n : nat) (s : string) : string :=
  match n, s with
  | S n', String _ s' => drop n' s'
  | _, _ => s
  end.

Definition tool_pattern_at (ident s : string) : bool :=
  startswith name_key s &&
  startswith (quoted ident) (lstrip (drop (String.length name_key) s)).

(* re.search(pattern, content) is not None *)
Fixpoint tool_pattern_search (ident s : string) : bool :=
  tool_pattern_at ident s ||
  match s with
  | EmptyString => false
  | String _ s' => tool_pattern_search ident s'
  end.

(* tool_patterns: (tool name, identifier in the pattern) *)
Definition tool_patterns : dict string :=
  [ ("bash", "Bash"); ("edit", "Edit"); ("read", "Read"); ("write", "Write");
    ("grep", "Grep"); ("glob", "Glob"); ("ls", "LS"); ("multiedit", "MultiEdit");
    ("webfetch", "WebFetch"); ("websearch", "WebSearch") ].

(* entry.get("type") == "assistant" and "message" in entry *)
Definition assistant_with_message (entry : dict json) : bool :=
  is_str (Dict.get entry "type") "assistant" && Dict.has entry "message".

(* entry["message"], on which [.get] is then called *)
Definition message_dict (entry : dict json) : result (dict json) :=
  match Dict.get entry "message" with
  | Some (JDict m) => Ok m
  | _ => Raise AttributeError
  end.

Definition _extract_tools_from_entry (entry : dict json) : result (list string) :=
  if assistant_with_message entry then
    message <- message_dict entry ;;
    let content := py_str (Dict.get_default message "content" (JStr EmptyString)) in
    Ok (map fst (filter (fun tp => tool_pattern_search (snd tp) content) tool_patterns))
  else Ok [].

(* an integer operand of [+] *)
Definition as_int (j : json) : result Z :=
  match j with
  | JInt z => Ok z
  | JBool b => Ok (if b then 1 else 0)
  | _ => Raise Unmodelled
  end.

Definition _extract_token_usage (entry : dict json) : result Z :=
  if assistant_with_message entry then
    message <- message_dict entry ;;
    match Dict.get_default message "usage" (JDict []) with
    | JDict usage =>
        i <- as_int (Dict.get_default usage "input_tokens" (JInt 0)) ;;
        o <- as_int (Dict.get_default usage "output_tokens" (JInt 0)) ;;
        c <- as_int (Dict.get_default usage "cache_read_input_tokens" (JInt 0)) ;;
        Ok (i + o + c)
    | _ => Raise AttributeError
    end
  else Ok 0.

Definition as_str (j : json) : result string :=
  match j with
  | JStr s => Ok s
  | _ => Raise Unmodelled
  end.

Definition _extract_model_info (entry : dict json) : result string :=
  if assistant_with_message entry then
    message <- message_dict entry ;;
    as_str (Dict.get_default message "model" (JStr EmptyString))
  else Ok EmptyString.

(* the body of the loop of _determine_task_success over the indices of
   range(start_idx, min(start_idx + 5, len(entries))) *)
Fixpoint scan_for_error (entries : list (dict json)) (indices : list nat)
  : result (bool * option string) :=
  match indices with
  | [] => Ok (true, None)
  | i :: rest =>
      match nth_error entries i with
      | None => Raise IndexError
      | Some entry =>
          if is_str (Dict.get entry "toolUseResult") "Error" then
            match Dict.get_default entry "message" (JDict []) with
            | JDict m =>
                Ok (false,
                    Some (py_str (Dict.get_default m "content" (JStr "Tool use error"))))
            | _ => Raise AttributeError
            end
          else
            content <- _extract_message_content entry ;;
            if negb (String.eqb content EmptyString) &&
               (contains "error" (lower content) || contains "failed" (lower content))
            then Ok (false, Some (take 200 content))
            else scan_for_error entries rest
      end
  end.

Definition _determine_task_success (entries : list (dict json)) (start_idx : nat)
  : result (bool * option string) :=
  let stop := Nat.min (start_idx + 5) (List.length entries) in
  scan_for_error entries (seq start_idx (stop - start_idx)).

Definition complexity_indicators : list string :=
  [ "architecture"; "design"; "refactor"; "optimize"; "debug";
    "implement"; "deploy"; "test"; "analyze"; "review" ].

Definition _calculate_complexity_score
  (content : string) (tools_used : list string) (tokens_used : Z) : Q :=
  let score := Qmin (Qmake (Z.of_nat (String.length content)) 1000) 2 in
  let score := (score + inject_Z (Z.of_nat (List.length (distinct tools_used))) * (3 # 10))%Q in
  let score :=
    if 2000 <? tokens_used then (score + 2)%Q
    else if 1000 <? tokens_used then (score + 1)%Q
    else if 500 <? tokens_used then (score + (1 # 2))%Q
    else score in
  let content_lower := lower content in
  let score :=
    fold_left (fun score indicator =>
                 if contains indicator content_lower then (score + (1 # 5))%Q else score)
              complexity_indicators score in
  Qmin score 5.

(* the body of [for i, entry in enumerate(entries)]: the invocations one
   entry appends; [Ok []] is [continue] *)
Definition entry_invocations
  (entries : list (dict json)) (project_path : string) (i : nat) (entry : dict json)
  : result (list AgentInvocation) :=
  if negb (is_str (Dict.get entry "type") "user" ||
           is_str (Dict.get entry "type") "assistant") then Ok []
  else
    let timestamp_str := Dict.get_default entry "timestamp" (JStr EmptyString) in
    if negb (truthy timestamp_str) then Ok []
    else
      match timestamp_str with
      | JStr ts =>
          match fromisoformat (replace_char "Z"%char "+00:00" ts) with
          | None => Ok []
          | Some timestamp =>
              content <- _extract_message_content entry ;;
              if String.eqb content EmptyString then Ok []
              else
                let agents_mentioned := detect_agent_invocations content in
                match agents_mentioned with
                | [] => Ok []
                | _ =>
                    tools_used <- _extract_tools_from_entry entry ;;
                    tokens_used <- _extract_token_usage entry ;;
                    model <- _extract_model_info entry ;;
                    se <- _determine_task_success entries i ;;
                    let complexity_score :=
                      _calculate_complexity_score content tools_used tokens_used in
                    session_id <- as_str (Dict.get_default entry "sessionId" (JStr "unknown")) ;;
                    git_branch <- as_str (Dict.get_default entry "gitBranch" (JStr EmptyString)) ;;
                    Ok (map (fun agent_name =>
                               mk_invocation agent_name session_id timestamp project_path
                                 (take 500 content) tools_used (fst se) (snd se)
                                 0%Q tokens_used model git_branch (Some []) 0 0
                                 complexity_score)
                            agents_mentioned)
                end
          end
      | _ => Ok []   (* .replace raises on a non-string; the bare except continues *)
      end.

Fixpoint extract_loop
  (entries : list (dict json)) (project_path : string)
  (pending : list (nat * dict json)) (invocations : list AgentInvocation)
  : result (list AgentInvocation) :=
  match pending with
  | [] => Ok invocations
  | (i, entry) :: rest =>
      new <- entry_invocations entries project_path i entry ;;
      extract_loop entries project_path rest (invocations ++ new)%list
  end.

Definition _extract_agent_invocations_from_entries
  (entries : list (dict json)) (project_path : string)
  : result (list AgentInvocation) :=
  extract_loop entries project_path
    (combine (seq 0 (List.length entries)) entries) [].

End WithRuntime.

(** *** Collaboration backfill

    The pass mutates the invocation objects it was given.  The list of
    objects is the store; an object is referred to by its position. *)

Definition set_collaboration_agents (inv : AgentInvocation) (c : list string)
  : AgentInvocation :=
  mk_invocation (agent_name inv) (session_id inv) (timestamp inv) (project_path inv)
    (task_description inv) (tools_used inv) (success inv) (error_message inv)
    (duration_seconds inv) (tokens_used inv) (model inv) (git_branch inv)
    (Some c) (inv_specialization_bonus inv) (inv_collaboration_bonus inv)
    (complexity_score inv).

Fixpoint update_at (st : list AgentInvocation) (r : nat)
  (f : AgentInvocation -> AgentInvocation) : list AgentInvocation :=
  match st, r with
  | [], _ => []
  | inv :: st', O => f inv :: st'
  | inv :: st', S r' => inv :: update_at st' r' f
  end.

Definition session_id_at (st : list AgentInvocation) (r : nat) : string :=
  match nth_error st r with
  | Some inv => session_id inv
  | None => EmptyString
  end.

(* [inv.agent_name for inv in session_invocations] *)
Definition names_at (st : list AgentInvocation) (refs : list nat) : list string :=
  flat_map (fun r => match nth_error st r with
                     | Some inv => [agent_name inv]
                     | None => []
                     end) refs.

(* inv.collaboration_agents = [name for name in agent_names if name != inv.agent_name] *)
Definition assign_collaboration (agent_names : list string)
  (st : list AgentInvocation) (r : nat) : list AgentInvocation :=
  update_at st r
    (fun inv =>
       set_collaboration_agents inv
         (filter (fun name => negb (String.eqb name (agent_name inv))) agent_names)).

Definition link_session (st : list AgentInvocation) (session_invocations : list nat)
  : list AgentInvocation :=
  if (1 <? List.length session_invocations)%nat then
    let agent_names := names_at st session_invocations in
    fold_left (assign_collaboration agent_names) session_invocations st
  else st.

Definition _add_collaboration_context (invocations : list AgentInvocation)
  : list AgentInvocation :=
  let sessions :=
    Dict.group_by (session_id_at invocations) (seq 0 (List.length invocations)) in
  fold_left link_session (map snd sessions) invocations.

(** *** Squad formations *)

(* list.sort(key=...): stable insertion sort on an integer key *)
Fixpoint insert_by {A : Type} (key : A -> Z) (x : A) (l : list A) : list A :=
  match l with
  | [] => [x]
  | y :: l' => if key y <? key x then y :: insert_by key x l' else x :: l
  end.

Definition sort_by {A : Type} (key : A -> Z) (l : list A) : list A :=
  fold_right (insert_by key) [] l.

(* the categories whose member list holds the agent, in table order *)
Definition categories_of (agent : string) : list string :=
  map fst (filter (fun c => mem agent (snd c)) specialization_categories).

Definition _classify_squad_formation (agents : list string) : string :=
  let agent_set := distinct agents in
  match find (fun f => (2 <=? List.length (filter (fun a => mem a (snd f)) agent_set))%nat)
             squad_formations with
  | Some f => fst f
  | None =>
      let specializations := flat_map categories_of agents in
      let n := List.length (distinct specializations) in
      if (3 <=? n)%nat then "multi-disciplinary"
      else if (n =? 2)%nat then join "-" (sorted (distinct specializations))
      else "specialized"
  end.

Definition count_success (invocations : list AgentInvocation) : nat :=
  List.length (filter success invocations).

Definition Qlen {A : Type} (l : list A) : Q := inject_Z (Z.of_nat (List.length l)).

Definition Qsum (l : list Q) : Q := fold_left Qplus l 0%Q.

(* [(timestamps[i+1] - timestamps[i]).total_seconds() for i in range(len(timestamps)-1)] *)
Fixpoint time_spans (timestamps : list datetime) : list Q :=
  match timestamps with
  | t1 :: ((t2 :: _) as rest) => total_seconds t2 t1 :: time_spans rest
  | _ => []
  end.

Definition specialization_score (agents : list string) : Q :=
  (Qlen (distinct (flat_map categories_of agents)) / Qlen agents)%Q.

Definition session_success_rate (invocations : list AgentInvocation) : Q :=
  (inject_Z (Z.of_nat (count_success invocations)) / Qlen invocations)%Q.

Definition coordination_score (invocations : list AgentInvocation) : Q :=
  let timestamps := sort_by instant (map timestamp invocations) in
  let spans := time_spans timestamps in
  let avg_gap := match spans with
                 | [] => 0%Q
                 | _ => (Qsum spans / Qlen spans)%Q
                 end in
  Qmax 0 (1 - avg_gap / 3600)%Q.

Definition _calculate_synergy_score
  (agents : list string) (invocations : list AgentInvocation) : result Q :=
  if (List.length agents <? 2)%nat then Ok 0%Q
  else
    match invocations with
    | [] => Raise ZeroDivisionError
    | _ =>
        Ok ((specialization_score agents + session_success_rate invocations +
             coordination_score invocations) / 3)%Q
    end.

Section WithRuntime.

Context {rt : Runtime}.

(* the body of [for session_id, session_invocations in sessions.items()];
   [Ok None] is [continue] *)
Definition session_formation
  (session_id : string) (session_invocations : list AgentInvocation)
  : result (option SquadFormation) :=
  if (List.length session_invocations <? 2)%nat then Ok None
  else
    let session_invocations :=
      sort_by (fun inv => instant (timestamp inv)) session_invocations in
    let agents := set_to_list (map agent_name session_invocations) in
    if (List.length agents <? 2)%nat then Ok None
    else
      let formation_type := _classify_squad_formation agents in
      match session_invocations with
      | [] => Raise IndexError
      | first :: _ =>
          let start_time := timestamp first in
          let end_time := timestamp (last session_invocations first) in
          let total_tasks := Z.of_nat (List.length session_invocations) in
          let success_count := Z.of_nat (count_success session_invocations) in
          let success_rate :=
            if 0 <? total_tasks then (inject_Z success_count / inject_Z total_tasks)%Q
            else 0%Q in
          synergy_score <- _calculate_synergy_score agents session_invocations ;;
          Ok (Some (mk_formation session_id agents start_time end_time
                      (project_path first) total_tasks success_rate synergy_score
                      formation_type))
      end.

Fixpoint formations_loop
  (sessions : dict (list AgentInvocation)) (formations : list SquadFormation)
  : result (list SquadFormation) :=
  match sessions with
  | [] => Ok formations
  | (session_id, session_invocations) :: rest =>
      f <- session_formation session_id session_invocations ;;
      formations_loop rest
        match f with
        | Some formation => (formations ++ [formation])%list
        | None => formations
        end
  end.

Definition detect_squad_formations (invocations : list AgentInvocation)
  : result (list SquadFormation) :=
  formations_loop (Dict.group_by session_id invocations) [].

End WithRuntime.

(** *** Per-agent XP *)

Definition _calculate_specialization_bonus
  (agent_name : string) (invocations : list AgentInvocation) : Z :=
  match find (fun c => mem agent_name (snd c)) specialization_categories with
  | None => 0
  | Some (agent_specialization, members) =>
      let in_domain (inv : AgentInvocation) :=
        let project_lower := lower (project_path inv) in
        contains agent_specialization project_lower ||
        existsb (fun keyword => contains keyword project_lower) members in
      let specialization_projects :=
        distinct (map project_path (filter in_domain invocations)) in
      Z.of_nat (List.length specialization_projects) * 20
  end.

Definition _calculate_consistency_bonus (invocations : list AgentInvocation) : Z :=
  if (List.length invocations <? 2)%nat then 0
  else
    let usage_dates := nodup Z.eq_dec (map (fun inv => date (timestamp inv)) invocations) in
    let n := List.length usage_dates in
    if (7 <=? n)%nat then 100
    else if (3 <=? n)%nat then 50
    else if (2 <=? n)%nat then 25
    else 0.

Definition _calculate_level_from_xp (xp : Z) : Z :=
  match find (fun tl => fst tl <=? xp) (rev xp_levels) with
  | Some (_, level) => level
  | None => 1
  end.

Definition _get_next_level_xp (current_level : Z) : Z :=
  match find (fun tl => current_level <? snd tl) xp_levels with
  | Some (threshold, _) => threshold
  | None => fst (last xp_levels (0, 1))
  end.

(* truthiness of inv.collaboration_agents *)
Definition has_collaboration (inv : AgentInvocation) : bool :=
  match collaboration_agents inv with
  | Some (_ :: _) => true
  | _ => false
  end.

Definition _calculate_individual_agent_xp
  (agent_name : string) (invocations : list AgentInvocation)
  : result AgentXPCalculation :=
  let base_xp := Z.of_nat (List.length invocations) * 20 in
  let success_count := Z.of_nat (count_success invocations) in
  let success_bonus := success_count * 30 in
  let unique_tools := distinct (flat_map tools_used invocations) in
  let tool_mastery_bonus := Z.of_nat (List.length unique_tools) * 15 in
  match invocations with
  | [] => Raise ZeroDivisionError
  | _ =>
      let avg_complexity :=
        (Qsum (map complexity_score invocations) / Qlen invocations)%Q in
      let complexity_bonus :=
        int_of_float (avg_complexity * 40 * Qlen invocations)%Q in
      let collaboration_count :=
        Z.of_nat (List.length (filter has_collaboration invocations)) in
      let collaboration_bonus := collaboration_count * 25 in
      let specialization_bonus :=
        _calculate_specialization_bonus agent_name invocations in
      let consistency_bonus := _calculate_consistency_bonus invocations in
      let total_xp := base_xp + success_bonus + tool_mastery_bonus +
                      complexity_bonus + collaboration_bonus +
                      specialization_bonus + consistency_bonus in
      let level := _calculate_level_from_xp total_xp in
      let next_level_xp := _get_next_level_xp level in
      Ok (mk_xp agent_name base_xp success_bonus tool_mastery_bonus
            complexity_bonus collaboration_bonus specialization_bonus
            consistency_bonus total_xp level next_level_xp)
  end.

Fixpoint xp_loop
  (agent_invocations : dict (list AgentInvocation)) (agent_xp : dict AgentXPCalculation)
  : result (dict AgentXPCalculation) :=
  match agent_invocations with
  | [] => Ok agent_xp
  | (agent_name, agent_invs) :: rest =>
      xp_calc <- _calculate_individual_agent_xp agent_name agent_invs ;;
      xp_loop rest (agent_xp ++ [(agent_name, xp_calc)])%list
  end.

Definition calculate_agent_xp (invocations : list AgentInvocation)
  : result (dict AgentXPCalculation) :=
  xp_loop (Dict.group_by agent_name invocations) [].

End Analyzer.

(** ** [xp_system_redesign.py] *)

Module Redesign.

(* self.base_rates, the integer-valued entries *)
Definition base_rates_int : dict Z :=
  [ ("input_tokens_per_xp", 100); ("output_tokens_per_xp", 50);
    ("cache_tokens_per_xp", 200);
    ("simple_task", 50); ("medium_task", 200); ("complex_task", 500);
    ("mission_completion", 1000);
    ("tool_use_base", 10);
    ("daily_login", 100); ("streak_7_days", 1000); ("streak_30_days", 5000) ].

(* self.base_rates, the float-valued entries *)
Definition base_rates_float : dict Q :=
  [ ("tool_combo_multiplier", 12 # 10); ("efficient_tool_multiplier", 15 # 10);
    ("speed_multiplier", 2 # 1); ("zero_errors_multiplier", 15 # 10);
    ("first_try_success_multiplier", 13 # 10) ].

(* self.base_rates[key] *)
Definition rate_int (key : string) : Z := Dict.get_default base_rates_int key 0.
Definition rate_float (key : string) : Q := Dict.get_default base_rates_float key 0%Q.

(* range(lo, hi) *)
Definition range (lo hi : Z) : list Z :=
  map (fun k => lo + Z.of_nat k) (seq 0 (Z.to_nat (hi - lo))).

(* one tier loop of _calculate_realistic_thresholds:
     for level in range(lo, hi):
         increment = base + (level - lo) * step
         base_xp += increment
         thresholds.append(base_xp) *)
Definition tier (lo hi base step : Z) (state : Z * list Z) : Z * list Z :=
  fold_left
    (fun st level =>
       let increment := base + (level - lo) * step in
       let base_xp := fst st + increment in
       (base_xp, (snd st ++ [base_xp])%list))
    (range lo hi) state.

Definition _calculate_realistic_thresholds : list Z :=
  let st := (0, [0]) in
  let st := tier 2 11 200 150 st in
  let st := tier 11 31 800 200 st in
  let st := tier 31 71 2000 300 st in
  let st := tier 71 121 8000 500 st in
  let st := tier 121 201 15000 1000 st in
  let st := tier 201 301 30000 2000 st in
  snd st.

Definition level_thresholds : list Z := _calculate_realistic_thresholds.

(* for level, threshold in enumerate(thresholds): if xp < threshold: return level *)
Fixpoint first_exceeding (thresholds : list Z) (level : Z) (xp : Z) : option Z :=
  match thresholds with
  | [] => None
  | threshold :: rest =>
      if xp <? threshold then Some level
      else first_exceeding rest (level + 1) xp
  end.

Definition level_lookup (thresholds : list Z) (xp : Z) : Z :=
  match first_exceeding thresholds 0 xp with
  | Some level => level
  | None => Z.of_nat (List.length thresholds)
  end.

Definition get_level_from_xp (xp : Z) : Z := level_lookup level_thresholds xp.

(* thresholds[-1] and thresholds[level - 1]; the table is not empty and the
   index is within it where the code reads it *)
Definition xp_for_level (thresholds : list Z) (level : Z) : Z :=
  if level <=? 0 then 0
  else if Z.of_nat (List.length thresholds) <=? level then last thresholds 0
  else nth (Z.to_nat (level - 1)) thresholds 0.

Definition get_xp_for_level (level : Z) : Z := xp_for_level level_thresholds level.

Record SessionData : Type := mk_session {
  tokens : option (dict Z);              (* session_data["tokens"], when present *)
  tasks : option (list (dict string));   (* session_data["tasks"], when present *)
  tools_used : option (list string);     (* session_data["tools_used"], when present *)
  efficient_tools : bool;
  fast_completion : bool;
  zero_errors : bool;
  first_try_success : bool;
  daily_login : bool;
  streak_days : Z
}.

Record TokenBreakdown : Type := mk_token_breakdown {
  input_xp : Z;
  output_xp : Z;
  cache_xp : Z;
  total : Z
}.

Record PerformanceBonus : Type := mk_performance_bonus {
  multiplier : Q;
  bonus_xp : Z;
  reasons : list string
}.

Record Breakdown : Type := mk_breakdown {
  b_tokens : option TokenBreakdown;
  b_tasks : option Z;
  b_tools : option Z;
  performance_bonus : option PerformanceBonus;
  engagement : option Z
}.

(* self.base_rates.get(f"{complexity}_task", 50); no float-valued key ends in "_task" *)
Definition task_rate (task : dict string) : Z :=
  let complexity := Dict.get_default task "complexity" "simple" in
  Dict.get_default base_rates_int (complexity ++ "_task") 50.

Definition token_breakdown (t : dict Z) : TokenBreakdown :=
  let input_xp := Dict.get_default t "input" 0 / rate_int "input_tokens_per_xp" in
  let output_xp := Dict.get_default t "output" 0 / rate_int "output_tokens_per_xp" in
  let cache_xp := Dict.get_default t "cache" 0 / rate_int "cache_tokens_per_xp" in
  let token_xp := input_xp + output_xp + cache_xp in
  mk_token_breakdown input_xp output_xp cache_xp token_xp.

Definition task_xp_of (ts : list (dict string)) : Z :=
  fold_left (fun task_xp task => task_xp + task_rate task) ts 0.

Definition tool_xp_of (sd : SessionData) (tools : list string) : Z :=
  let tool_xp := Z.of_nat (List.length tools) * rate_int "tool_use_base" in
  let tool_xp :=
    if (3 <? List.length tools)%nat
    then int_of_float (inject_Z tool_xp * rate_float "tool_combo_multiplier")%Q
    else tool_xp in
  if efficient_tools sd
  then int_of_float (inject_Z tool_xp * rate_float "efficient_tool_multiplier")%Q
  else tool_xp.

(* the multiplier and its reasons after the three flag tests *)
Definition performance_multiplier (sd : SessionData) : Q * list string :=
  let multiplier := 1%Q in
  let multiplier_reasons : list string := [] in
  let '(multiplier, multiplier_reasons) :=
    if fast_completion sd
    then ((multiplier * rate_float "speed_multiplier")%Q,
          (multiplier_reasons ++ ["Speed Demon"])%list)
    else (multiplier, multiplier_reasons) in
  let '(multiplier, multiplier_reasons) :=
    if zero_errors sd
    then ((multiplier * rate_float "zero_errors_multiplier")%Q,
          (multiplier_reasons ++ ["Flawless Execution"])%list)
    else (multiplier, multiplier_reasons) in
  if first_try_success sd
  then ((multiplier * rate_float "first_try_success_multiplier")%Q,
        (multiplier_reasons ++ ["First Try Success"])%list)
  else (multiplier, multiplier_reasons).

Definition engagement_xp_of (sd : SessionData) : Z :=
  let engagement_xp := 0 in
  let engagement_xp :=
    if daily_login sd then engagement_xp + rate_int "daily_login" else engagement_xp in
  let engagement_xp :=
    if 7 <=? streak_days sd then engagement_xp + rate_int "streak_7_days"
    else engagement_xp in
  if 30 <=? streak_days sd then engagement_xp + rate_int "streak_30_days"
  else engagement_xp.

Definition calculate_session_xp (sd : SessionData) : Z * Breakdown :=
  let total_xp := 0 in
  (* Token-based XP *)
  let '(total_xp, b_tokens) :=
    match tokens sd with
    | Some t => let tb := token_breakdown t in (total_xp + total tb, Some tb)
    | None => (total_xp, None)
    end in
  (* Task complexity XP *)
  let '(total_xp, b_tasks) :=
    match tasks sd with
    | Some ts => let task_xp := task_xp_of ts in (total_xp + task_xp, Some task_xp)
    | None => (total_xp, None)
    end in
  (* Tool usage XP *)
  let '(total_xp, b_tools) :=
    match tools_used sd with
    | Some tools => let tool_xp := tool_xp_of sd tools in (total_xp + tool_xp, Some tool_xp)
    | None => (total_xp, None)
    end in
  (* Performance multipliers *)
  let '(multiplier, multiplier_reasons) := performance_multiplier sd in
  let '(total_xp, b_perf) :=
    if negb (Qle_bool multiplier 1)
    then
      let bonus_xp := int_of_float (inject_Z total_xp * (multiplier - 1))%Q in
      (int_of_float (inject_Z total_xp * multiplier)%Q,
       Some (mk_performance_bonus multiplier bonus_xp multiplier_reasons))
    else (total_xp, None) in
  (* Daily engagement bonuses *)
  let engagement_xp := engagement_xp_of sd in
  if 0 <? engagement_xp
  then (total_xp + engagement_xp,
        mk_breakdown b_tokens b_tasks b_tools b_perf (Some engagement_xp))
  else (total_xp, mk_breakdown b_tokens b_tasks b_tools b_perf None).

End Redesign.

(** ** [agents_tracker.py] *)

Module Tracker.

Definition complex_keywords : list string :=
  [ "architecture"; "refactor"; "implement"; "design"; "system"; "framework";
    "api"; "database" ].

Definition medium_keywords : list string :=
  [ "debug"; "fix"; "update"; "modify"; "enhance"; "optimize"; "test"; "analyze" ].

Definition _determine_task_complexity (task : string) : string :=
  let task_lower := PyStr.lower task in
  if existsb (fun keyword => PyStr.contains keyword task_lower) complex_keywords
  then "complex"
  else if existsb (fun keyword => PyStr.contains keyword task_lower) medium_keywords
  then "medium"
  else "simple".

(* the task list log_agent_call adds when session_data has no "tasks":
     session_data["tasks"] = [{"complexity": complexity}] *)
Definition default_tasks (task : string) : list (dict string) :=
  [ [("complexity", _determine_task_complexity task)] ].

(* _calculate_level *)
Definition _calculate_level (xp : Z) : Z := Redesign.get_level_from_xp xp.

End Tracker.

(** ** A runtime for the examples

    Sets yield their members in order of last insertion; [re.findall] is
    given for the direct-call pattern on texts without an [agent/] or
    [agents/] prefix (the run of name characters after each slash), and
    finds nothing for the context and squad patterns, whose keywords the
    example texts do not contain; [fromisoformat] knows the timestamps of
    the examples. *)

Module Sample.

Definition is_name_char (c : ascii) : bool :=
  let n := nat_of_ascii c in
  ((48 <=? n) && (n <=? 57) || (65 <=? n) && (n <=? 90) ||
   (97 <=? n) && (n <=? 122) || (n =? 45) || (n =? 95))%nat.

(* the maximal run of name characters at the head of [s], and the rest *)
Fixpoint name_run (s : string) : string * string :=
  match s with
  | EmptyString => (EmptyString, EmptyString)
  | String c s' =>
      if is_name_char c
      then let r := name_run s' in (String c (fst r), snd r)
      else (EmptyString, s)
  end.

Fixpoint direct_names (fuel : nat) (s : string) : list string :=
  match fuel, s with
  | S fuel', String c s' =>
      if Ascii.eqb c "/"%char then
        let r := name_run s' in
        match fst r with
        | EmptyString => direct_names fuel' s'
        | name => name :: direct_names fuel' (snd r)
        end
      else direct_names fuel' s'
  | _, _ => []
  end.

Definition known_timestamps : dict datetime :=
  [ ("2025-01-15T10:00:00+00:00", mk_datetime 1736935200000000 0);
    ("2025-01-15T10:10:00+00:00", mk_datetime 1736935800000000 0) ].

#[export] Instance runtime : Runtime := {|
  set_to_list := nodup string_dec;
  set_to_list_NoDup := NoDup_nodup string_dec;
  set_to_list_In := fun l x => nodup_In string_dec l x;
  py_repr := fun _ => "<repr>";
  re_findall := fun p text =>
    match p with
    | direct_call => direct_names (String.length text) text
    | _ => []
    end;
  fromisoformat := Dict.get known_timestamps
|}.

End Sample.

(** ** Notions the properties are stated in *)

(* the elements of key [k] under [key] *)
Definition keyed {A : Type} (key : A -> string) (k : string) (x : A) : bool :=
  String.eqb (key x) k.

Module Notions.

Import Analyzer.

(* the invocation with its own name filtered out of the session's names *)
Definition linked (agent_names : list string) (inv : AgentInvocation)
  : AgentInvocation :=
  set_collaboration_agents inv
    (filter (fun name => negb (String.eqb name (agent_name inv))) agent_names).

(* every field but collaboration_agents agrees *)
Definition same_but_collaboration (a b : AgentInvocation) : Prop :=
  agent_name a = agent_name b /\
  session_id a = session_id b /\
  timestamp a = timestamp b /\
  project_path a = project_path b /\
  task_description a = task_description b /\
  tools_used a = tools_used b /\
  success a = success b /\
  error_message a = error_message b /\
  duration_seconds a = duration_seconds b /\
  tokens_used a = tokens_used b /\
  model a = model b /\
  git_branch a = git_branch b /\
  inv_specialization_bonus a = inv_specialization_bonus b /\
  inv_collaboration_bonus a = inv_collaboration_bonus b /\
  complexity_score a = complexity_score b.

(* the invocations of the session of [inv], in list order *)
Definition session_of (invocations : list AgentInvocation) (inv : AgentInvocation)
  : list AgentInvocation :=
  filter (keyed session_id (session_id inv)) invocations.

Definition all_members : list string := flat_map snd specialization_categories.

(* the session of [sid], in list order, and as the detector sorts it *)
Definition session (invocations : list AgentInvocation) (sid : string)
  : list AgentInvocation :=
  filter (keyed session_id sid) invocations.

Definition sorted_session (invocations : list AgentInvocation) (sid : string)
  : list AgentInvocation :=
  sort_by (fun inv => instant (timestamp inv)) (session invocations sid).

Section WithRuntime.

Context {rt : Runtime}.

(* [f] is the formation of the session [xs] of id [sid] *)
Definition formed (sid : string) (xs : list AgentInvocation) (f : SquadFormation)
  : Prop :=
  let s := sort_by (fun inv => instant (timestamp inv)) xs in
  sf_session_id f = sid /\
  agents f = set_to_list (map agent_name s) /\
  (2 <= List.length (agents f))%nat /\
  (2 <= List.length xs)%nat /\
  total_tasks f = Z.of_nat (List.length xs) /\
  formation_type f = _classify_squad_formation (agents f) /\
  synergy_score f =
    ((specialization_score (agents f) + session_success_rate s +
      coordination_score s) / 3)%Q.

End WithRuntime.

(* the itemized fields add up to the total *)
Definition itemized (x : AgentXPCalculation) : Prop :=
  total_xp x =
  base_xp x + success_bonus x + tool_mastery_bonus x + complexity_bonus x +
  collaboration_bonus x + specialization_bonus x + consistency_bonus x.

(* scanning a table from its highest threshold down; [rows] is the table
   reversed *)
Definition scan_down (rows : list (Z * Z)) (xp : Z) : Z :=
  match find (fun tl => fst tl <=? xp) rows with
  | Some (_, level) => level
  | None => 1
  end.

(* levels fall along the reversed table and stay at or above the default *)
Fixpoint levels_fall (rows : list (Z * Z)) : Prop :=
  match rows with
  | [] => True
  | (_, level) :: rest =>
      1 <= level /\ Forall (fun tl => snd tl <= level) rest /\ levels_fall rest
  end.

(* the level found from [level] on, or the count past the table *)
Definition lookup_from (thresholds : list Z) (level xp : Z) : Z :=
  match Redesign.first_exceeding thresholds level xp with
  | Some l => l
  | None => level + Z.of_nat (List.length thresholds)
  end.

End Notions.

Module SessionNotions.

Import Redesign.

(* the multiplier as the product of the factors of the flags that are set *)
Definition product_of_flags (sd : SessionData) : Q :=
  ((if fast_completion sd then 2 else 1) *
   (if zero_errors sd then 3 # 2 else 1) *
   (if first_try_success sd then 13 # 10 else 1))%Q.

Definition any_flag (sd : SessionData) : bool :=
  fast_completion sd || zero_errors sd || first_try_success sd.

(* token XP + task XP + tool XP, each counted when its key is present *)
Definition subtotal (sd : SessionData) : Z :=
  match tokens sd with Some t => total (token_breakdown t) | None => 0 end +
  match tasks sd with Some ts => task_xp_of ts | None => 0 end +
  match tools_used sd with Some tools => tool_xp_of sd tools | None => 0 end.

(* the flat bonuses: login, seven-day streak, thirty-day streak *)
Definition flat_engagement (sd : SessionData) : Z :=
  (if daily_login sd then 100 else 0) +
  (if 7 <=? streak_days sd then 1000 else 0) +
  (if 30 <=? streak_days sd then 5000 else 0).

End SessionNotions.

(** ** Example inputs *)

Module Examples.

Import Analyzer.

(* an invocation as the extractor creates it *)
Definition invocation
  (name session : string) (at_us : Z) (ok : bool) : AgentInvocation :=
  mk_invocation name session (mk_datetime at_us 0) "/home/dev/shop"
    "task" [] ok None 0%Q 0 EmptyString EmptyString (Some []) 0 0 0%Q.

Definition t0 : Z := 1736935200000000.

(* one session: backend-architect once, python-pro twice *)
Definition repeated_agent : list AgentInvocation :=
  [ invocation "backend-architect" "s1" t0 true;
    invocation "python-pro" "s1" (t0 + 60000000) true;
    invocation "python-pro" "s1" (t0 + 120000000) true ].

(* l holds some member twice *)
Definition has_duplicates (l : list string) : bool :=
  negb (List.length (PyStr.distinct l) =? List.length l)%nat.

(* a session of two agents, a minute apart, both successful; data-engineer
   is a member of the python and of the data category *)
Definition two_categories : list AgentInvocation :=
  [ invocation "data-engineer" "s1" t0 true;
    invocation "backend-architect" "s1" (t0 + 60000000) true ].

(* a session in which python-pro comes before backend-architect *)
Definition unsorted_names : list AgentInvocation :=
  [ invocation "python-pro" "s1" t0 true;
    invocation "backend-architect" "s1" (t0 + 60000000) true ].

Definition list_eqb (a b : list string) : bool :=
  if list_eq_dec string_dec a b then true else false.

End Examples.

Module LogExamples.

(* a user entry, as a line of a conversation log *)
Definition user_entry (ts text : string) : dict json :=
  [ ("type", JStr "user");
    ("timestamp", JStr ts);
    ("sessionId", JStr "s1");
    ("message", JDict [("role", JStr "user"); ("content", JStr text)]) ].

(* a tool result reported as an error *)
Definition tool_error : dict json :=
  [ ("type", JStr "user");
    ("toolUseResult", JStr "Error");
    ("message", JDict [("content", JStr "command not found")]) ].

Definition plain (text : string) : dict json :=
  [ ("type", JStr "assistant");
    ("message", JDict [("content", JStr text)]) ].

(* the request itself speaks of an error; nothing follows it *)
Definition own_error : list (dict json) :=
  [ user_entry "2025-01-15T10:00:00Z" "/python-pro fix the error in the parser" ].

(* the fifth entry after the request reports a tool error *)
Definition late_error : list (dict json) :=
  [ user_entry "2025-01-15T10:00:00Z" "/python-pro tidy the parser";
    plain "reading the module"; plain "editing"; plain "running the suite";
    plain "done"; tool_error ].

Definition project : string := "/home/dev/shop".

End LogExamples.

(** ** Notions of the further properties *)

Module FurtherNotions.

Import Analyzer Notions.

(* what the extractor promises of an invocation it creates for a project *)
Definition well_formed (path : string) (inv : AgentInvocation) : Prop :=
  _is_valid_agent_name (agent_name inv) = true /\
  project_path inv = path /\
  collaboration_agents inv = Some [] /\
  task_description inv <> EmptyString /\
  (String.length (task_description inv) <= 500)%nat /\
  (0 <= complexity_score inv /\ complexity_score inv <= 5)%Q /\
  (success inv = true <-> error_message inv = None).

(* the invocation the loop body creates for one detected name *)
Definition created
  (sid : string) (ts : datetime) (path content : string) (tools : list string)
  (verdict : bool * option string) (tokens : Z) (mdl branch : string)
  (name : string) : AgentInvocation :=
  mk_invocation name sid ts path (PyStr.take 500 content) tools
    (fst verdict) (snd verdict) 0%Q tokens mdl branch (Some []) 0 0
    (_calculate_complexity_score content tools tokens).

(* every field but agent_name agrees *)
Definition same_but_name (a b : AgentInvocation) : Prop :=
  session_id a = session_id b /\
  timestamp a = timestamp b /\
  project_path a = project_path b /\
  task_description a = task_description b /\
  tools_used a = tools_used b /\
  success a = success b /\
  error_message a = error_message b /\
  duration_seconds a = duration_seconds b /\
  tokens_used a = tokens_used b /\
  model a = model b /\
  git_branch a = git_branch b /\
  collaboration_agents a = collaboration_agents b /\
  inv_specialization_bonus a = inv_specialization_bonus b /\
  inv_collaboration_bonus a = inv_collaboration_bonus b /\
  complexity_score a = complexity_score b.

(* an entry the extraction loop passes over before it reads its message *)
Definition passed_over {rt : Runtime} (entry : dict json) : bool :=
  negb (is_str (Dict.get entry "type") "user" ||
        is_str (Dict.get entry "type") "assistant") ||
  match Dict.get entry "timestamp" with
  | Some (JStr ts) =>
      String.eqb ts EmptyString ||
      match fromisoformat (PyStr.replace_char "Z"%char "+00:00" ts) with
      | Some _ => false
      | None => true
      end
  | _ => true
  end.

(* two formations that differ at most in the order of their agents *)
Definition same_but_agent_order (f g : SquadFormation) : Prop :=
  sf_session_id f = sf_session_id g /\
  Permutation (agents f) (agents g) /\
  start_time f = start_time g /\
  end_time f = end_time g /\
  sf_project_path f = sf_project_path g /\
  total_tasks f = total_tasks g /\
  success_rate f = success_rate g /\
  synergy_score f = synergy_score g /\
  formation_type f = formation_type g.

(* the invocation at a position after the pass *)
Definition passed (invocations : list AgentInvocation) (inv : AgentInvocation)
  : AgentInvocation :=
  if (2 <=? List.length (session_of invocations inv))%nat
  then linked (map agent_name (session_of invocations inv)) inv
  else inv.

(* the names of the specialization categories *)
Definition category_names : list string := map fst specialization_categories.

(* the sort key of detect_squad_formations: x.timestamp *)
Definition by_time (inv : AgentInvocation) : Z := instant (timestamp inv).

(* the fields of the formation of a session, besides those of [formed] *)
Definition timed (xs : list AgentInvocation) (f : SquadFormation) : Prop :=
  (exists a b, In a xs /\ In b xs /\
               start_time f = timestamp a /\ end_time f = timestamp b /\
               sf_project_path f = project_path a) /\
  (forall inv, In inv xs ->
               instant (start_time f) <= by_time inv <= instant (end_time f)) /\
  success_rate f =
    (inject_Z (Z.of_nat (count_success xs)) / inject_Z (Z.of_nat (List.length xs)))%Q.

End FurtherNotions.

(** * Properties *)

(** ** The embedding on concrete inputs *)

Module Checks.

Example check_lower : PyStr.lower "Fix the ERROR" = "fix the error".
Proof. reflexivity. Qed.

Example check_strip : PyStr.strip "  two words  " = "two words".
Proof. reflexivity. Qed.

Example check_split :
  PyStr.split_on "-"%char "full-stack-architect" = ["full"; "stack"; "architect"].
Proof. reflexivity. Qed.

Example check_valid_name :
  Analyzer._is_valid_agent_name "backend-architect" = true /\
  Analyzer._is_valid_agent_name "usr-local-bin" = false.
Proof. split; reflexivity. Qed.

Example check_tool_pattern :
  Analyzer.tool_pattern_search "Bash"
    ("{" ++ Analyzer.quoted "name" ++ ":  " ++ Analyzer.quoted "Bash" ++ "}") = true /\
  Analyzer.tool_pattern_search "Bash"
    ("{" ++ Analyzer.quoted "name" ++ ": " ++ Analyzer.quoted "BashOutput" ++ "}") = false.
Proof. split; reflexivity. Qed.

Example check_analyzer_levels :
  map Analyzer._calculate_level_from_xp [0; 99; 100; 299; 300; 9999; 10000; 500000]
  = [1; 1; 2; 2; 3; 9; 10; 10].
Proof. reflexivity. Qed.

Example check_next_level :
  map Analyzer._get_next_level_xp [1; 5; 9; 10] = [100; 1500; 10000; 10000].
Proof. reflexivity. Qed.

Example check_thresholds :
  List.length Redesign.level_thresholds = 300%nat /\
  firstn 5 Redesign.level_thresholds = [0; 200; 550; 1050; 1700] /\
  nth 10 Redesign.level_thresholds 0 = 8000.
Proof. repeat split. Qed.

Example check_redesign_levels :
  map Redesign.get_level_from_xp [-1; 0; 199; 200; 549; 550] = [0; 1; 1; 2; 2; 3].
Proof. reflexivity. Qed.

Example check_classify :
  Analyzer._classify_squad_formation ["frontend-developer"; "backend-architect"]
    = "full-stack" /\
  Analyzer._classify_squad_formation ["python-pro"; "golang-pro"]
    = "backend-python" /\
  Analyzer._classify_squad_formation ["python-pro"; "tidy-pro"] = "specialized".
Proof. repeat split. Qed.

(* 1000 input and 500 output tokens, one medium task, four tools, the three
   performance flags, a login on the thirtieth day of a streak *)
Definition busy_session : Redesign.SessionData :=
  Redesign.mk_session
    (Some [("input", 1000); ("output", 500)])
    (Some [[("complexity", "medium")]])
    (Some ["Read"; "Edit"; "Bash"; "Grep"])
    false true true true true 30.

Example check_session_xp :
  fst (Redesign.calculate_session_xp busy_session) = 7145 /\
  SessionNotions.subtotal busy_session = 268 /\
  option_map Redesign.bonus_xp
    (Redesign.performance_bonus (snd (Redesign.calculate_session_xp busy_session)))
    = Some 777 /\
  Redesign.engagement (snd (Redesign.calculate_session_xp busy_session)) = Some 6100.
Proof. repeat split; vm_compute; reflexivity. Qed.

End Checks.

(** ** Grouping by key *)

Section GroupBy.

Context {A : Type} (key : A -> string).

Lemma get_append_to (d : dict (list A)) (k k' : string) (x : A) :
  Dict.get (Dict.append_to d k x) k' =
  if String.eqb k' k then Some (Dict.get_default d k [] ++ [x])%list
  else Dict.get d k'.
Proof.
  unfold Dict.get_default.
  induction d as [| [k0 xs] d IH]; simpl.
  - destruct (String.eqb k' k); reflexivity.
  - destruct (String.eqb k k0) eqn:E; simpl.
    + apply String.eqb_eq in E; subst k0.
      destruct (String.eqb k' k); reflexivity.
    + destruct (String.eqb k' k0) eqn:E'.
      * apply String.eqb_eq in E'; subst k0.
        rewrite String.eqb_sym in E. rewrite E. reflexivity.
      * rewrite IH. reflexivity.
Qed.

Lemma keys_append_to (d : dict (list A)) (k : string) (x : A) :
  map fst (Dict.append_to d k x) =
  if Dict.has d k then map fst d else (map fst d ++ [k])%list.
Proof.
  unfold Dict.has.
  induction d as [| [k0 xs] d IH]; simpl; [reflexivity|].
  destruct (String.eqb k k0) eqn:E; simpl; [reflexivity|].
  rewrite IH. destruct (Dict.get d k); reflexivity.
Qed.

Lemma get_None_not_key {V : Type} (d : dict V) (k : string) :
  Dict.get d k = None -> ~ In k (map fst d).
Proof.
  induction d as [| [k0 v] d IH]; simpl; [tauto|].
  destruct (String.eqb k k0) eqn:E; [discriminate|].
  intros H [H0 | H0].
  - subst k0. rewrite String.eqb_refl in E. discriminate.
  - exact (IH H H0).
Qed.

Lemma get_In {V : Type} (d : dict V) (k : string) (v : V) :
  Dict.get d k = Some v -> In (k, v) d.
Proof.
  induction d as [| [k0 v0] d IH]; simpl; [discriminate|].
  destruct (String.eqb k k0) eqn:E.
  - apply String.eqb_eq in E. subst k0. intros [= ->]. now left.
  - intros H. right. now apply IH.
Qed.

Lemma In_get {V : Type} (d : dict V) (k : string) (v : V) :
  NoDup (map fst d) -> In (k, v) d -> Dict.get d k = Some v.
Proof.
  induction d as [| [k0 v0] d IH]; simpl; [tauto|].
  intros Hnd [H | H].
  - injection H as -> ->. now rewrite String.eqb_refl.
  - inversion Hnd as [| ? ? Hnotin Hnd']; subst.
    destruct (String.eqb k k0) eqn:E.
    + apply String.eqb_eq in E. subst k0.
      exfalso. apply Hnotin. change k with (fst (k, v)). now apply in_map.
    + now apply IH.
Qed.

Lemma group_by_snoc (l : list A) (x : A) :
  Dict.group_by key (l ++ [x]) = Dict.append_to (Dict.group_by key l) (key x) x.
Proof. unfold Dict.group_by. now rewrite fold_left_app. Qed.

(* the group of a key is the sublist of the elements with that key, in order *)
Lemma get_group_by (l : list A) (k : string) :
  Dict.get (Dict.group_by key l) k =
  match filter (keyed key k) l with
  | [] => None
  | xs => Some xs
  end.
Proof.
  induction l as [| x l IH] using rev_ind; [reflexivity|].
  rewrite group_by_snoc, get_append_to, filter_app. simpl. unfold keyed at 2.
  rewrite (String.eqb_sym (key x) k).
  destruct (String.eqb k (key x)) eqn:E.
  - apply String.eqb_eq in E. subst k.
    unfold Dict.get_default. rewrite IH.
    destruct (filter (keyed key (key x)) l); reflexivity.
  - rewrite app_nil_r. exact IH.
Qed.

Lemma group_by_keys_NoDup (l : list A) : NoDup (map fst (Dict.group_by key l)).
Proof.
  induction l as [| x l IH] using rev_ind; [constructor|].
  rewrite group_by_snoc, keys_append_to. unfold Dict.has.
  destruct (Dict.get (Dict.group_by key l) (key x)) eqn:E; [exact IH|].
  apply get_None_not_key in E.
  apply NoDup_rev in IH. rewrite <- (rev_involutive (_ ++ _)).
  apply NoDup_rev. rewrite rev_app_distr. simpl. constructor; [|exact IH].
  now rewrite <- in_rev.
Qed.

Lemma group_by_In (l : list A) (k : string) (xs : list A) :
  In (k, xs) (Dict.group_by key l) -> xs = filter (keyed key k) l /\ xs <> [].
Proof.
  intros H. apply In_get in H; [|apply group_by_keys_NoDup].
  rewrite get_group_by in H.
  destruct (filter (keyed key k) l) eqn:E; [discriminate|].
  injection H as <-. split; [reflexivity | discriminate].
Qed.

Lemma group_by_has (l : list A) (x : A) :
  In x l -> In (key x, filter (keyed key (key x)) l) (Dict.group_by key l).
Proof.
  intros H. apply get_In. rewrite get_group_by.
  destruct (filter (keyed key (key x)) l) eqn:E; [|reflexivity].
  assert (Hin : In x (filter (keyed key (key x)) l)).
  { apply filter_In. split; [exact H|]. apply String.eqb_refl. }
  rewrite E in Hin. destruct Hin.
Qed.

End GroupBy.

(** ** The collaboration backfill *)

Module CollaborationFacts.

Import Analyzer Notions.

Lemma same_refl (a : AgentInvocation) : same_but_collaboration a a.
Proof. repeat split. Qed.

Lemma same_trans (a b c : AgentInvocation) :
  same_but_collaboration a b -> same_but_collaboration b c ->
  same_but_collaboration a c.
Proof.
  unfold same_but_collaboration. intros H1 H2.
  repeat match goal with H : _ /\ _ |- _ => destruct H end.
  repeat split; congruence.
Qed.

Lemma same_set (a : AgentInvocation) (c : list string) :
  same_but_collaboration a (set_collaboration_agents a c).
Proof. repeat split. Qed.

Lemma linked_linked (names : list string) (inv : AgentInvocation) :
  linked names (linked names inv) = linked names inv.
Proof. reflexivity. Qed.

Lemma nth_error_update_at (st : list AgentInvocation) (r i : nat) f :
  nth_error (update_at st r f) i =
  if Nat.eqb i r then option_map f (nth_error st i) else nth_error st i.
Proof.
  revert r i. induction st as [| a st IH]; intros r i; simpl.
  - destruct (Nat.eqb i r); destruct i; reflexivity.
  - destruct r as [| r]; destruct i as [| i]; simpl; try reflexivity.
    apply IH.
Qed.

Lemma update_at_same (st : list AgentInvocation) (r : nat) f :
  (forall a, same_but_collaboration a (f a)) ->
  Forall2 same_but_collaboration st (update_at st r f).
Proof.
  intros Hf. revert r. induction st as [| a st IH]; intros r; simpl.
  - constructor.
  - destruct r; constructor; auto using same_refl.
    clear. induction st; constructor; auto using same_refl.
Qed.

Lemma Forall2_same_trans (l1 l2 l3 : list AgentInvocation) :
  Forall2 same_but_collaboration l1 l2 ->
  Forall2 same_but_collaboration l2 l3 ->
  Forall2 same_but_collaboration l1 l3.
Proof.
  intros H. revert l3. induction H; intros l3 H3; inversion H3; subst;
    constructor; eauto using same_trans.
Qed.

Lemma Forall2_same_refl (l : list AgentInvocation) :
  Forall2 same_but_collaboration l l.
Proof. induction l; constructor; auto using same_refl. Qed.

(* the inner loop: every referenced object is linked, the others are kept *)
Lemma assign_loop_nth (names : list string) (refs : list nat)
      (st : list AgentInvocation) (i : nat) :
  nth_error (fold_left (assign_collaboration names) refs st) i =
  if existsb (Nat.eqb i) refs then option_map (linked names) (nth_error st i)
  else nth_error st i.
Proof.
  revert st. induction refs as [| r refs IH]; intros st; simpl; [reflexivity|].
  rewrite IH. unfold assign_collaboration.
  rewrite nth_error_update_at. fold (linked names).
  destruct (Nat.eqb i r); simpl; [|reflexivity].
  destruct (nth_error st i); simpl; destruct (existsb _ refs); reflexivity.
Qed.

Lemma assign_loop_same (names : list string) (refs : list nat)
      (st : list AgentInvocation) :
  Forall2 same_but_collaboration st (fold_left (assign_collaboration names) refs st).
Proof.
  revert st. induction refs as [| r refs IH]; intros st; simpl.
  - apply Forall2_same_refl.
  - eapply Forall2_same_trans; [|apply IH].
    apply update_at_same. intros a. apply same_set.
Qed.

Lemma link_session_same (st : list AgentInvocation) (refs : list nat) :
  Forall2 same_but_collaboration st (link_session st refs).
Proof.
  unfold link_session. destruct (Nat.ltb 1 (List.length refs)).
  - apply assign_loop_same.
  - apply Forall2_same_refl.
Qed.

Lemma link_loop_same (groups : list (list nat)) (st : list AgentInvocation) :
  Forall2 same_but_collaboration st (fold_left link_session groups st).
Proof.
  revert st. induction groups as [| g groups IH]; intros st; simpl.
  - apply Forall2_same_refl.
  - eapply Forall2_same_trans; [apply link_session_same | apply IH].
Qed.

Lemma Forall2_same_nth (l1 l2 : list AgentInvocation) (i : nat) :
  Forall2 same_but_collaboration l1 l2 ->
  match nth_error l1 i, nth_error l2 i with
  | Some a, Some b => same_but_collaboration a b
  | None, None => True
  | _, _ => False
  end.
Proof.
  intros H. revert i. induction H; intros [| i]; simpl; auto.
  apply IHForall2.
Qed.

Lemma names_at_same (l1 l2 : list AgentInvocation) (refs : list nat) :
  Forall2 same_but_collaboration l1 l2 -> names_at l2 refs = names_at l1 refs.
Proof.
  intros H. unfold names_at.
  induction refs as [| r refs IH]; simpl; [reflexivity|].
  rewrite IH. f_equal.
  pose proof (Forall2_same_nth l1 l2 r H) as Hr.
  destruct (nth_error l1 r), (nth_error l2 r); try contradiction; [|reflexivity].
  destruct Hr as [Hn _]. now rewrite Hn.
Qed.

(* the references of a session, read in the store, are its invocations *)
Lemma session_refs (pre l : list AgentInvocation) (k : string) :
  map (nth_error (pre ++ l))
      (filter (keyed (session_id_at (pre ++ l)) k)
              (seq (List.length pre) (List.length l))) =
  map Some (filter (keyed session_id k) l).
Proof.
  revert pre. induction l as [| a l IH]; intros pre; simpl; [reflexivity|].
  assert (Ha : nth_error (pre ++ a :: l) (List.length pre) = Some a).
  { rewrite nth_error_app2 by lia. now rewrite Nat.sub_diag. }
  unfold keyed at 1. unfold session_id_at at 1. rewrite Ha.
  fold (keyed session_id k a).
  specialize (IH (pre ++ [a])%list).
  rewrite <- app_assoc in IH. simpl in IH.
  rewrite length_app in IH. simpl in IH. rewrite Nat.add_1_r in IH.
  destruct (keyed session_id k a); simpl; rewrite IH; [rewrite Ha|]; reflexivity.
Qed.

Lemma names_at_map (st : list AgentInvocation) (refs : list nat)
      (l : list AgentInvocation) :
  map (nth_error st) refs = map Some l -> names_at st refs = map agent_name l.
Proof.
  revert l. unfold names_at.
  induction refs as [| r refs IH]; intros [| a l]; simpl; try discriminate;
    [reflexivity|].
  intros H. injection H as Hr Hrest. rewrite Hr. simpl. f_equal. now apply IH.
Qed.

Section Pass.

Variable invocations : list AgentInvocation.

Let refs := seq 0 (List.length invocations).
Let key := session_id_at invocations.

Lemma session_group (k : string) :
  map (nth_error invocations) (filter (keyed key k) refs) =
  map Some (filter (keyed session_id k) invocations).
Proof. exact (session_refs [] invocations k). Qed.

Lemma session_group_names (k : string) :
  names_at invocations (filter (keyed key k) refs) =
  map agent_name (filter (keyed session_id k) invocations).
Proof. apply names_at_map, session_group. Qed.

Lemma session_group_length (k : string) :
  List.length (filter (keyed key k) refs) =
  List.length (filter (keyed session_id k) invocations).
Proof.
  rewrite <- (length_map (nth_error invocations)), session_group.
  apply length_map.
Qed.

(* what one object has become once the sessions [gs] have been linked *)
Lemma link_loop_nth (gs : dict (list nat)) (st : list AgentInvocation)
      (i : nat) (inv : AgentInvocation) :
  NoDup (map fst gs) ->
  (forall k xs, In (k, xs) gs -> xs = filter (keyed key k) refs) ->
  Forall2 same_but_collaboration invocations st ->
  nth_error invocations i = Some inv ->
  nth_error (fold_left link_session (map snd gs) st) i =
  if PyStr.mem (session_id inv) (map fst gs) &&
     (1 <? List.length (session_of invocations inv))%nat
  then option_map (linked (map agent_name (session_of invocations inv)))
                  (nth_error st i)
  else nth_error st i.
Proof.
  intros Hnd Hgs Hsame Hi.
  assert (Hkey : key i = session_id inv).
  { unfold key, session_id_at. now rewrite Hi. }
  assert (Hin : In i refs).
  { apply in_seq. split; [lia|]. simpl. apply nth_error_Some. congruence. }
  revert st Hsame.
  induction gs as [| [k xs] gs IH]; intros st Hsame; simpl; [reflexivity|].
  inversion Hnd as [| ? ? Hk Hnd']; subst.
  assert (Hxs : xs = filter (keyed key k) refs) by (apply Hgs; now left).
  rewrite IH; auto.
  2: { intros k' xs' H'. apply Hgs. now right. }
  2: { eapply Forall2_same_trans; [exact Hsame | apply link_session_same]. }
  assert (Hlink : nth_error (link_session st xs) i =
                  if existsb (Nat.eqb i) xs && (1 <? List.length xs)%nat
                  then option_map (linked (names_at st xs)) (nth_error st i)
                  else nth_error st i).
  { unfold link_session. destruct (Nat.ltb 1 (List.length xs)).
    - rewrite assign_loop_nth. now rewrite andb_true_r.
    - now rewrite andb_false_r. }
  rewrite Hlink. clear Hlink.
  rewrite (names_at_same invocations st xs Hsame).
  assert (Hmem : existsb (Nat.eqb i) xs = String.eqb (session_id inv) k).
  { rewrite Hxs. destruct (String.eqb (session_id inv) k) eqn:E.
    - apply existsb_exists. exists i. split; [|apply Nat.eqb_refl].
      apply filter_In. split; [exact Hin|]. unfold keyed. now rewrite Hkey.
    - destruct (existsb _ _) eqn:E'; [|reflexivity].
      apply existsb_exists in E'. destruct E' as [j [Hj Hij]].
      apply Nat.eqb_eq in Hij. subst j. apply filter_In in Hj.
      destruct Hj as [_ Hj]. unfold keyed in Hj. rewrite Hkey in Hj. congruence. }
  rewrite Hmem.
  destruct (String.eqb (session_id inv) k) eqn:E; simpl; [|reflexivity].
  apply String.eqb_eq in E. subst k.
  assert (Hnot : PyStr.mem (session_id inv) (map fst gs) = false).
  { destruct (PyStr.mem _ _) eqn:M; [|reflexivity].
    apply existsb_exists in M. destruct M as [k' [Hk' Ek']].
    apply String.eqb_eq in Ek'. subst k'. contradiction. }
  rewrite Hnot. simpl.
  rewrite Hxs, session_group_length, session_group_names.
  reflexivity.
Qed.

(* the pass, object by object *)
Lemma pass_nth (i : nat) (inv : AgentInvocation) :
  nth_error invocations i = Some inv ->
  nth_error (_add_collaboration_context invocations) i =
  Some (if (2 <=? List.length (session_of invocations inv))%nat
        then linked (map agent_name (session_of invocations inv)) inv
        else inv).
Proof.
  intros Hi. unfold _add_collaboration_context.
  fold refs. fold key.
  rewrite (link_loop_nth _ _ i inv); auto.
  - assert (Hin : In i refs).
    { apply in_seq. split; [lia|]. simpl. apply nth_error_Some. congruence. }
    assert (Hkey : key i = session_id inv).
    { unfold key, session_id_at. now rewrite Hi. }
    pose proof (group_by_has key refs i Hin) as Hg. rewrite Hkey in Hg.
    assert (Hmem : PyStr.mem (session_id inv)
                     (map fst (Dict.group_by key refs)) = true).
    { apply existsb_exists. exists (session_id inv).
      split; [|apply String.eqb_refl].
      change (session_id inv) with (fst (session_id inv, filter (keyed key (session_id inv)) refs)).
      now apply in_map. }
    rewrite Hmem, Hi. unfold Nat.ltb. cbn [andb option_map].
    destruct (Nat.leb 2 (List.length (session_of invocations inv))); reflexivity.
  - apply group_by_keys_NoDup.
  - intros k xs H. now apply (group_by_In key refs k xs).
  - apply Forall2_same_refl.
Qed.

End Pass.

End CollaborationFacts.

(** ** C3, C9: the collaboration backfill *)

(** C9.  The backfill changes no field but [collaboration_agents]: the list
    it returns has the same invocations in the same order, each agreeing with
    the one it was given on every other field. *)
Theorem backfill_frame (invocations : list Analyzer.AgentInvocation) :
  Forall2 Notions.same_but_collaboration
    invocations (Analyzer._add_collaboration_context invocations).
Proof.
  unfold Analyzer._add_collaboration_context.
  apply CollaborationFacts.link_loop_same.
Qed.

(** C3, as the code has it.  After the backfill, an invocation whose session
    has at least two invocations holds the agent names of the invocations of
    its session, in list order, that differ from its own name -- one entry
    per invocation, so a name recurs as often as that agent was invoked in
    the session; its members are exactly the other agent names of the
    session.  An invocation alone in its session keeps the
    [collaboration_agents] it came with. *)
Theorem backfill_links_session
  (invocations : list Analyzer.AgentInvocation) (i : nat)
  (inv : Analyzer.AgentInvocation) :
  nth_error invocations i = Some inv ->
  exists inv',
    nth_error (Analyzer._add_collaboration_context invocations) i = Some inv' /\
    let session := Notions.session_of invocations inv in
    let others :=
      filter (fun name => negb (String.eqb name (Analyzer.agent_name inv)))
             (map Analyzer.agent_name session) in
    ((2 <= List.length session)%nat ->
     Analyzer.collaboration_agents inv' = Some others /\
     forall a, In a others <->
               a <> Analyzer.agent_name inv /\
               exists other, In other session /\ Analyzer.agent_name other = a) /\
    (List.length session = 1%nat ->
     Analyzer.collaboration_agents inv' = Analyzer.collaboration_agents inv).
Proof.
  intros Hi. eexists. split; [apply CollaborationFacts.pass_nth; exact Hi|].
  cbv zeta. split.
  - intros Hlen. apply Nat.leb_le in Hlen. rewrite Hlen. split; [reflexivity|].
    intros a. rewrite filter_In, in_map_iff, negb_true_iff, String.eqb_neq.
    split.
    + intros [[other [Ho Hin]] Hne]. split; [exact Hne|]. now exists other.
    + intros [Hne [other [Hin Ho]]]. split; [|exact Hne]. now exists other.
  - intros Hlen. rewrite Hlen. reflexivity.
Qed.

Lemma backfill_links_session_witness :
  exists inv',
    nth_error (Analyzer._add_collaboration_context Examples.repeated_agent) 1
      = Some inv' /\
    Analyzer.collaboration_agents inv' = Some ["backend-architect"].
Proof.
  destruct (backfill_links_session Examples.repeated_agent 1
              (Examples.invocation "python-pro" "s1" (Examples.t0 + 60000000) true)
              eq_refl) as [inv' [Hnth [Hmany _]]].
  exists inv'. split; [exact Hnth|].
  exact (proj1 (Hmany (le_S _ _ (le_n 2)))).
Defined.

(* C3 as stated fails: python-pro was invoked twice in the session, and
   backend-architect's collaboration list holds its name twice *)
Lemma backfill_keeps_duplicates :
  option_map Analyzer.collaboration_agents
    (nth_error (Analyzer._add_collaboration_context Examples.repeated_agent) 0)
    = Some (Some ["python-pro"; "python-pro"]) /\
  Examples.has_duplicates ["python-pro"; "python-pro"] = true.
Proof. split; reflexivity. Qed.

(** ** Squad formations *)

Module FormationFacts.

Import Analyzer Notions.

Section Sorting.

Context {A : Type} (key : A -> Z).

Let key_le (a b : A) : Prop := key a <= key b.

Lemma insert_by_perm (x : A) (l : list A) :
  Permutation (insert_by key x l) (x :: l).
Proof.
  induction l as [| y l IH]; simpl; [reflexivity|].
  destruct (key y <? key x); [|reflexivity].
  rewrite IH. apply perm_swap.
Qed.

Lemma sort_by_perm (l : list A) : Permutation (sort_by key l) l.
Proof.
  induction l as [| x l IH]; simpl; [reflexivity|].
  unfold sort_by in *. simpl. rewrite insert_by_perm. now constructor.
Qed.

Lemma sort_by_length (l : list A) : List.length (sort_by key l) = List.length l.
Proof. apply Permutation_length, sort_by_perm. Qed.

Lemma insert_by_hd (y x : A) (l : list A) :
  HdRel key_le y l -> key_le y x -> HdRel key_le y (insert_by key x l).
Proof.
  intros Hl Hx. destruct l as [| z l]; simpl; [now constructor|].
  destruct (key z <? key x); constructor; auto.
  now inversion Hl.
Qed.

Lemma insert_by_sorted (x : A) (l : list A) :
  Sorted key_le l -> Sorted key_le (insert_by key x l).
Proof.
  induction 1 as [| y l Hs IH Hhd]; simpl; [repeat constructor|].
  destruct (key y <? key x) eqn:E.
  - constructor; [exact IH|]. apply insert_by_hd; [exact Hhd|].
    apply Z.ltb_lt in E. unfold key_le. lia.
  - apply Z.ltb_ge in E. repeat constructor; assumption.
Qed.

Lemma sort_by_sorted (l : list A) : Sorted key_le (sort_by key l).
Proof.
  induction l as [| x l IH]; [constructor|].
  unfold sort_by in *. simpl. now apply insert_by_sorted.
Qed.

End Sorting.

(** *** Arithmetic of the score *)

Lemma Qlen_nonneg {A : Type} (l : list A) : (0 <= Qlen l)%Q.
Proof. unfold Qlen. change 0%Q with (inject_Z 0). rewrite <- Zle_Qle. lia. Qed.

Lemma Qlen_pos {A : Type} (l : list A) : l <> [] -> (0 < Qlen l)%Q.
Proof.
  intros H. unfold Qlen. change 0%Q with (inject_Z 0). rewrite <- Zlt_Qlt.
  destruct l; [contradiction | simpl; lia].
Qed.

(* a count over a length, bounded by a factor *)
Lemma ratio_bounds (a b c : nat) :
  (0 < b)%nat -> (a <= c * b)%nat ->
  (0 <= inject_Z (Z.of_nat a) / inject_Z (Z.of_nat b) /\
   inject_Z (Z.of_nat a) / inject_Z (Z.of_nat b) <= inject_Z (Z.of_nat c))%Q.
Proof.
  intros Hb Hab.
  assert (Hb' : (0 < inject_Z (Z.of_nat b))%Q).
  { change 0%Q with (inject_Z 0). rewrite <- Zlt_Qlt. lia. }
  split.
  - apply Qle_shift_div_l; [exact Hb'|]. rewrite Qmult_0_l.
    change 0%Q with (inject_Z 0). rewrite <- Zle_Qle. lia.
  - apply Qle_shift_div_r; [exact Hb'|].
    rewrite <- inject_Z_mult, <- Zle_Qle. lia.
Qed.

Lemma Qsum_from_nonneg (l : list Q) (acc : Q) :
  (0 <= acc)%Q -> Forall (fun q => 0 <= q)%Q l -> (0 <= fold_left Qplus l acc)%Q.
Proof.
  intros Hacc Hl. revert acc Hacc.
  induction Hl as [| q l Hq Hl IH]; intros acc Hacc; simpl; [exact Hacc|].
  apply IH. rewrite <- (Qplus_0_l 0). now apply Qplus_le_compat.
Qed.

Lemma time_spans_nonneg (timestamps : list datetime) :
  Sorted (fun a b => instant a <= instant b) timestamps ->
  Forall (fun q => 0 <= q)%Q (time_spans timestamps).
Proof.
  induction 1 as [| t l Hs IH Hhd]; [constructor|].
  destruct l as [| t' l]; [constructor|].
  simpl. constructor; [|exact IH].
  inversion Hhd; subst. unfold total_seconds, Qle. simpl. lia.
Qed.

Lemma coordination_bounds (invocations : list AgentInvocation) :
  (0 <= coordination_score invocations /\ coordination_score invocations <= 1)%Q.
Proof.
  unfold coordination_score.
  set (spans := time_spans (sort_by instant (map timestamp invocations))).
  assert (Hspans : Forall (fun q => 0 <= q)%Q spans).
  { apply time_spans_nonneg. apply (sort_by_sorted instant). }
  set (avg_gap := match spans with [] => 0%Q | _ => (Qsum spans / Qlen spans)%Q end).
  assert (Havg : (0 <= avg_gap)%Q).
  { unfold avg_gap. destruct spans as [| q spans'] eqn:E; [apply Qle_refl|].
    apply Qle_shift_div_l; [apply Qlen_pos; discriminate|].
    rewrite Qmult_0_l. apply Qsum_from_nonneg; [apply Qle_refl | exact Hspans]. }
  split.
  - apply Q.le_max_l.
  - apply Q.max_lub; [discriminate|].
    assert (H : (0 <= avg_gap / 3600)%Q).
    { apply Qle_shift_div_l; [reflexivity|]. now rewrite Qmult_0_l. }
    rewrite <- (Qplus_0_r 1) at 2. unfold Qminus.
    apply Qplus_le_compat; [apply Qle_refl|].
    apply (Qopp_le_compat 0). exact H.
Qed.

(* the mean of three components, each bounded *)
Lemma mean_of_three (d r c hi : Q) :
  (0 <= d /\ d <= hi)%Q -> (0 <= r /\ r <= 1)%Q -> (0 <= c /\ c <= 1)%Q ->
  (0 <= (d + r + c) / 3 /\ (d + r + c) / 3 <= (hi + 1 + 1) / 3)%Q.
Proof.
  intros [Hd0 Hd1] [Hr0 Hr1] [Hc0 Hc1]. split.
  - apply Qle_shift_div_l; [reflexivity|]. rewrite Qmult_0_l.
    rewrite <- (Qplus_0_l 0). apply Qplus_le_compat; [|exact Hc0].
    rewrite <- (Qplus_0_l 0). now apply Qplus_le_compat.
  - apply Qle_shift_div_r; [reflexivity|].
    assert (E : ((hi + 1 + 1) / 3 * 3 == hi + 1 + 1)%Q).
    { apply Qdiv_mult_l. discriminate. }
    rewrite E. repeat apply Qplus_le_compat; assumption.
Qed.

Lemma success_rate_bounds (invocations : list AgentInvocation) :
  invocations <> [] ->
  (0 <= session_success_rate invocations /\ session_success_rate invocations <= 1)%Q.
Proof.
  intros Hne. unfold session_success_rate, Qlen, count_success.
  apply (ratio_bounds _ _ 1).
  - destruct invocations; [contradiction | simpl; lia].
  - rewrite Nat.mul_1_l. apply filter_length_le.
Qed.

(** *** Specialization categories *)

Lemma no_category_outside (table : dict (list string)) (agent : string) :
  PyStr.mem agent (flat_map snd table) = false ->
  filter (fun c => PyStr.mem agent (snd c)) table = [].
Proof.
  unfold PyStr.mem. induction table as [| [k ms] table IH]; simpl; [reflexivity|].
  rewrite existsb_app. intros H. apply orb_false_iff in H. destruct H as [H1 H2].
  rewrite H1. now apply IH.
Qed.

(* no agent name is a member of more than two categories *)
Lemma categories_of_at_most_two (agent : string) :
  (List.length (categories_of agent) <= 2)%nat.
Proof.
  destruct (PyStr.mem agent all_members) eqn:E.
  - apply existsb_exists in E. destruct E as [m [Hm Heq]].
    apply String.eqb_eq in Heq. subst m.
    assert (Hall : forallb (fun m => (List.length (categories_of m) <=? 2)%nat)
                           all_members = true) by reflexivity.
    rewrite forallb_forall in Hall. apply Nat.leb_le. now apply Hall.
  - unfold categories_of. rewrite no_category_outside by exact E. simpl. lia.
Qed.

Lemma flat_map_length_le (c : nat) (agents : list string) :
  (forall a, In a agents -> (List.length (categories_of a) <= c)%nat) ->
  (List.length (flat_map categories_of agents) <= c * List.length agents)%nat.
Proof.
  induction agents as [| a agents IH]; intros H; simpl; [lia|].
  rewrite length_app.
  assert (Ha : (List.length (categories_of a) <= c)%nat) by (apply H; now left).
  assert (Hr : (List.length (flat_map categories_of agents)
                <= c * List.length agents)%nat).
  { apply IH. intros b Hb. apply H. now right. }
  lia.
Qed.

Lemma distinct_length_le (l : list string) :
  (List.length (PyStr.distinct l) <= List.length l)%nat.
Proof.
  apply NoDup_incl_length; [apply NoDup_nodup|].
  intros x Hx. now apply nodup_In in Hx.
Qed.

Lemma specialization_bounds (c : nat) (agents : list string) :
  agents <> [] ->
  (forall a, In a agents -> (List.length (categories_of a) <= c)%nat) ->
  (0 <= specialization_score agents /\
   specialization_score agents <= inject_Z (Z.of_nat c))%Q.
Proof.
  intros Hne Hc. unfold specialization_score, Qlen.
  apply ratio_bounds.
  - destruct agents; [contradiction | simpl; lia].
  - etransitivity; [apply distinct_length_le | now apply flat_map_length_le].
Qed.

(* an agent of two categories is one of python and data *)
Lemma categories_shape (agent : string) :
  (List.length (categories_of agent) <= 1)%nat \/
  categories_of agent = ["python"; "data"].
Proof.
  destruct (PyStr.mem agent all_members) eqn:E.
  - apply existsb_exists in E. destruct E as [m [Hm Heq]].
    apply String.eqb_eq in Heq. subst m.
    assert (Hall : forallb
                     (fun m => (List.length (categories_of m) <=? 1)%nat ||
                               if list_eq_dec string_dec (categories_of m)
                                                         ["python"; "data"]
                               then true else false)
                     all_members = true) by reflexivity.
    rewrite forallb_forall in Hall. specialize (Hall agent Hm).
    apply orb_true_iff in Hall. destruct Hall as [H | H].
    + left. now apply Nat.leb_le.
    + right. destruct (list_eq_dec string_dec _ _); [assumption | discriminate].
  - left. unfold categories_of. rewrite no_category_outside by exact E.
    simpl. lia.
Qed.

Lemma filter_length_lt {A : Type} (f : A -> bool) (l : list A) :
  forallb f l = false -> (List.length (filter f l) < List.length l)%nat.
Proof.
  induction l as [| a l IH]; simpl; [discriminate|].
  destruct (f a); simpl; intros H.
  - apply IH in H. lia.
  - pose proof (filter_length_le f l). lia.
Qed.

(* the agents of a formation show at most one category more than they are *)
Lemma distinct_categories_le (agents : list string) :
  (List.length (PyStr.distinct (flat_map categories_of agents))
   <= List.length agents + 1)%nat.
Proof.
  set (single := fun a => (List.length (categories_of a) <=? 1)%nat).
  assert (Hsingle : forall l, (forall a, In a l -> single a = true) ->
            (List.length (flat_map categories_of l) <= List.length l)%nat).
  { intros l Hl. rewrite <- (Nat.mul_1_l (List.length l)).
    apply flat_map_length_le. intros a Ha. apply Nat.leb_le. now apply Hl. }
  destruct (forallb single agents) eqn:E.
  - rewrite forallb_forall in E.
    etransitivity; [apply distinct_length_le|].
    etransitivity; [apply Hsingle; exact E | lia].
  - apply filter_length_lt in E.
    assert (Hincl : incl (PyStr.distinct (flat_map categories_of agents))
                         ("python" :: "data" ::
                          flat_map categories_of (filter single agents))).
    { intros x Hx. apply nodup_In in Hx. apply in_flat_map in Hx.
      destruct Hx as [a [Ha Hxa]].
      destruct (categories_shape a) as [H1 | H2].
      - right. right. apply in_flat_map. exists a. split; [|exact Hxa].
        apply filter_In. split; [exact Ha|]. now apply Nat.leb_le.
      - rewrite H2 in Hxa. destruct Hxa as [<- | [<- | []]];
          [now left | right; now left]. }
    apply NoDup_incl_length in Hincl; [|apply NoDup_nodup].
    simpl in Hincl.
    assert (Hs : (List.length (flat_map categories_of (filter single agents))
                  <= List.length (filter single agents))%nat).
    { apply Hsingle. intros a Ha. now apply filter_In in Ha. }
    lia.
Qed.

Lemma specialization_at_most_three_halves (agents : list string) :
  (2 <= List.length agents)%nat ->
  (specialization_score agents <= 3 # 2)%Q.
Proof.
  intros Hn. unfold specialization_score.
  apply Qle_shift_div_r.
  - apply Qlen_pos. intros E. rewrite E in Hn. simpl in Hn. lia.
  - pose proof (distinct_categories_le agents) as H.
    unfold Qlen, Qle, Qmult, inject_Z. cbn [Qnum Qden Pos.mul]. lia.
Qed.

(** *** The detection loop *)

Section Detect.

Context {rt : Runtime}.

Lemma session_formation_spec (sid : string) (xs : list AgentInvocation) :
  exists o, session_formation sid xs = Ok o /\
            forall f, o = Some f -> formed sid xs f.
Proof.
  unfold session_formation.
  destruct (Nat.ltb (List.length xs) 2) eqn:Hlen.
  { exists None. split; [reflexivity | discriminate]. }
  apply Nat.ltb_ge in Hlen.
  set (s := sort_by (fun inv => instant (timestamp inv)) xs).
  assert (Hs : List.length s = List.length xs) by apply sort_by_length.
  destruct (Nat.ltb (List.length (set_to_list (map agent_name s))) 2) eqn:Hag.
  { exists None. split; [reflexivity | discriminate]. }
  apply Nat.ltb_ge in Hag.
  destruct s as [| first rest] eqn:Es; [simpl in Hs; lia|].
  unfold _calculate_synergy_score.
  apply Nat.ltb_ge in Hag. rewrite Hag. apply Nat.ltb_ge in Hag.
  simpl bind. eexists. split; [reflexivity|].
  intros f [= <-]. unfold formed. fold s. rewrite Es. simpl.
  repeat split; try assumption. now rewrite <- Hs.
Qed.

Lemma formations_loop_spec (sessions : dict (list AgentInvocation))
      (acc : list SquadFormation) :
  exists fs, formations_loop sessions acc = Ok fs /\
             forall f, In f fs <->
                       In f acc \/
                       exists sid xs, In (sid, xs) sessions /\
                                      session_formation sid xs = Ok (Some f).
Proof.
  revert acc. induction sessions as [| [sid xs] sessions IH]; intros acc; simpl.
  - exists acc. split; [reflexivity|]. intros f. split; [now left|].
    intros [H | [? [? [[] _]]]]. exact H.
  - destruct (session_formation_spec sid xs) as [o [Ho _]]. rewrite Ho. simpl.
    destruct (IH (match o with Some formation => (acc ++ [formation])%list
                          | None => acc end)) as [fs [Hfs Hin]].
    exists fs. split; [exact Hfs|]. intros f. rewrite Hin. clear Hin Hfs.
    split.
    + intros [H | [sid' [xs' [H1 H2]]]].
      * destruct o as [g|]; [|now left].
        apply in_app_or in H. destruct H as [H | [<- | []]]; [now left|].
        right. exists sid, xs. split; [now left | exact Ho].
      * right. exists sid', xs'. split; [now right | exact H2].
    + intros [H | [sid' [xs' [[H1 | H1] H2]]]].
      * left. destruct o; [apply in_or_app; now left | exact H].
      * injection H1 as <- <-. rewrite Ho in H2. injection H2 as ->.
        left. apply in_or_app. right. now left.
      * right. exists sid', xs'. split; assumption.
Qed.

(* the detector returns, and each formation is that of a session of the run *)
Lemma detect_spec (invocations : list AgentInvocation) :
  exists fs, detect_squad_formations invocations = Ok fs /\
             forall f, In f fs ->
                       formed (sf_session_id f)
                              (session invocations (sf_session_id f)) f.
Proof.
  unfold detect_squad_formations.
  destruct (formations_loop_spec (Dict.group_by session_id invocations) [])
    as [fs [Hfs Hin]].
  exists fs. split; [exact Hfs|]. intros f Hf.
  apply Hin in Hf. destruct Hf as [[] | [sid [xs [Hg Hform]]]].
  apply group_by_In in Hg. destruct Hg as [Hxs _].
  destruct (session_formation_spec sid xs) as [o [Ho Hspec]].
  rewrite Ho in Hform. injection Hform as ->.
  specialize (Hspec f eq_refl).
  assert (Hsid : sf_session_id f = sid) by apply Hspec.
  rewrite Hsid. unfold session. rewrite <- Hxs. exact Hspec.
Qed.

End Detect.

End FormationFacts.

Module FormationClaims.

Import Analyzer Notions FormationFacts.

Section WithRuntime.

Context {rt : Runtime}.

Lemma formed_agents_NoDup sid xs f : formed sid xs f -> NoDup (agents f).
Proof. intros [_ [-> _]]. apply set_to_list_NoDup. Qed.

Lemma formed_agents_In sid xs f a :
  formed sid xs f -> (In a (agents f) <-> In a (map agent_name xs)).
Proof.
  intros [_ [-> _]]. rewrite set_to_list_In.
  pose proof (sort_by_perm (fun inv => instant (timestamp inv)) xs) as Hp.
  apply (Permutation_map agent_name) in Hp.
  split; apply Permutation_in; [exact Hp | now symmetry].
Qed.

Lemma formed_agents_perm sid xs f :
  formed sid xs f ->
  Permutation (agents f) (PyStr.distinct (map agent_name xs)).
Proof.
  intros H. apply NoDup_Permutation.
  - now apply (formed_agents_NoDup sid xs).
  - apply NoDup_nodup.
  - intros a. rewrite (formed_agents_In sid xs f a H).
    unfold PyStr.distinct. now rewrite nodup_In.
Qed.

Lemma formed_sorted_nonempty sid xs f :
  formed sid xs f -> sort_by (fun inv => instant (timestamp inv)) xs <> [].
Proof.
  intros [_ [_ [_ [Hlen _]]]] E.
  apply (f_equal (@List.length _)) in E. rewrite sort_by_length in E.
  simpl in E. lia.
Qed.

End WithRuntime.

End FormationClaims.

(** C7.  Detection returns, and every formation it emits has at least two
    distinct agent names: its [agents] list is duplicate-free and of length
    at least two, and the session it stands for has at least two distinct
    agent names among its invocations. *)
Theorem formations_have_two_agents
  {rt : Runtime} (invocations : list Analyzer.AgentInvocation) :
  exists fs,
    Analyzer.detect_squad_formations invocations = Ok fs /\
    forall f, In f fs ->
      NoDup (Analyzer.agents f) /\
      (2 <= List.length (Analyzer.agents f))%nat /\
      (2 <= List.length
              (PyStr.distinct
                 (map Analyzer.agent_name
                    (Notions.session invocations (Analyzer.sf_session_id f)))))%nat.
Proof.
  destruct (FormationFacts.detect_spec invocations) as [fs [Hfs Hall]].
  exists fs. split; [exact Hfs|]. intros f Hf. specialize (Hall f Hf).
  split; [now apply (FormationClaims.formed_agents_NoDup _ _ f Hall)|].
  assert (Hlen : (2 <= List.length (Analyzer.agents f))%nat) by apply Hall.
  split; [exact Hlen|].
  now rewrite <- (Permutation_length (FormationClaims.formed_agents_perm _ _ f Hall)).
Qed.

(** C8, as the code has it.  The [agents] field of a formation is a
    duplicate-free list whose members are exactly the agent names of the
    session's invocations -- a rearrangement of the distinct names, in the
    order in which the set of names yields them; the code does not sort
    it. *)
Theorem formation_agents_are_session_names
  {rt : Runtime} (invocations : list Analyzer.AgentInvocation) :
  exists fs,
    Analyzer.detect_squad_formations invocations = Ok fs /\
    forall f, In f fs ->
      let names :=
        map Analyzer.agent_name
            (Notions.session invocations (Analyzer.sf_session_id f)) in
      NoDup (Analyzer.agents f) /\
      (forall a, In a (Analyzer.agents f) <-> In a names) /\
      Permutation (Analyzer.agents f) (PyStr.distinct names).
Proof.
  destruct (FormationFacts.detect_spec invocations) as [fs [Hfs Hall]].
  exists fs. split; [exact Hfs|]. intros f Hf. specialize (Hall f Hf). cbv zeta.
  split; [now apply (FormationClaims.formed_agents_NoDup _ _ f Hall)|].
  split; [|exact (FormationClaims.formed_agents_perm _ _ f Hall)].
  intros a. exact (FormationClaims.formed_agents_In _ _ f a Hall).
Qed.

(* C8 as stated fails: with a set that yields python-pro before
   backend-architect, [agents] is not the sorted list of names *)
Lemma formation_agents_not_sorted :
  exists f,
    Analyzer.detect_squad_formations (rt := Sample.runtime)
      Examples.unsorted_names = Ok [f] /\
    Analyzer.agents f = ["python-pro"; "backend-architect"] /\
    PyStr.sorted (PyStr.distinct (map Analyzer.agent_name Examples.unsorted_names))
      = ["backend-architect"; "python-pro"] /\
    Examples.list_eqb (Analyzer.agents f)
      (PyStr.sorted
         (PyStr.distinct (map Analyzer.agent_name Examples.unsorted_names)))
      = false.
Proof. eexists. repeat split. Qed.

(** C2, as the code has it.  For the formation of a session, the synergy
    score is the mean of three components.  The success rate and the
    temporal coordination lie in [0, 1].  The specialization diversity
    counts categories, and an agent can be a member of two of them (of
    python and of data), so it lies in [0, 3/2] and the score in [0, 7/6];
    when no agent of the formation is a member of more than one category,
    the diversity and the score lie in [0, 1]. *)
Theorem synergy_score_bounds
  {rt : Runtime} (invocations : list Analyzer.AgentInvocation) :
  exists fs,
    Analyzer.detect_squad_formations invocations = Ok fs /\
    forall f, In f fs ->
      let s := Notions.sorted_session invocations (Analyzer.sf_session_id f) in
      let diversity := Analyzer.specialization_score (Analyzer.agents f) in
      let rate := Analyzer.session_success_rate s in
      let coordination := Analyzer.coordination_score s in
      Analyzer.synergy_score f = ((diversity + rate + coordination) / 3)%Q /\
      (0 <= diversity /\ diversity <= 3 # 2)%Q /\
      (0 <= rate /\ rate <= 1)%Q /\
      (0 <= coordination /\ coordination <= 1)%Q /\
      (0 <= Analyzer.synergy_score f /\ Analyzer.synergy_score f <= 7 # 6)%Q /\
      ((forall a, In a (Analyzer.agents f) ->
                  (List.length (Analyzer.categories_of a) <= 1)%nat) ->
       (diversity <= 1 /\ Analyzer.synergy_score f <= 1)%Q).
Proof.
  destruct (FormationFacts.detect_spec invocations) as [fs [Hfs Hall]].
  exists fs. split; [exact Hfs|]. intros f Hf. specialize (Hall f Hf). cbv zeta.
  pose proof (FormationClaims.formed_sorted_nonempty _ _ f Hall) as Hne.
  fold (Notions.sorted_session invocations (Analyzer.sf_session_id f)) in Hne.
  assert (Hsyn : Analyzer.synergy_score f =
                 ((Analyzer.specialization_score (Analyzer.agents f) +
                   Analyzer.session_success_rate
                     (Notions.sorted_session invocations (Analyzer.sf_session_id f)) +
                   Analyzer.coordination_score
                     (Notions.sorted_session invocations (Analyzer.sf_session_id f)))
                  / 3)%Q) by apply Hall.
  assert (H2 : (2 <= List.length (Analyzer.agents f))%nat) by apply Hall.
  assert (Hag : Analyzer.agents f <> []).
  { intros E. rewrite E in H2. simpl in H2. lia. }
  destruct (FormationFacts.specialization_bounds 2 (Analyzer.agents f) Hag
              (fun a _ => FormationFacts.categories_of_at_most_two a)) as [Hd0 _].
  pose proof (FormationFacts.specialization_at_most_three_halves _ H2) as Hd2.
  destruct (FormationFacts.success_rate_bounds _ Hne) as [Hr0 Hr1].
  destruct (FormationFacts.coordination_bounds
              (Notions.sorted_session invocations (Analyzer.sf_session_id f)))
    as [Hc0 Hc1].
  rewrite Hsyn.
  split; [reflexivity|].
  split; [split; assumption|].
  split; [split; assumption|].
  split; [split; assumption|].
  split.
  { destruct (FormationFacts.mean_of_three _ _ _ (3 # 2) (conj Hd0 Hd2)
                (conj Hr0 Hr1) (conj Hc0 Hc1)) as [Hlo Hhi].
    split; [exact Hlo|]. eapply Qle_trans; [exact Hhi | discriminate]. }
  intros Hone.
  destruct (FormationFacts.specialization_bounds 1 (Analyzer.agents f) Hag Hone)
    as [_ Hd1].
  split; [exact Hd1|].
  eapply Qle_trans;
    [exact (proj2 (FormationFacts.mean_of_three _ _ _ 1 (conj Hd0 Hd1)
                     (conj Hr0 Hr1) (conj Hc0 Hc1)))|].
  discriminate.
Qed.

(* C2 as stated fails: data-engineer counts for two categories, so two
   agents show three specializations and the score exceeds one *)
Lemma synergy_score_above_one :
  exists f,
    Analyzer.detect_squad_formations (rt := Sample.runtime)
      Examples.two_categories = Ok [f] /\
    Analyzer.specialization_score (Analyzer.agents f) = (3 / 2)%Q /\
    (1 < Analyzer.specialization_score (Analyzer.agents f))%Q /\
    (1 < Analyzer.synergy_score f)%Q.
Proof. eexists. repeat split. Qed.

(** ** C1: the XP total *)

Module XPFacts.

Import Analyzer Notions.

Lemma individual_xp_itemized (name : string) (inv : AgentInvocation)
      (invs : list AgentInvocation) :
  exists x, _calculate_individual_agent_xp name (inv :: invs) = Ok x /\
            xp_agent_name x = name /\ itemized x.
Proof. eexists. split; [reflexivity|]. split; reflexivity. Qed.

Lemma xp_loop_itemized (groups : dict (list AgentInvocation))
      (acc : dict AgentXPCalculation) :
  (forall name invs, In (name, invs) groups -> invs <> []) ->
  (forall name x, In (name, x) acc -> itemized x) ->
  exists d, xp_loop groups acc = Ok d /\
            forall name x, In (name, x) d -> itemized x.
Proof.
  revert acc. induction groups as [| [name invs] groups IH]; intros acc Hne Hacc.
  - exists acc. split; [reflexivity | exact Hacc].
  - destruct invs as [| inv invs].
    { exfalso. apply (Hne name []); [now left | reflexivity]. }
    destruct (individual_xp_itemized name inv invs) as [x [Hx [_ Hsum]]].
    cbn [xp_loop]. rewrite Hx. cbn [bind]. apply IH.
    + intros n l H. apply (Hne n l). now right.
    + intros n y H. apply in_app_or in H. destruct H as [H | [H | []]].
      * now apply (Hacc n y).
      * injection H as _ <-. exact Hsum.
Qed.

End XPFacts.

(** C1.  For a non-empty invocation list of one agent the per-agent
    computation returns a record whose [total_xp] is exactly the sum of its
    seven itemized fields; so does every record of [calculate_agent_xp],
    which returns for every invocation list. *)
Theorem total_xp_is_itemized_sum :
  (forall name inv invs,
     exists x,
       Analyzer._calculate_individual_agent_xp name (inv :: invs) = Ok x /\
       Analyzer.total_xp x =
       Analyzer.base_xp x + Analyzer.success_bonus x +
       Analyzer.tool_mastery_bonus x + Analyzer.complexity_bonus x +
       Analyzer.collaboration_bonus x + Analyzer.specialization_bonus x +
       Analyzer.consistency_bonus x) /\
  (forall invocations,
     exists d,
       Analyzer.calculate_agent_xp invocations = Ok d /\
       forall name x, In (name, x) d ->
         Analyzer.total_xp x =
         Analyzer.base_xp x + Analyzer.success_bonus x +
         Analyzer.tool_mastery_bonus x + Analyzer.complexity_bonus x +
         Analyzer.collaboration_bonus x + Analyzer.specialization_bonus x +
         Analyzer.consistency_bonus x).
Proof.
  split.
  - intros name inv invs.
    destruct (XPFacts.individual_xp_itemized name inv invs) as [x [Hx [_ Hsum]]].
    now exists x.
  - intros invocations. unfold Analyzer.calculate_agent_xp.
    apply XPFacts.xp_loop_itemized.
    + intros name invs H. now apply group_by_In in H.
    + intros name x [].
Qed.

(** ** C6: level lookups *)

Module LevelFacts.

Import Notions.

Lemma scan_down_le_head (rows : list (Z * Z)) (bound xp : Z) :
  1 <= bound -> Forall (fun tl => snd tl <= bound) rows ->
  scan_down rows xp <= bound.
Proof.
  intros Hb Hall. unfold scan_down.
  destruct (find _ rows) as [[t l]|] eqn:E; [|exact Hb].
  apply find_some in E. destruct E as [Hin _].
  rewrite Forall_forall in Hall. exact (Hall _ Hin).
Qed.

Lemma scan_down_monotone (rows : list (Z * Z)) (x1 x2 : Z) :
  levels_fall rows -> x1 <= x2 -> scan_down rows x1 <= scan_down rows x2.
Proof.
  induction rows as [| [t l] rows IH]; intros Hfall Hx; [unfold scan_down; simpl; lia|].
  destruct Hfall as [Hl [Hrest Hfall]].
  unfold scan_down in *. simpl.
  destruct (Z.leb_spec t x1), (Z.leb_spec t x2); try lia.
  - apply (scan_down_le_head rows l x1 Hl Hrest).
  - now apply IH.
Qed.

Lemma first_exceeding_range (thresholds : list Z) (level xp l : Z) :
  Redesign.first_exceeding thresholds level xp = Some l ->
  level <= l < level + Z.of_nat (List.length thresholds).
Proof.
  revert level. induction thresholds as [| t ths IH]; intros level; simpl;
    [discriminate|].
  destruct (xp <? t).
  - intros [= <-]. lia.
  - intros H. apply IH in H. lia.
Qed.

Lemma lookup_from_monotone (thresholds : list Z) (level x1 x2 : Z) :
  x1 <= x2 ->
  lookup_from thresholds level x1 <= lookup_from thresholds level x2.
Proof.
  intros Hx. revert level.
  induction thresholds as [| t ths IH]; intros level; unfold lookup_from in *; simpl;
    [lia|].
  destruct (Z.ltb_spec x1 t), (Z.ltb_spec x2 t); try lia.
  - destruct (Redesign.first_exceeding ths (level + 1) x2) eqn:E.
    + apply first_exceeding_range in E. lia.
    + lia.
  - specialize (IH (level + 1)).
    destruct (Redesign.first_exceeding ths (level + 1) x1),
             (Redesign.first_exceeding ths (level + 1) x2); lia.
Qed.

Lemma level_lookup_monotone (thresholds : list Z) (x1 x2 : Z) :
  x1 <= x2 ->
  Redesign.level_lookup thresholds x1 <= Redesign.level_lookup thresholds x2.
Proof.
  intros Hx. exact (lookup_from_monotone thresholds 0 x1 x2 Hx).
Qed.

Lemma xp_levels_fall : levels_fall (rev Analyzer.xp_levels).
Proof.
  simpl. repeat (split; [lia|]; split; [repeat constructor; simpl; lia|]).
  exact I.
Qed.

End LevelFacts.

(** C6.  Both level lookups are monotone in the XP value: the analyzer's
    ten-level table and the redesigned threshold table.  The values need not
    be non-negative. *)
Theorem level_lookup_is_monotone (x1 x2 : Z) :
  x1 < x2 ->
  Analyzer._calculate_level_from_xp x1 <= Analyzer._calculate_level_from_xp x2 /\
  Redesign.get_level_from_xp x1 <= Redesign.get_level_from_xp x2.
Proof.
  intros Hx. split.
  - apply (LevelFacts.scan_down_monotone (rev Analyzer.xp_levels));
      [apply LevelFacts.xp_levels_fall | lia].
  - apply LevelFacts.level_lookup_monotone. lia.
Qed.

Lemma level_lookup_is_monotone_witness :
  Analyzer._calculate_level_from_xp 99 <= Analyzer._calculate_level_from_xp 2500 /\
  Redesign.get_level_from_xp 99 <= Redesign.get_level_from_xp 2500.
Proof. apply (level_lookup_is_monotone 99 2500). reflexivity. Defined.

(** ** C4: per-session XP *)

Module SessionFacts.

Import Redesign SessionNotions.

Lemma int_of_float_comp (p q : Q) : (p == q)%Q -> int_of_float p = int_of_float q.
Proof.
  intros E. unfold int_of_float.
  destruct (Qle_bool 0 p) eqn:Hp, (Qle_bool 0 q) eqn:Hq.
  - now rewrite E.
  - apply Qle_bool_iff in Hp. rewrite E in Hp. apply Qle_bool_iff in Hp. congruence.
  - apply Qle_bool_iff in Hq. rewrite <- E in Hq. apply Qle_bool_iff in Hq. congruence.
  - now rewrite E.
Qed.

Lemma int_of_float_inject (z : Z) : int_of_float (inject_Z z) = z.
Proof.
  unfold int_of_float. destruct (Qle_bool 0 (inject_Z z)).
  - apply Qfloor_Z.
  - apply Qceiling_Z.
Qed.

Lemma int_of_float_times_one (z : Z) : int_of_float (inject_Z z * 1)%Q = z.
Proof.
  rewrite (int_of_float_comp _ (inject_Z z)); [apply int_of_float_inject|].
  apply Qmult_1_r.
Qed.

Lemma multiplier_is_product (sd : SessionData) :
  (fst (performance_multiplier sd) == product_of_flags sd)%Q.
Proof.
  unfold performance_multiplier, product_of_flags.
  destruct (fast_completion sd), (zero_errors sd), (first_try_success sd);
    reflexivity.
Qed.

Lemma multiplier_above_one (sd : SessionData) :
  negb (Qle_bool (fst (performance_multiplier sd)) 1) = any_flag sd.
Proof.
  unfold performance_multiplier, any_flag.
  destruct (fast_completion sd), (zero_errors sd), (first_try_success sd);
    reflexivity.
Qed.

Lemma engagement_is_flat (sd : SessionData) :
  engagement_xp_of sd = flat_engagement sd.
Proof.
  unfold engagement_xp_of, flat_engagement.
  destruct (daily_login sd), (7 <=? streak_days sd), (30 <=? streak_days sd);
    reflexivity.
Qed.

(* the state of the computation before the multiplier is applied *)
Lemma calculate_session_xp_unfold (sd : SessionData) :
  calculate_session_xp sd =
  let s := subtotal sd in
  let m := fst (performance_multiplier sd) in
  let e := flat_engagement sd in
  let perf :=
    if any_flag sd
    then Some (mk_performance_bonus m (int_of_float (inject_Z s * (m - 1))%Q)
                 (snd (performance_multiplier sd)))
    else None in
  let t := if any_flag sd then int_of_float (inject_Z s * m)%Q else s in
  let b e' :=
    mk_breakdown (option_map token_breakdown (tokens sd))
                 (option_map task_xp_of (tasks sd))
                 (option_map (tool_xp_of sd) (tools_used sd)) perf e' in
  if 0 <? e then (t + e, b (Some e)) else (t, b None).
Proof.
  unfold calculate_session_xp, subtotal. cbv zeta.
  rewrite <- engagement_is_flat, <- multiplier_above_one.
  destruct (performance_multiplier sd) as [m reasons]. cbn [fst snd].
  destruct (tokens sd), (tasks sd), (tools_used sd); cbn [option_map];
    rewrite ?Z.add_0_l, ?Z.add_0_r;
    destruct (negb (Qle_bool m 1)); destruct (0 <? engagement_xp_of sd);
    reflexivity.
Qed.

End SessionFacts.

(** C4.  The performance multiplier is the product of 2.0, 1.5 and 1.3 over
    the flags that are set (3.9 when all three are); it multiplies the
    subtotal of token, task and tool XP only, and the bonus portion
    subtotal * (multiplier - 1) is reported beside it; the flat engagement
    bonuses (100 for the login, 1000 from a streak of 7 days, 5000 more from
    a streak of 30 days) are added after, unmultiplied. *)
Theorem session_xp_multiplier_then_engagement (sd : Redesign.SessionData) :
  let m := SessionNotions.product_of_flags sd in
  let s := SessionNotions.subtotal sd in
  let e := SessionNotions.flat_engagement sd in
  (fst (Redesign.performance_multiplier sd) == m)%Q /\
  (forall sd',
     Redesign.fast_completion sd' = true ->
     Redesign.zero_errors sd' = true ->
     Redesign.first_try_success sd' = true ->
     (fst (Redesign.performance_multiplier sd') == 39 # 10)%Q) /\
  fst (Redesign.calculate_session_xp sd) = int_of_float (inject_Z s * m)%Q + e /\
  match Redesign.performance_bonus (snd (Redesign.calculate_session_xp sd)) with
  | Some pb =>
      SessionNotions.any_flag sd = true /\
      (Redesign.multiplier pb == m)%Q /\
      Redesign.bonus_xp pb = int_of_float (inject_Z s * (m - 1))%Q
  | None => SessionNotions.any_flag sd = false
  end /\
  Redesign.engagement (snd (Redesign.calculate_session_xp sd)) =
    (if 0 <? e then Some e else None).
Proof.
  cbv zeta.
  pose proof (SessionFacts.multiplier_is_product sd) as Hm.
  split; [exact Hm|].
  split.
  { intros sd' Hf Hz Ht. rewrite SessionFacts.multiplier_is_product.
    unfold SessionNotions.product_of_flags. rewrite Hf, Hz, Ht. reflexivity. }
  rewrite SessionFacts.calculate_session_xp_unfold. cbv zeta.
  assert (Hone : SessionNotions.any_flag sd = false ->
                 (SessionNotions.product_of_flags sd == 1)%Q).
  { unfold SessionNotions.any_flag, SessionNotions.product_of_flags.
    destruct (Redesign.fast_completion sd), (Redesign.zero_errors sd),
             (Redesign.first_try_success sd); simpl; intros H;
      try discriminate; reflexivity. }
  assert (Htotal :
            (if SessionNotions.any_flag sd
             then int_of_float (inject_Z (SessionNotions.subtotal sd) *
                                fst (Redesign.performance_multiplier sd))%Q
             else SessionNotions.subtotal sd) =
            int_of_float (inject_Z (SessionNotions.subtotal sd) *
                          SessionNotions.product_of_flags sd)%Q).
  { destruct (SessionNotions.any_flag sd) eqn:F.
    - apply SessionFacts.int_of_float_comp. now rewrite Hm.
    - rewrite (SessionFacts.int_of_float_comp _
                 (inject_Z (SessionNotions.subtotal sd) * 1)%Q).
      + symmetry. apply SessionFacts.int_of_float_times_one.
      + now rewrite (Hone eq_refl). }
  rewrite Htotal.
  destruct (0 <? SessionNotions.flat_engagement sd) eqn:E; cbn [fst snd
    Redesign.performance_bonus Redesign.engagement].
  - split; [reflexivity|]. split; [|reflexivity].
    destruct (SessionNotions.any_flag sd); [|reflexivity].
    cbn [Redesign.multiplier Redesign.bonus_xp].
    split; [reflexivity|]. split; [exact Hm|].
    apply SessionFacts.int_of_float_comp. now rewrite Hm.
  - split.
    { apply Z.ltb_ge in E.
      assert (H0 : 0 <= SessionNotions.flat_engagement sd).
      { unfold SessionNotions.flat_engagement.
        destruct (Redesign.daily_login sd), (7 <=? Redesign.streak_days sd),
                 (30 <=? Redesign.streak_days sd); lia. }
      lia. }
    split; [|reflexivity].
    destruct (SessionNotions.any_flag sd); [|reflexivity].
    cbn [Redesign.multiplier Redesign.bonus_xp].
    split; [reflexivity|]. split; [exact Hm|].
    apply SessionFacts.int_of_float_comp. now rewrite Hm.
Qed.

(** ** C5, C10: side-channel extraction *)

Module ExtractionFacts.

Import Analyzer.

Section WithRuntime.

Context {rt : Runtime}.

Lemma user_is_not_assistant (entry : dict json) :
  is_str (Dict.get entry "type") "user" = true ->
  assistant_with_message entry = false.
Proof.
  unfold assistant_with_message, is_str.
  destruct (Dict.get entry "type") as [[| | | | s | |]|]; try discriminate.
  intros H. apply String.eqb_eq in H. subst s. reflexivity.
Qed.

Lemma as_str_cases (j : json) :
  (exists s, as_str j = Ok s) \/ as_str j = Raise Unmodelled.
Proof. destruct j; simpl; eauto. Qed.

(* the scan starts at the invoking entry: what that entry says of an error
   settles the result, whatever follows *)
Lemma own_text_settles (entries : list (dict json)) (i : nat)
      (entry : dict json) (content : string) :
  nth_error entries i = Some entry ->
  is_str (Dict.get entry "toolUseResult") "Error" = false ->
  _extract_message_content entry = Ok content ->
  content <> EmptyString ->
  PyStr.contains "error" (PyStr.lower content) = true ->
  _determine_task_success entries i = Ok (false, Some (PyStr.take 200 content)).
Proof.
  intros Hi Htool Hcontent Hne Herr. unfold _determine_task_success.
  assert (Hlt : (i < List.length entries)%nat).
  { apply nth_error_Some. congruence. }
  replace (Nat.min (i + 5) (List.length entries) - i)%nat
    with (S (Nat.min (i + 5) (List.length entries) - i - 1))%nat by lia.
  cbn [seq scan_for_error]. rewrite Hi, Htool, Hcontent. cbn [bind].
  apply String.eqb_neq in Hne. rewrite Hne, Herr. reflexivity.
Qed.

(* an invocation carries the verdict of the scan started at its own index *)
Lemma invocation_success (entries : list (dict json)) (project_path : string)
      (i : nat) (entry : dict json) (invs : list AgentInvocation)
      (inv : AgentInvocation) :
  entry_invocations entries project_path i entry = Ok invs ->
  In inv invs ->
  _determine_task_success entries i = Ok (success inv, error_message inv).
Proof.
  unfold entry_invocations.
  destruct (negb _); [intros [= <-] []|].
  destruct (negb (truthy _)); [intros [= <-] []|].
  destruct (Dict.get_default entry "timestamp" _); try (intros [= <-] []).
  destruct (fromisoformat _) as [ts|]; [|intros [= <-] []].
  destruct (_extract_message_content entry) as [content|]; [|discriminate].
  cbn [bind]. destruct (String.eqb content EmptyString); [intros [= <-] []|].
  destruct (detect_agent_invocations content) as [| a agents]; [intros [= <-] []|].
  destruct (_extract_tools_from_entry entry) as [tools|]; [|discriminate].
  destruct (_extract_token_usage entry) as [tokens|]; [|discriminate].
  destruct (_extract_model_info entry) as [mdl|]; [|discriminate].
  destruct (_determine_task_success entries i) as [[ok msg]|]; [|discriminate].
  cbn [bind].
  destruct (as_str (Dict.get_default entry "sessionId" _)) as [sid|];
    [|discriminate].
  destruct (as_str (Dict.get_default entry "gitBranch" _)) as [branch|];
    [|discriminate].
  cbn [bind]. intros H Hin. injection H as H. rewrite <- H in Hin.
  change (In inv (map (fun agent_name =>
            mk_invocation agent_name sid ts project_path (PyStr.take 500 content)
              tools ok msg 0%Q tokens mdl branch (Some []) 0 0
              (_calculate_complexity_score content tools tokens)) (a :: agents)))
    in Hin.
  apply in_map_iff in Hin. destruct Hin as [name [<- _]]. reflexivity.
Qed.

End WithRuntime.

End ExtractionFacts.

(** C5, at the inputs where the code departs from it.  The scan of
    [_determine_task_success] covers the invoking entry itself and the four
    entries after it, not the five entries after it: a request whose own text
    speaks of an error is recorded as failed although nothing follows it,
    and a tool error in the fifth entry after the request goes unseen. *)
Theorem success_scan_starts_at_own_entry :
  (exists inv,
     Analyzer._extract_agent_invocations_from_entries (rt := Sample.runtime)
       LogExamples.own_error LogExamples.project = Ok [inv] /\
     Analyzer.agent_name inv = "python-pro" /\
     Analyzer.success inv = false /\
     Analyzer.error_message inv = Some "/python-pro fix the error in the parser") /\
  Analyzer._determine_task_success (rt := Sample.runtime) LogExamples.own_error 0
    = Ok (false, Some "/python-pro fix the error in the parser") /\
  nth_error LogExamples.late_error 5 = Some LogExamples.tool_error /\
  Analyzer._determine_task_success (rt := Sample.runtime) LogExamples.late_error 0
    = Ok (true, None).
Proof.
  split; [eexists; split; [vm_compute; reflexivity | repeat split]|].
  repeat split; vm_compute; reflexivity.
Qed.

(** C10.  For a log entry of type [user] the extraction of tools, tokens and
    model yields the empty list, zero and the empty string, and so every
    invocation created from that entry has no tools, no tokens and no
    model. *)
Theorem user_entry_has_no_side_channel
  {rt : Runtime} (entry : dict json) :
  is_str (Dict.get entry "type") "user" = true ->
  Analyzer._extract_tools_from_entry entry = Ok [] /\
  Analyzer._extract_token_usage entry = Ok 0 /\
  Analyzer._extract_model_info entry = Ok EmptyString /\
  forall entries project_path i invs,
    Analyzer.entry_invocations entries project_path i entry = Ok invs ->
    forall inv, In inv invs ->
      Analyzer.tools_used inv = [] /\
      Analyzer.tokens_used inv = 0 /\
      Analyzer.model inv = EmptyString.
Proof.
  intros Huser.
  pose proof (ExtractionFacts.user_is_not_assistant entry Huser) as Hna.
  assert (Htools : Analyzer._extract_tools_from_entry entry = Ok []).
  { unfold Analyzer._extract_tools_from_entry. now rewrite Hna. }
  assert (Htokens : Analyzer._extract_token_usage entry = Ok 0).
  { unfold Analyzer._extract_token_usage. now rewrite Hna. }
  assert (Hmodel : Analyzer._extract_model_info entry = Ok EmptyString).
  { unfold Analyzer._extract_model_info. now rewrite Hna. }
  repeat (split; [assumption|]).
  intros entries project_path i invs. unfold Analyzer.entry_invocations.
  rewrite Htools, Htokens, Hmodel.
  destruct (negb _); [intros [= <-] inv []|].
  destruct (negb (truthy _)); [intros [= <-] inv []|].
  destruct (Dict.get_default entry "timestamp" _); try (intros [= <-] inv []).
  destruct (fromisoformat _) as [ts|]; [|intros [= <-] inv []].
  destruct (Analyzer._extract_message_content entry) as [content|]; [|discriminate].
  cbn [bind]. destruct (String.eqb content EmptyString); [intros [= <-] inv []|].
  destruct (Analyzer.detect_agent_invocations content) as [| a agents];
    [intros [= <-] inv []|].
  destruct (Analyzer._determine_task_success entries i) as [[ok msg]|];
    [|discriminate].
  cbn [bind].
  destruct (ExtractionFacts.as_str_cases (Dict.get_default entry "sessionId" (JStr "unknown")))
    as [[sid ->] | ->]; [|discriminate].
  destruct (ExtractionFacts.as_str_cases (Dict.get_default entry "gitBranch" (JStr EmptyString)))
    as [[branch ->] | ->]; [|discriminate].
  cbn [bind]. intros H inv Hin. injection H as H. rewrite <- H in Hin.
  change (In inv (map (fun agent_name =>
            Analyzer.mk_invocation agent_name sid ts project_path
              (PyStr.take 500 content) [] ok msg 0%Q 0 EmptyString branch
              (Some []) 0 0
              (Analyzer._calculate_complexity_score content [] 0)) (a :: agents)))
    in Hin.
  apply in_map_iff in Hin. destruct Hin as [name [<- _]]. repeat split.
Qed.

Lemma user_entry_has_no_side_channel_witness :
  exists inv,
    Analyzer.entry_invocations (rt := Sample.runtime)
      LogExamples.own_error LogExamples.project 0
      (LogExamples.user_entry "2025-01-15T10:00:00Z"
         "/python-pro fix the error in the parser") = Ok [inv] /\
    Analyzer.tools_used inv = [] /\
    Analyzer.tokens_used inv = 0 /\
    Analyzer.model inv = EmptyString.
Proof.
  destruct (user_entry_has_no_side_channel (rt := Sample.runtime)
              (LogExamples.user_entry "2025-01-15T10:00:00Z"
                 "/python-pro fix the error in the parser") eq_refl)
    as [_ [_ [_ H]]].
  eexists. split.
  - vm_compute. reflexivity.
  - eapply (H LogExamples.own_error LogExamples.project 0%nat).
    + vm_compute. reflexivity.
    + left. reflexivity.
Defined.

(** * Further properties of the code *)

(** ** Scores and levels *)

Module ScoreFacts.

Lemma indicators_keep_nonneg (content_lower : string) (indicators : list string)
      (score : Q) :
  (0 <= score)%Q ->
  (0 <= fold_left
          (fun score indicator =>
             if PyStr.contains indicator content_lower
             then (score + (1 # 5))%Q else score)
          indicators score)%Q.
Proof.
  revert score. induction indicators as [| i indicators IH]; intros score H;
    simpl; [exact H|].
  apply IH. destruct (PyStr.contains i content_lower); [|exact H].
  rewrite <- (Qplus_0_l 0). apply Qplus_le_compat; [exact H | discriminate].
Qed.

Lemma Qsum_plus_le (a b : Q) : (0 <= a)%Q -> (0 <= b)%Q -> (0 <= a + b)%Q.
Proof.
  intros Ha Hb. rewrite <- (Qplus_0_l 0). now apply Qplus_le_compat.
Qed.

(* a table is ascending when each threshold is below the next *)
Fixpoint ascending (l : list Z) : bool :=
  match l with
  | a :: ((b :: _) as rest) => (a <? b) && ascending rest
  | _ => true
  end.

Lemma ascending_sorted (l : list Z) :
  ascending l = true -> StronglySorted Z.lt l.
Proof.
  intros H. apply Sorted_StronglySorted; [intros x y z; apply Z.lt_trans|].
  induction l as [| a l IH]; [constructor|].
  destruct l as [| b l]; [repeat constructor|].
  simpl in H. apply andb_true_iff in H. destruct H as [Hab Hrest].
  constructor; [now apply IH|]. constructor. now apply Z.ltb_lt.
Qed.

Lemma lookup_from_cons (t : Z) (rest : list Z) (level xp : Z) :
  Notions.lookup_from (t :: rest) level xp =
  if xp <? t then level else Notions.lookup_from rest (level + 1) xp.
Proof.
  unfold Notions.lookup_from. cbn [Redesign.first_exceeding].
  destruct (xp <? t); [reflexivity|].
  destruct (Redesign.first_exceeding rest (level + 1) xp); [reflexivity|].
  cbn [List.length]. lia.
Qed.

(* the level found at a threshold of an ascending table is the one it opens *)
Lemma lookup_at_threshold (thresholds : list Z) (level : Z) (k : nat) :
  StronglySorted Z.lt thresholds ->
  (k < List.length thresholds)%nat ->
  Notions.lookup_from thresholds level (nth k thresholds 0) =
  level + Z.of_nat k + 1.
Proof.
  intros Hs. revert level k.
  induction Hs as [| t rest Hs IH Hall]; intros level k Hk; [simpl in Hk; lia|].
  rewrite lookup_from_cons. destruct k as [| k]; cbn [nth].
  - rewrite Z.ltb_irrefl.
    destruct rest as [| r rest]; [unfold Notions.lookup_from; simpl; lia|].
    rewrite lookup_from_cons.
    inversion Hall as [| ? ? Hr _]; subst.
    apply Z.ltb_lt in Hr. rewrite Hr. lia.
  - simpl in Hk. assert (Hk' : (k < List.length rest)%nat) by lia.
    rewrite Forall_forall in Hall.
    assert (Hlt : t < nth k rest 0) by (apply Hall, nth_In; exact Hk').
    destruct (Z.ltb_spec (nth k rest 0) t); [lia|].
    rewrite IH by exact Hk'. lia.
Qed.

(* what the lookup says of the thresholds around the level it returns *)
Lemma lookup_bracket (thresholds : list Z) (level xp : Z) :
  let k := Notions.lookup_from thresholds level xp - level in
  0 <= k <= Z.of_nat (List.length thresholds) /\
  (forall j, (Z.of_nat j < k) -> nth j thresholds 0 <= xp) /\
  (k < Z.of_nat (List.length thresholds) -> xp < nth (Z.to_nat k) thresholds 0).
Proof.
  revert level. induction thresholds as [| t rest IH]; intros level; cbv zeta.
  - unfold Notions.lookup_from. simpl. repeat split; lia.
  - rewrite lookup_from_cons. destruct (Z.ltb_spec xp t).
    + replace (level - level) with 0 by lia. cbn [List.length].
      repeat split; try lia. intros _. exact H.
    + specialize (IH (level + 1)). cbv zeta in IH.
      destruct IH as [[Hlo Hhi] [Hbelow Habove]].
      set (k' := Notions.lookup_from rest (level + 1) xp - (level + 1)) in *.
      replace (Notions.lookup_from rest (level + 1) xp - level) with (k' + 1)
        by (unfold k'; lia).
      cbn [List.length]. repeat split; try lia.
      * intros [| j] Hj; cbn [nth]; [exact H|]. apply Hbelow. lia.
      * intros Hk. replace (Z.to_nat (k' + 1)) with (S (Z.to_nat k')) by lia.
        cbn [nth]. apply Habove. lia.
Qed.

Lemma last_is_nth (l : list Z) :
  last l 0 = nth (List.length l - 1) l 0.
Proof.
  induction l as [| a l IH]; [reflexivity|].
  destruct l as [| b l]; [reflexivity|].
  change (last (a :: b :: l) 0) with (last (b :: l) 0). rewrite IH.
  cbn [List.length]. replace (S (S (List.length l)) - 1)%nat
    with (S (S (List.length l) - 1)) by lia. reflexivity.
Qed.

(* on an ascending table, level and threshold are inverse to each other *)
Lemma lookup_xp_for_level (thresholds : list Z) (level : Z) :
  StronglySorted Z.lt thresholds ->
  1 <= level <= Z.of_nat (List.length thresholds) ->
  Redesign.level_lookup thresholds (Redesign.xp_for_level thresholds level) = level.
Proof.
  intros Hs Hl. unfold Redesign.xp_for_level.
  destruct (Z.leb_spec level 0); [lia|].
  change (Redesign.level_lookup thresholds ?x)
    with (Notions.lookup_from thresholds 0 x).
  destruct (Z.leb_spec (Z.of_nat (List.length thresholds)) level).
  - rewrite last_is_nth. rewrite lookup_at_threshold; [lia | exact Hs | lia].
  - rewrite lookup_at_threshold; [lia | exact Hs | lia].
Qed.

(* the level of an XP value at or above the first threshold, and the
   thresholds around it *)
Lemma level_lookup_bracket (thresholds : list Z) (xp : Z) :
  nth 0 thresholds 0 <= xp ->
  thresholds <> [] ->
  let level := Redesign.level_lookup thresholds xp in
  let n := Z.of_nat (List.length thresholds) in
  1 <= level <= n /\
  Redesign.xp_for_level thresholds level <= xp /\
  (level < n -> xp < Redesign.xp_for_level thresholds (level + 1)).
Proof.
  intros Hxp Hne. cbv zeta.
  pose proof (lookup_bracket thresholds 0 xp) as H.
  cbv zeta in H. rewrite Z.sub_0_r in H.
  change (Notions.lookup_from thresholds 0 xp)
    with (Redesign.level_lookup thresholds xp) in H.
  destruct H as [[Hlo Hhi] [Hbelow Habove]].
  set (level := Redesign.level_lookup thresholds xp) in *.
  assert (Hlen : (0 < List.length thresholds)%nat).
  { destruct thresholds; [contradiction | simpl; lia]. }
  assert (H1 : 1 <= level).
  { destruct (Z.eq_dec level 0) as [E | E]; [|lia].
    rewrite E in Habove. specialize (Habove ltac:(lia)).
    change (Z.to_nat 0) with 0%nat in Habove. lia. }
  split; [lia|].
  unfold Redesign.xp_for_level. split.
  - destruct (Z.leb_spec level 0); [lia|].
    destruct (Z.leb_spec (Z.of_nat (List.length thresholds)) level).
    + rewrite last_is_nth. apply Hbelow. lia.
    + apply Hbelow. lia.
  - intros Hl. destruct (Z.leb_spec (level + 1) 0); [lia|].
    specialize (Habove Hl).
    destruct (Z.leb_spec (Z.of_nat (List.length thresholds)) (level + 1)).
    + rewrite last_is_nth.
      replace (List.length thresholds - 1)%nat with (Z.to_nat level) by lia.
      exact Habove.
    + replace (Z.to_nat (level + 1 - 1)) with (Z.to_nat level) by lia.
      exact Habove.
Qed.

Lemma thresholds_ascending : StronglySorted Z.lt Redesign.level_thresholds.
Proof. apply ascending_sorted. vm_compute. reflexivity. Qed.

Lemma thresholds_length : List.length Redesign.level_thresholds = 300%nat.
Proof. vm_compute. reflexivity. Qed.

Lemma thresholds_start : nth 0 Redesign.level_thresholds 0 = 0.
Proof. vm_compute. reflexivity. Qed.

End ScoreFacts.

Lemma complexity_score_bounds_lemma
  (content : string) (tools_used : list string) (tokens_used : Z) :
  (0 <= Analyzer._calculate_complexity_score content tools_used tokens_used /\
   Analyzer._calculate_complexity_score content tools_used tokens_used <= 5)%Q.
Proof.
  unfold Analyzer._calculate_complexity_score. split; [|apply Q.le_min_r].
  apply Q.min_glb; [|discriminate].
  apply ScoreFacts.indicators_keep_nonneg.
  assert (H0 : (0 <= Qmin (Z.of_nat (String.length content) # 1000) 2 +
                     inject_Z (Z.of_nat (List.length (PyStr.distinct tools_used))) *
                     (3 # 10))%Q).
  { apply ScoreFacts.Qsum_plus_le.
    - apply Q.min_glb; [|discriminate]. unfold Qle. simpl. lia.
    - apply Qmult_le_0_compat; [|discriminate].
      change 0%Q with (inject_Z 0). rewrite <- Zle_Qle. lia. }
  destruct (2000 <? tokens_used);
    [apply ScoreFacts.Qsum_plus_le; [exact H0 | discriminate]|].
  destruct (1000 <? tokens_used);
    [apply ScoreFacts.Qsum_plus_le; [exact H0 | discriminate]|].
  destruct (500 <? tokens_used);
    [apply ScoreFacts.Qsum_plus_le; [exact H0 | discriminate] | exact H0].
Qed.

(** X1.  The complexity score of a message lies between 0 and 5, whatever
    the content, the tools and the token count. *)
Theorem complexity_score_bounds
  (content : string) (tools_used : list string) (tokens_used : Z) :
  (0 <= Analyzer._calculate_complexity_score content tools_used tokens_used /\
   Analyzer._calculate_complexity_score content tools_used tokens_used <= 5)%Q.
Proof. apply complexity_score_bounds_lemma. Qed.

Lemma analyzer_level_range (xp : Z) :
  1 <= Analyzer._calculate_level_from_xp xp <= 10.
Proof.
  unfold Analyzer._calculate_level_from_xp. simpl.
  repeat match goal with
         | |- context [?a <=? xp] => destruct (Z.leb_spec a xp)
         end; lia.
Qed.

(** X2.  The analyzer's level lies between 1 and 10.  Below level 10 the XP
    named for the next level is strictly above the XP the level was computed
    from; at level 10 it is 10000, which the XP has already reached. *)
Theorem analyzer_next_level_is_ahead (xp : Z) :
  let level := Analyzer._calculate_level_from_xp xp in
  1 <= level <= 10 /\
  (level < 10 -> xp < Analyzer._get_next_level_xp level) /\
  (level = 10 -> Analyzer._get_next_level_xp level = 10000 /\ 10000 <= xp).
Proof.
  cbv zeta. unfold Analyzer._calculate_level_from_xp. simpl.
  repeat match goal with
         | |- context [?a <=? xp] => destruct (Z.leb_spec a xp)
         end;
    unfold Analyzer._get_next_level_xp; simpl; repeat split; lia.
Qed.

(** X3.  Level and threshold of the redesigned table are inverse to each
    other: for every level from 1 to 300 the XP required for the level is
    mapped back to that level. *)
Theorem level_of_required_xp (level : Z) :
  1 <= level <= 300 ->
  Redesign.get_level_from_xp (Redesign.get_xp_for_level level) = level.
Proof.
  intros Hl. apply ScoreFacts.lookup_xp_for_level.
  - exact ScoreFacts.thresholds_ascending.
  - rewrite ScoreFacts.thresholds_length. exact Hl.
Qed.

Lemma level_of_required_xp_witness :
  Redesign.get_level_from_xp (Redesign.get_xp_for_level 71) = 71.
Proof. apply level_of_required_xp. split; discriminate. Defined.

(** X4.  For non-negative XP the redesigned level lies between 1 and 300,
    the XP required for that level does not exceed the XP, and below level
    300 the XP required for the next level does. *)
Theorem level_brackets_xp (xp : Z) :
  0 <= xp ->
  let level := Redesign.get_level_from_xp xp in
  1 <= level <= 300 /\
  Redesign.get_xp_for_level level <= xp /\
  (level < 300 -> xp < Redesign.get_xp_for_level (level + 1)).
Proof.
  intros Hxp.
  pose proof (ScoreFacts.level_lookup_bracket Redesign.level_thresholds xp) as H.
  rewrite ScoreFacts.thresholds_start, ScoreFacts.thresholds_length in H.
  apply H; [exact Hxp|].
  intros E. pose proof ScoreFacts.thresholds_length as Hlen.
  rewrite E in Hlen. discriminate.
Qed.

Lemma level_brackets_xp_witness :
  1 <= Redesign.get_level_from_xp 1234 <= 300 /\
  Redesign.get_xp_for_level (Redesign.get_level_from_xp 1234) <= 1234 /\
  (Redesign.get_level_from_xp 1234 < 300 ->
   1234 < Redesign.get_xp_for_level (Redesign.get_level_from_xp 1234 + 1)).
Proof. apply (level_brackets_xp 1234). discriminate. Defined.

(** ** Per-session XP *)

Module SessionMore.

Import Redesign SessionNotions.



Lemma int_of_float_nonneg (q : Q) : (0 <= q)%Q -> int_of_float q = Qfloor q.
Proof.
  intros H. unfold int_of_float. apply Qle_bool_iff in H. now rewrite H.
Qed.





Lemma length_append (a b : string) :
  String.length (a ++ b) = (String.length a + String.length b)%nat.
Proof. induction a as [| c a IH]; simpl; [reflexivity | now rewrite IH]. Qed.

Lemma append_inv_tail (a b s : string) : a ++ s = b ++ s -> a = b.
Proof.
  revert b. induction a as [| c a IH]; intros [| d b] H; simpl in H.
  - reflexivity.
  - apply (f_equal String.length) in H. simpl in H. rewrite length_append in H. lia.
  - apply (f_equal String.length) in H. simpl in H. rewrite length_append in H. lia.
  - injection H as -> H. f_equal. now apply IH.
Qed.

Lemma endswith_append (a s : string) : PyStr.endswith s (a ++ s) = true.
Proof.
  induction a as [| c a IH]; simpl.
  - destruct s; simpl; [reflexivity|]. rewrite Ascii.eqb_refl, String.eqb_refl.
    reflexivity.
  - rewrite IH. apply orb_true_r.
Qed.

(* a key that does not end in [s] is not [c ++ s] *)
Lemma eqb_append_no_suffix (c s key : string) :
  PyStr.endswith s key = false -> String.eqb (c ++ s) key = false.
Proof.
  intros H. apply String.eqb_neq. intros E. rewrite <- E in H.
  rewrite endswith_append in H. discriminate.
Qed.

Lemma eqb_append_suffix (c p s : string) :
  String.eqb (c ++ s) (p ++ s) = String.eqb c p.
Proof.
  destruct (String.eqb c p) eqn:E.
  - apply String.eqb_eq in E. subst. apply String.eqb_refl.
  - apply String.eqb_neq. intros H. apply append_inv_tail in H.
    apply String.eqb_neq in E. contradiction.
Qed.

(* the rate of a task, by its complexity *)
Lemma task_rate_of (complexity : string) :
  Dict.get_default base_rates_int (complexity ++ "_task") 50 =
  if String.eqb complexity "medium" then 200
  else if String.eqb complexity "complex" then 500
  else 50.
Proof.
  unfold Dict.get_default, base_rates_int. cbn [Dict.get].
  change "simple_task" with ("simple" ++ "_task").
  change "medium_task" with ("medium" ++ "_task").
  change "complex_task" with ("complex" ++ "_task").
  rewrite !eqb_append_suffix.
  rewrite !(eqb_append_no_suffix complexity "_task") by reflexivity.
  destruct (String.eqb complexity "simple") eqn:E.
  - apply String.eqb_eq in E. subst. reflexivity.
  - destruct (String.eqb complexity "medium"); [reflexivity|].
    destruct (String.eqb complexity "complex"); reflexivity.
Qed.

End SessionMore.


(** X6.  A task earns 200 XP when its complexity is medium, 500 when it is
    complex and 50 otherwise -- when it is simple, absent or any other
    word; the rate of 1000 for a mission is never awarded. *)
Theorem task_rate_by_complexity (task : dict string) :
  Redesign.task_rate task =
  match Dict.get task "complexity" with
  | Some c => if String.eqb c "medium" then 200
              else if String.eqb c "complex" then 500
              else 50
  | None => 50
  end.
Proof.
  unfold Redesign.task_rate. cbv zeta. rewrite SessionMore.task_rate_of.
  unfold Dict.get_default. destruct (Dict.get task "complexity"); reflexivity.
Qed.

(** X7.  The task list the tracker makes from a task description earns 500
    XP when the description holds a complex keyword, else 200 when it holds
    a medium keyword, else 50. *)
Theorem tracker_task_xp (task : string) :
  Redesign.task_xp_of (Tracker.default_tasks task) =
  let task_lower := PyStr.lower task in
  if existsb (fun k => PyStr.contains k task_lower) Tracker.complex_keywords
  then 500
  else if existsb (fun k => PyStr.contains k task_lower) Tracker.medium_keywords
  then 200
  else 50.
Proof.
  unfold Tracker.default_tasks, Redesign.task_xp_of. cbn [fold_left].
  rewrite task_rate_by_complexity. cbv zeta.
  unfold Tracker._determine_task_complexity. cbn [Dict.get].
  rewrite String.eqb_refl.
  destruct (existsb _ Tracker.complex_keywords); [reflexivity|].
  destruct (existsb _ Tracker.medium_keywords); reflexivity.
Qed.

(** X8.  Tool XP is a whole rate per tool used: 10, or 12 with more than
    three tools, each half as much again when the efficient-tools flag is
    set (15 or 18). *)
Theorem tool_xp_per_tool (sd : Redesign.SessionData) (tools : list string) :
  Redesign.tool_xp_of sd tools =
  Z.of_nat (List.length tools) *
  match (3 <? List.length tools)%nat, Redesign.efficient_tools sd with
  | false, false => 10
  | true, false => 12
  | false, true => 15
  | true, true => 18
  end.
Proof.
  unfold Redesign.tool_xp_of.
  set (n := Z.of_nat (List.length tools)).
  change (Redesign.rate_int "tool_use_base") with 10.
  change (Redesign.rate_float "tool_combo_multiplier") with (12 # 10).
  change (Redesign.rate_float "efficient_tool_multiplier") with (15 # 10).
  assert (H12 : int_of_float (inject_Z (n * 10) * (12 # 10)) = n * 12).
  { rewrite (SessionFacts.int_of_float_comp _ (inject_Z (n * 12)));
      [apply SessionFacts.int_of_float_inject|].
    unfold Qeq, Qmult, inject_Z. cbn [Qnum Qden]. lia. }
  assert (H15 : forall k, int_of_float (inject_Z (n * (2 * k)) * (15 # 10))
                          = n * (3 * k)).
  { intros k.
    rewrite (SessionFacts.int_of_float_comp _ (inject_Z (n * (3 * k))));
      [apply SessionFacts.int_of_float_inject|].
    unfold Qeq, Qmult, inject_Z. cbn [Qnum Qden]. lia. }
  destruct (Nat.ltb 3 (List.length tools)), (Redesign.efficient_tools sd).
  - rewrite H12. apply (H15 6).
  - exact H12.
  - apply (H15 5).
  - reflexivity.
Qed.

(** ** Success scan and extraction *)

Module ExtractionMore.

Import Analyzer.

Lemma rstrip_head (c : ascii) (s : string) :
  PyStr.is_space c = false ->
  PyStr.rstrip (String c s) = String c (PyStr.rstrip s).
Proof.
  intros H. cbn [PyStr.rstrip]. rewrite H. destruct (PyStr.rstrip s); reflexivity.
Qed.

Lemma rstrip_cons (c : ascii) (s : string) :
  PyStr.rstrip (String c s) =
  match PyStr.rstrip s with
  | EmptyString => if PyStr.is_space c then EmptyString else String c EmptyString
  | r => String c r
  end.
Proof. reflexivity. Qed.

Lemma rstrip_idempotent (s : string) :
  PyStr.rstrip (PyStr.rstrip s) = PyStr.rstrip s.
Proof.
  induction s as [| c s IH]; [reflexivity|].
  rewrite (rstrip_cons c s). destruct (PyStr.rstrip s) as [| d r] eqn:E.
  - destruct (PyStr.is_space c) eqn:Hc; [reflexivity|].
    rewrite rstrip_cons. cbn [PyStr.rstrip]. now rewrite Hc.
  - rewrite rstrip_cons, IH. reflexivity.
Qed.

(* a left-stripped string is empty or begins with a character that is kept *)
Lemma lstrip_head (s : string) :
  PyStr.lstrip s = EmptyString \/
  exists c t, PyStr.lstrip s = String c t /\ PyStr.is_space c = false.
Proof.
  induction s as [| c s IH]; [now left|].
  cbn [PyStr.lstrip]. destruct (PyStr.is_space c) eqn:Hc; [exact IH|].
  right. now exists c, s.
Qed.

Lemma strip_idempotent (s : string) : PyStr.strip (PyStr.strip s) = PyStr.strip s.
Proof.
  unfold PyStr.strip.
  destruct (lstrip_head s) as [-> | [c [t [-> Hc]]]]; [reflexivity|].
  rewrite (rstrip_head c t Hc). cbn [PyStr.lstrip]. rewrite Hc.
  rewrite <- (rstrip_head c t Hc). apply rstrip_idempotent.
Qed.

Lemma take_length (n : nat) (s : string) :
  (String.length (PyStr.take n s) <= n)%nat.
Proof.
  revert s. induction n as [| n IH]; intros [| c s]; simpl; try lia.
  specialize (IH s). lia.
Qed.

Section WithRuntime.

Context {rt : Runtime}.

Lemma add_text_item_raises (content : string) (item : json) (e : exn) :
  add_text_item content item = Raise e -> e = TypeError.
Proof.
  unfold add_text_item. destruct item; try discriminate.
  destruct (is_str _ _); [|discriminate].
  destruct (Dict.get_default kv "text" _); try discriminate; now intros [= <-].
Qed.

Lemma text_items_raise (items : list json) (acc : result string) (e : exn) :
  (forall e', acc = Raise e' -> e' = TypeError) ->
  fold_left (fun acc item => content <- acc ;; add_text_item content item)
            items acc = Raise e ->
  e = TypeError.
Proof.
  revert acc. induction items as [| item items IH]; intros acc Hacc; simpl.
  - apply Hacc.
  - apply IH. intros e'. destruct acc as [content | e0]; simpl.
    + apply add_text_item_raises.
    + intros [= <-]. now apply Hacc.
Qed.

(* the content is stripped, and only a text item that is not a string
   makes the extraction raise *)
Lemma message_content_cases (entry : dict json) :
  match _extract_message_content entry with
  | Ok content => PyStr.strip content = content
  | Raise e => e = TypeError
  end.
Proof.
  unfold _extract_message_content.
  destruct (Dict.get_default entry "message" _); try reflexivity.
  destruct (Dict.get kv "content") as [[| | | | s | items |]|]; try reflexivity.
  - apply strip_idempotent.
  - destruct (fold_left _ items (Ok EmptyString)) as [content | e] eqn:E; simpl.
    + apply strip_idempotent.
    + apply (text_items_raise items (Ok EmptyString) e); [discriminate | exact E].
Qed.

Lemma scan_cases (entries : list (dict json)) (indices : list nat) :
  Forall (fun i => (i < List.length entries)%nat) indices ->
  match scan_for_error entries indices with
  | Ok (true, msg) => msg = None
  | Ok (false, msg) => exists m, msg = Some m
  | Raise e => e = AttributeError \/ e = TypeError
  end.
Proof.
  induction 1 as [| i indices Hi Hall IH]; cbn [scan_for_error]; [reflexivity|].
  apply nth_error_Some in Hi.
  destruct (nth_error entries i) as [entry|]; [|contradiction].
  destruct (is_str _ _).
  - destruct (Dict.get_default entry "message" _); try (now left). eauto.
  - pose proof (message_content_cases entry) as Hc.
    destruct (_extract_message_content entry) as [content | e]; cbn [bind].
    + destruct (negb _ && _); [eauto | exact IH].
    + now right.
Qed.

Lemma scan_same (e1 e2 : list (dict json)) (indices : list nat) :
  Forall (fun i => nth_error e1 i = nth_error e2 i) indices ->
  scan_for_error e1 indices = scan_for_error e2 indices.
Proof.
  induction 1 as [| i indices Hi Hall IH]; cbn [scan_for_error]; [reflexivity|].
  rewrite Hi, IH. reflexivity.
Qed.

Lemma scan_shift (entries : list (dict json)) (a b k : nat) :
  scan_for_error entries (seq (a + b) k) =
  scan_for_error (skipn a entries) (seq b k).
Proof.
  revert b. induction k as [| k IH]; intros b; cbn [seq scan_for_error];
    [reflexivity|].
  rewrite nth_error_skipn.
  replace (S (a + b)) with (a + S b)%nat by lia. rewrite IH. reflexivity.
Qed.

End WithRuntime.

End ExtractionMore.

(** X9.  The verdict of the success scan is well-formed: success comes with
    no error message and failure with one; the scan raises only on a
    tool-error entry whose message is not an object (AttributeError) or on a
    text item that is not a string (TypeError). *)
Theorem success_verdict_shape
  {rt : Runtime} (entries : list (dict json)) (start_idx : nat) :
  match Analyzer._determine_task_success entries start_idx with
  | Ok (true, msg) => msg = None
  | Ok (false, msg) => exists m, msg = Some m
  | Raise e => e = AttributeError \/ e = TypeError
  end.
Proof.
  unfold Analyzer._determine_task_success.
  apply ExtractionMore.scan_cases. apply Forall_forall.
  intros i Hi. apply in_seq in Hi. lia.
Qed.

(** X10.  The verdict at an index depends on the five entries from that
    index on and on nothing else: it is the verdict at index 0 of the slice
    entries[start_idx : start_idx + 5]; at or past the end of the list it is
    success. *)
Theorem success_scan_window
  {rt : Runtime} (entries : list (dict json)) (start_idx : nat) :
  Analyzer._determine_task_success entries start_idx =
  Analyzer._determine_task_success (firstn 5 (skipn start_idx entries)) 0 /\
  ((List.length entries <= start_idx)%nat ->
   Analyzer._determine_task_success entries start_idx = Ok (true, None)).
Proof.
  unfold Analyzer._determine_task_success. split.
  - rewrite length_firstn, length_skipn.
    replace (Nat.min (start_idx + 5) (List.length entries) - start_idx)%nat
      with (Nat.min 5 (List.length entries - start_idx)) by lia.
    replace (Nat.min (0 + 5) (Nat.min 5 (List.length entries - start_idx)) - 0)%nat
      with (Nat.min 5 (List.length entries - start_idx)) by lia.
    rewrite <- (Nat.add_0_r start_idx) at 1.
    rewrite ExtractionMore.scan_shift.
    apply ExtractionMore.scan_same. apply Forall_forall. intros i Hi.
    apply in_seq in Hi. rewrite nth_error_firstn.
    destruct (Nat.ltb_spec i 5); [reflexivity | lia].
  - intros Hlen.
    replace (Nat.min (start_idx + 5) (List.length entries) - start_idx)%nat
      with 0%nat by lia.
    reflexivity.
Qed.

(** X11.  The content extracted from an entry is stripped of leading and
    trailing white space (stripping it again changes nothing); the
    extraction raises only a TypeError, for a text item whose text is not a
    string. *)
Theorem message_content_is_stripped {rt : Runtime} (entry : dict json) :
  match Analyzer._extract_message_content entry with
  | Ok content => PyStr.strip content = content
  | Raise e => e = TypeError
  end.
Proof. apply ExtractionMore.message_content_cases. Qed.

Module LoopFacts.

Import Analyzer FurtherNotions.

Section WithRuntime.

Context {rt : Runtime}.

(* what the loop body returns when it returns *)
Lemma entry_invocations_inv
      (entries : list (dict json)) (path : string) (i : nat)
      (entry : dict json) (invs : list AgentInvocation) :
  entry_invocations entries path i entry = Ok invs ->
  invs = [] \/
  exists sid ts content tools verdict tokens mdl branch,
    content <> EmptyString /\
    _extract_message_content entry = Ok content /\
    _determine_task_success entries i = Ok verdict /\
    invs = map (created sid ts path content tools verdict tokens mdl branch)
               (detect_agent_invocations content).
Proof.
  unfold entry_invocations.
  destruct (negb _); [intros [= <-]; now left|].
  destruct (negb (truthy _)); [intros [= <-]; now left|].
  destruct (Dict.get_default entry "timestamp" _);
    try (intros [= <-]; now left).
  destruct (fromisoformat _) as [ts|]; [|intros [= <-]; now left].
  destruct (_extract_message_content entry) as [content|]; [|discriminate].
  cbn [bind]. destruct (String.eqb content EmptyString) eqn:Hc;
    [intros [= <-]; now left|].
  apply String.eqb_neq in Hc.
  destruct (detect_agent_invocations content) as [| a agents] eqn:Hd;
    [intros [= <-]; now left|].
  destruct (_extract_tools_from_entry entry) as [tools|]; [|discriminate].
  destruct (_extract_token_usage entry) as [tokens|]; [|discriminate].
  destruct (_extract_model_info entry) as [mdl|]; [|discriminate].
  destruct (_determine_task_success entries i) as [verdict|]; [|discriminate].
  cbn [bind].
  destruct (as_str (Dict.get_default entry "sessionId" _)) as [sid|];
    [|discriminate].
  destruct (as_str (Dict.get_default entry "gitBranch" _)) as [branch|];
    [|discriminate].
  cbn [bind]. intros H. right.
  exists sid, ts, content, tools, verdict, tokens, mdl, branch.
  split; [exact Hc|]. split; [reflexivity|]. split; [reflexivity|].
  rewrite Hd. unfold created. congruence.
Qed.

Lemma extract_loop_inv (entries : list (dict json)) (path : string)
      (pending : list (nat * dict json)) (acc r : list AgentInvocation) :
  extract_loop entries path pending acc = Ok r ->
  forall inv, In inv r ->
    In inv acc \/
    exists i entry invs,
      In (i, entry) pending /\
      entry_invocations entries path i entry = Ok invs /\ In inv invs.
Proof.
  revert acc. induction pending as [| [i entry] pending IH]; intros acc;
    cbn [extract_loop].
  - intros [= <-] inv H. now left.
  - destruct (entry_invocations entries path i entry) as [new|] eqn:E;
      [|discriminate].
    cbn [bind]. intros H inv Hin.
    destruct (IH _ H inv Hin) as [Hacc | [j [e [invs [Hp [He Hi]]]]]].
    + apply in_app_or in Hacc. destruct Hacc as [Hacc | Hnew]; [now left|].
      right. exists i, entry, new. repeat split; [now left | exact E | exact Hnew].
    + right. exists j, e, invs. repeat split; [now right | exact He | exact Hi].
Qed.

Lemma detect_valid (text name : string) :
  In name (detect_agent_invocations text) -> _is_valid_agent_name name = true.
Proof.
  unfold detect_agent_invocations. rewrite set_to_list_In.
  intros H. repeat (apply in_app_or in H; destruct H as [H | H]);
    now apply filter_In in H.
Qed.

Lemma take_nonempty (n : nat) (s : string) :
  s <> EmptyString -> PyStr.take (S n) s <> EmptyString.
Proof. destruct s; [contradiction | discriminate]. Qed.

Lemma created_well_formed
      (entries : list (dict json)) (i : nat)
      (sid : string) (ts : datetime) (path content : string)
      (tools : list string) (verdict : bool * option string) (tokens : Z)
      (mdl branch name : string) :
  content <> EmptyString ->
  _determine_task_success entries i = Ok verdict ->
  In name (detect_agent_invocations content) ->
  well_formed path (created sid ts path content tools verdict tokens mdl branch name).
Proof.
  intros Hc Hv Hn. unfold well_formed, created.
  cbn [agent_name project_path collaboration_agents task_description
       complexity_score success error_message].
  split; [now apply (detect_valid content)|].
  split; [reflexivity|]. split; [reflexivity|].
  split; [now apply take_nonempty|].
  split; [apply ExtractionMore.take_length|].
  split; [apply complexity_score_bounds_lemma|].
  pose proof (ExtractionMore.scan_cases entries
                (seq i (Nat.min (i + 5) (List.length entries) - i))) as Hs.
  unfold _determine_task_success in Hv. rewrite Hv in Hs.
  assert (Hrange : Forall (fun j => (j < List.length entries)%nat)
                          (seq i (Nat.min (i + 5) (List.length entries) - i))).
  { apply Forall_forall. intros j Hj. apply in_seq in Hj. lia. }
  specialize (Hs Hrange). destruct verdict as [[|] msg]; cbn [fst snd].
  - split; [intros _; exact Hs | reflexivity].
  - destruct Hs as [m ->]. split; discriminate.
Qed.

End WithRuntime.

End LoopFacts.

(** X12.  Every invocation the extractor returns is well-formed: its agent
    name passes the validity filter, it carries the project path it was
    extracted for, an empty collaboration list, a task description that is
    not empty and has at most 500 characters, a complexity score between 0
    and 5, and an error message exactly when it is not a success. *)
Theorem extracted_invocations_well_formed
  {rt : Runtime} (entries : list (dict json)) (project_path : string) :
  match Analyzer._extract_agent_invocations_from_entries entries project_path with
  | Ok invocations => Forall (FurtherNotions.well_formed project_path) invocations
  | Raise _ => True
  end.
Proof.
  unfold Analyzer._extract_agent_invocations_from_entries.
  destruct (Analyzer.extract_loop _ _ _ _) as [r|] eqn:E; [|exact I].
  apply Forall_forall. intros inv Hin.
  destruct (LoopFacts.extract_loop_inv _ _ _ _ _ E inv Hin)
    as [[] | [i [entry [invs [_ [He Hi]]]]]].
  destruct (LoopFacts.entry_invocations_inv _ _ _ _ _ He)
    as [-> | [sid [ts [content [tools [verdict [tokens [mdl [branch
             [Hc [_ [Hv ->]]]]]]]]]]]]; [destruct Hi|].
  apply in_map_iff in Hi. destruct Hi as [name [<- Hname]].
  now apply (LoopFacts.created_well_formed entries i).
Qed.

(** X13.  One entry fans out into one invocation per detected agent: the
    invocations created from an entry have pairwise distinct agent names
    and agree with each other on every other field. *)
Theorem entry_fans_out
  {rt : Runtime} (entries : list (dict json)) (project_path : string)
  (i : nat) (entry : dict json) :
  match Analyzer.entry_invocations entries project_path i entry with
  | Ok invocations =>
      NoDup (map Analyzer.agent_name invocations) /\
      forall a b, In a invocations -> In b invocations ->
                  FurtherNotions.same_but_name a b
  | Raise _ => True
  end.
Proof.
  destruct (Analyzer.entry_invocations entries project_path i entry)
    as [invs|] eqn:E; [|exact I].
  destruct (LoopFacts.entry_invocations_inv _ _ _ _ _ E)
    as [-> | [sid [ts [content [tools [verdict [tokens [mdl [branch
             [_ [_ [_ ->]]]]]]]]]]]].
  - split; [constructor | intros a b []].
  - split.
    + rewrite map_map. unfold FurtherNotions.created.
      cbn [Analyzer.agent_name]. rewrite map_id.
      unfold Analyzer.detect_agent_invocations. apply set_to_list_NoDup.
    + intros a b Ha Hb. apply in_map_iff in Ha, Hb.
      destruct Ha as [na [<- _]], Hb as [nb [<- _]].
      repeat split.
Qed.

(** X14.  A log in which every entry is passed over -- its type is neither
    user nor assistant, or it has no timestamp string, or the timestamp is
    empty or does not parse -- yields no invocation and does not raise,
    whatever the messages of the entries hold. *)
Theorem passed_over_entries_yield_nothing
  {rt : Runtime} (entries : list (dict json)) (project_path : string) :
  forallb FurtherNotions.passed_over entries = true ->
  Analyzer._extract_agent_invocations_from_entries entries project_path = Ok [].
Proof.
  intros Hall. unfold Analyzer._extract_agent_invocations_from_entries.
  rewrite forallb_forall in Hall.
  assert (Hloop : forall pending,
            (forall i entry, In (i, entry) pending -> In entry entries) ->
            Analyzer.extract_loop entries project_path pending [] = Ok []).
  { induction pending as [| [i entry] pending IH]; intros Hp; [reflexivity|].
    cbn [Analyzer.extract_loop].
    assert (He : Analyzer.entry_invocations entries project_path i entry = Ok []).
    { specialize (Hall entry (Hp i entry (or_introl eq_refl))).
      unfold FurtherNotions.passed_over in Hall.
      unfold Analyzer.entry_invocations, Dict.get_default.
      destruct (negb (is_str _ "user" || _)); [reflexivity|].
      cbn [orb] in Hall.
      destruct (Dict.get entry "timestamp") as [[| | | | ts | |]|];
        try reflexivity;
        try (destruct (negb (truthy _)); reflexivity).
      cbn [truthy]. destruct (String.eqb ts EmptyString); [reflexivity|].
      cbn [orb negb] in Hall |- *.
      destruct (fromisoformat _); [discriminate | reflexivity]. }
    rewrite He. cbn [bind app]. apply IH.
    intros j e Hj. apply (Hp j e). now right. }
  apply Hloop. intros i entry Hin. now apply in_combine_r in Hin.
Qed.

Lemma passed_over_entries_yield_nothing_witness :
  Analyzer._extract_agent_invocations_from_entries (rt := Sample.runtime)
    [ [("type", JStr "summary"); ("message", JInt 7)];
      [("type", JStr "user"); ("message", JStr "/python-pro run the tests")];
      [("type", JStr "user"); ("timestamp", JStr "yesterday")] ]
    LogExamples.project = Ok [].
Proof. apply passed_over_entries_yield_nothing. reflexivity. Defined.


(** ** More on the collaboration backfill *)

Module CollaborationMore.

Import Analyzer Notions FurtherNotions CollaborationFacts.

Lemma same_session_names (l1 l2 : list AgentInvocation) (k : string) :
  Forall2 same_but_collaboration l1 l2 ->
  map agent_name (filter (keyed session_id k) l2) =
  map agent_name (filter (keyed session_id k) l1).
Proof.
  induction 1 as [| a b l1 l2 Hab Hrest IH]; [reflexivity|].
  destruct Hab as [Hn [Hs _]]. cbn [filter].
  assert (E : keyed session_id k b = keyed session_id k a)
    by (unfold keyed; now rewrite Hs).
  rewrite E. destruct (keyed session_id k a); cbn [map];
    rewrite IH; [rewrite Hn|]; reflexivity.
Qed.

Lemma same_session_of (l1 l2 : list AgentInvocation) (a b : AgentInvocation) :
  Forall2 same_but_collaboration l1 l2 ->
  session_id a = session_id b ->
  map agent_name (session_of l2 b) = map agent_name (session_of l1 a).
Proof.
  intros H Hs. unfold session_of. rewrite <- Hs. now apply same_session_names.
Qed.

Lemma passed_name invocations inv :
  agent_name (passed invocations inv) = agent_name inv.
Proof. unfold passed. destruct (Nat.leb _ _); reflexivity. Qed.

Lemma passed_session invocations inv :
  session_id (passed invocations inv) = session_id inv.
Proof. unfold passed. destruct (Nat.leb _ _); reflexivity. Qed.

Lemma pass_frame (invocations : list AgentInvocation) :
  Forall2 same_but_collaboration invocations
          (_add_collaboration_context invocations).
Proof. unfold _add_collaboration_context. apply link_loop_same. Qed.

Lemma pass_twice_nth (invocations : list AgentInvocation) (i : nat) :
  nth_error (_add_collaboration_context (_add_collaboration_context invocations)) i =
  nth_error (_add_collaboration_context invocations) i.
Proof.
  destruct (nth_error invocations i) as [inv|] eqn:Hi.
  - pose proof (pass_nth invocations i inv Hi) as H1. fold (passed invocations inv) in H1.
    rewrite (pass_nth _ i _ H1), H1. f_equal.
    pose proof (same_session_of invocations (_add_collaboration_context invocations)
                  inv (passed invocations inv) (pass_frame invocations)
                  (eq_sym (passed_session invocations inv))) as Hn.
    assert (Hlen : List.length (session_of (_add_collaboration_context invocations)
                                           (passed invocations inv)) =
                   List.length (session_of invocations inv)).
    { rewrite <- (length_map agent_name), Hn. apply length_map. }
    rewrite Hlen, Hn. unfold passed.
    destruct (Nat.leb 2 (List.length (session_of invocations inv))); reflexivity.
  - pose proof (Forall2_length (pass_frame invocations)) as L1.
    pose proof (Forall2_length (pass_frame (_add_collaboration_context invocations)))
      as L2.
    apply nth_error_None in Hi.
    rewrite (proj2 (nth_error_None _ i)) by lia.
    symmetry. apply nth_error_None. lia.
Qed.

End CollaborationMore.

(** X16.  The collaboration backfill is idempotent: running it on its own
    result changes nothing. *)
Theorem backfill_idempotent (invocations : list Analyzer.AgentInvocation) :
  Analyzer._add_collaboration_context
    (Analyzer._add_collaboration_context invocations) =
  Analyzer._add_collaboration_context invocations.
Proof.
  apply nth_error_ext. intros i. apply CollaborationMore.pass_twice_nth.
Qed.

(** X17.  Collaboration is mutual and never reflexive: after the backfill,
    two invocations of one session with different agent names each list the
    other's agent name, and no invocation of a session with two or more
    invocations lists its own. *)
Theorem collaboration_is_mutual
  (invocations : list Analyzer.AgentInvocation) (i j : nat)
  (a b : Analyzer.AgentInvocation) :
  nth_error invocations i = Some a ->
  nth_error invocations j = Some b ->
  Analyzer.session_id a = Analyzer.session_id b ->
  Analyzer.agent_name a <> Analyzer.agent_name b ->
  exists a' b' la lb,
    nth_error (Analyzer._add_collaboration_context invocations) i = Some a' /\
    nth_error (Analyzer._add_collaboration_context invocations) j = Some b' /\
    Analyzer.collaboration_agents a' = Some la /\
    Analyzer.collaboration_agents b' = Some lb /\
    In (Analyzer.agent_name b) la /\ In (Analyzer.agent_name a) lb /\
    ~ In (Analyzer.agent_name a) la /\ ~ In (Analyzer.agent_name b) lb.
Proof.
  intros Hi Hj Hs Hne.
  assert (Hina : In a (Notions.session_of invocations a)).
  { apply filter_In. split; [now apply nth_error_In in Hi | apply String.eqb_refl]. }
  assert (Hinb : In b (Notions.session_of invocations a)).
  { apply filter_In. split; [now apply nth_error_In in Hj|].
    unfold keyed. rewrite Hs. apply String.eqb_refl. }
  assert (Hlen : (2 <=? List.length (Notions.session_of invocations a))%nat = true).
  { apply Nat.leb_le.
    destruct (Notions.session_of invocations a) as [| x [| y l]]; simpl; try lia.
    - destruct Hina.
    - destruct Hina as [<- | []], Hinb as [<- | []]. contradiction. }
  assert (Hsess : Notions.session_of invocations b = Notions.session_of invocations a).
  { unfold Notions.session_of. now rewrite Hs. }
  pose proof (CollaborationFacts.pass_nth invocations i a Hi) as Ha.
  pose proof (CollaborationFacts.pass_nth invocations j b Hj) as Hb.
  rewrite Hsess in Hb. rewrite Hlen in Ha, Hb.
  eexists _, _, _, _.
  split; [exact Ha|]. split; [exact Hb|].
  split; [reflexivity|]. split; [reflexivity|].
  repeat split.
  - apply filter_In. split; [now apply in_map|].
    apply negb_true_iff, String.eqb_neq. congruence.
  - apply filter_In. split; [now apply in_map|].
    apply negb_true_iff, String.eqb_neq. congruence.
  - intros H. apply filter_In in H. destruct H as [_ H].
    rewrite String.eqb_refl in H. discriminate.
  - intros H. apply filter_In in H. destruct H as [_ H].
    rewrite String.eqb_refl in H. discriminate.
Qed.

Lemma collaboration_is_mutual_witness :
  exists a' b' la lb,
    nth_error (Analyzer._add_collaboration_context Examples.repeated_agent) 0
      = Some a' /\
    nth_error (Analyzer._add_collaboration_context Examples.repeated_agent) 2
      = Some b' /\
    Analyzer.collaboration_agents a' = Some la /\
    Analyzer.collaboration_agents b' = Some lb /\
    In "python-pro" la /\ In "backend-architect" lb /\
    ~ In "backend-architect" la /\ ~ In "python-pro" lb.
Proof.
  apply (collaboration_is_mutual Examples.repeated_agent 0 2
           (Examples.invocation "backend-architect" "s1" Examples.t0 true)
           (Examples.invocation "python-pro" "s1" (Examples.t0 + 120000000) true)
           eq_refl eq_refl eq_refl).
  discriminate.
Defined.

(** X18.  On invocations that come with an empty collaboration list, as the
    extractor makes them, the backfill marks exactly the invocations whose
    session holds an invocation of another agent: afterwards the
    collaboration list is non-empty if and only if some invocation of the
    same session has a different agent name. *)
Theorem collaboration_marks_shared_sessions
  (invocations : list Analyzer.AgentInvocation) (i : nat)
  (a : Analyzer.AgentInvocation) :
  nth_error invocations i = Some a ->
  Analyzer.collaboration_agents a = Some [] ->
  exists a',
    nth_error (Analyzer._add_collaboration_context invocations) i = Some a' /\
    (Analyzer.has_collaboration a' = true <->
     exists b, In b invocations /\
               Analyzer.session_id b = Analyzer.session_id a /\
               Analyzer.agent_name b <> Analyzer.agent_name a).
Proof.
  intros Hi Hempty.
  pose proof (CollaborationFacts.pass_nth invocations i a Hi) as Ha.
  eexists. split; [exact Ha|].
  set (sess := Notions.session_of invocations a) in *.
  set (others := filter (fun name => negb (String.eqb name (Analyzer.agent_name a)))
                        (map Analyzer.agent_name sess)).
  assert (Hothers : others <> [] <->
            exists b, In b invocations /\
                      Analyzer.session_id b = Analyzer.session_id a /\
                      Analyzer.agent_name b <> Analyzer.agent_name a).
  { split.
    - intros Hne. destruct others as [| n l] eqn:E; [contradiction|].
      assert (Hn : In n others) by (rewrite E; now left).
      apply filter_In in Hn. destruct Hn as [Hn Hneq].
      apply in_map_iff in Hn. destruct Hn as [b [<- Hb]].
      apply filter_In in Hb. destruct Hb as [Hb Hk].
      exists b. split; [exact Hb|]. split; [now apply String.eqb_eq in Hk|].
      now apply negb_true_iff, String.eqb_neq in Hneq.
    - intros [b [Hb [Hs Hn]]] E.
      assert (Hin : In (Analyzer.agent_name b) others).
      { apply filter_In. split.
        - apply in_map. apply filter_In. split; [exact Hb|].
          unfold keyed. rewrite Hs. apply String.eqb_refl.
        - now apply negb_true_iff, String.eqb_neq. }
      rewrite E in Hin. destruct Hin. }
  rewrite <- Hothers.
  destruct (Nat.leb 2 (List.length sess)) eqn:Hlen.
  - unfold Notions.linked, Analyzer.has_collaboration.
    cbn [Analyzer.collaboration_agents Analyzer.set_collaboration_agents].
    fold others. destruct others; split; try discriminate; try reflexivity.
    intros H. now contradiction H.
  - unfold Analyzer.has_collaboration. rewrite Hempty.
    split; [discriminate|]. intros Hne. exfalso.
    apply Nat.leb_gt in Hlen.
    destruct others as [| n l] eqn:E; [now apply Hne|].
    assert (Hn : In n others) by (rewrite E; now left).
    apply filter_In in Hn. destruct Hn as [Hn Hneq].
    apply in_map_iff in Hn. destruct Hn as [b [Hbn Hb]].
    assert (Hina : In a sess).
    { apply filter_In. split; [now apply nth_error_In in Hi | apply String.eqb_refl]. }
    apply negb_true_iff, String.eqb_neq in Hneq.
    destruct sess as [| x [| y l']]; simpl in Hlen; try lia.
    + destruct Hina.
    + destruct Hina as [<- | []], Hb as [<- | []]. congruence.
Qed.

Lemma collaboration_marks_shared_sessions_witness :
  exists a',
    nth_error (Analyzer._add_collaboration_context Examples.repeated_agent) 1
      = Some a' /\
    (Analyzer.has_collaboration a' = true <->
     exists b, In b Examples.repeated_agent /\
               Analyzer.session_id b = "s1" /\
               Analyzer.agent_name b <> "python-pro").
Proof.
  apply (collaboration_marks_shared_sessions Examples.repeated_agent 1
           (Examples.invocation "python-pro" "s1" (Examples.t0 + 60000000) true)
           eq_refl eq_refl).
Defined.

(** ** More on squad formations *)

Module FormationMore.

Import Analyzer Notions FurtherNotions FormationFacts.

Lemma distinct_perm (a b : list string) :
  Permutation a b -> Permutation (PyStr.distinct a) (PyStr.distinct b).
Proof.
  intros H. apply NoDup_Permutation; try apply NoDup_nodup.
  intros x. unfold PyStr.distinct. rewrite !nodup_In.
  split; apply Permutation_in; [exact H | now symmetry].
Qed.

Lemma filter_perm_length {A : Type} (p : A -> bool) (l l' : list A) :
  Permutation l l' -> List.length (filter p l) = List.length (filter p l').
Proof.
  induction 1 as [| x l l' H IH | x y l | l l' l'' H1 IH1 H2 IH2]; simpl.
  - reflexivity.
  - destruct (p x); simpl; now rewrite IH.
  - destruct (p x), (p y); reflexivity.
  - now rewrite IH1.
Qed.

Lemma categories_are_names (agents : list string) (c : string) :
  In c (flat_map categories_of agents) -> In c category_names.
Proof.
  intros H. apply in_flat_map in H. destruct H as [a [_ Hc]].
  unfold categories_of in Hc. apply in_map_iff in Hc.
  destruct Hc as [row [<- Hrow]]. apply filter_In in Hrow.
  apply in_map. apply Hrow.
Qed.

(* sorting two distinct category names does not depend on their order *)
Lemma sorted_pair (x y : string) :
  In x category_names -> In y category_names -> x <> y ->
  PyStr.sorted [x; y] = PyStr.sorted [y; x].
Proof.
  intros Hx Hy Hne.
  assert (Hall : forallb (fun x => forallb (fun y =>
                    String.eqb x y ||
                    if list_eq_dec string_dec (PyStr.sorted [x; y])
                                              (PyStr.sorted [y; x])
                    then true else false) category_names) category_names = true)
    by (vm_compute; reflexivity).
  rewrite forallb_forall in Hall. specialize (Hall x Hx).
  rewrite forallb_forall in Hall. specialize (Hall y Hy).
  apply orb_true_iff in Hall. destruct Hall as [H | H].
  - apply String.eqb_eq in H. contradiction.
  - destruct (list_eq_dec string_dec _ _); [assumption | discriminate].
Qed.

(* the classification reads the agents as a set *)
Lemma classify_perm (a b : list string) :
  Permutation a b ->
  _classify_squad_formation a = _classify_squad_formation b.
Proof.
  intros H. unfold _classify_squad_formation.
  assert (Hfind : forall table : dict (list string),
            find (fun f => (2 <=? List.length
                                   (filter (fun x => PyStr.mem x (snd f))
                                           (PyStr.distinct a)))%nat) table =
            find (fun f => (2 <=? List.length
                                   (filter (fun x => PyStr.mem x (snd f))
                                           (PyStr.distinct b)))%nat) table).
  { intros table. induction table as [| f table IH]; [reflexivity|].
    cbn [find].
    rewrite (filter_perm_length _ _ _ (distinct_perm a b H)), IH. reflexivity. }
  rewrite Hfind. destruct (find _ squad_formations); [reflexivity|].
  pose proof (distinct_perm _ _ (Permutation_flat_map categories_of H)) as Hd.
  rewrite (Permutation_length Hd).
  destruct (Nat.leb 3 _); [reflexivity|].
  destruct (Nat.eqb_spec
              (List.length (PyStr.distinct (flat_map categories_of b))) 2)
    as [E | E]; [|reflexivity].
  f_equal.
  assert (Ea : List.length (PyStr.distinct (flat_map categories_of a)) = 2%nat)
    by (now rewrite (Permutation_length Hd)).
  destruct (PyStr.distinct (flat_map categories_of a)) as [| x [| y [| z l]]] eqn:Da;
    try discriminate.
  assert (Hnd : NoDup [x; y]) by (rewrite <- Da; apply NoDup_nodup).
  assert (Hx : In x category_names).
  { apply (categories_are_names a). apply (nodup_In string_dec).
    unfold PyStr.distinct in Da. rewrite Da. now left. }
  assert (Hy : In y category_names).
  { apply (categories_are_names a). apply (nodup_In string_dec).
    unfold PyStr.distinct in Da. rewrite Da. right. now left. }
  apply Permutation_length_2_inv in Hd. destruct Hd as [-> | ->]; [reflexivity|].
  apply sorted_pair; try assumption.
  inversion Hnd as [| ? ? Hnotin _]; subst. intros ->. apply Hnotin. now left.
Qed.

Lemma specialization_score_perm (a b : list string) :
  Permutation a b -> specialization_score a = specialization_score b.
Proof.
  intros H. unfold specialization_score, Qlen.
  rewrite (Permutation_length H).
  now rewrite (Permutation_length
                 (distinct_perm _ _ (Permutation_flat_map categories_of H))).
Qed.

End FormationMore.

Module DetectionMore.

Import Analyzer Notions FurtherNotions FormationFacts.

Lemma last_default {A : Type} (l : list A) (d d' : A) :
  l <> [] -> last l d = last l d'.
Proof.
  induction l as [| a l IH]; [contradiction|]. intros _.
  destruct l as [| b l]; [reflexivity|].
  change (last (a :: b :: l) d) with (last (b :: l) d).
  change (last (a :: b :: l) d') with (last (b :: l) d').
  apply IH. discriminate.
Qed.

(* in a list sorted by key, the head is least and the last is greatest *)
Lemma sorted_ends {A : Type} (key : A -> Z) (first : A) (rest : list A) :
  Sorted (fun a b => key a <= key b) (first :: rest) ->
  forall x, In x (first :: rest) ->
            key first <= key x <= key (last (first :: rest) first).
Proof.
  intros Hs.
  apply Sorted_StronglySorted in Hs;
    [|intros a b c Hab Hbc; now apply Z.le_trans with (key b)].
  revert first Hs. induction rest as [| y rest IH]; intros first Hs x Hx.
  - destruct Hx as [<- | []]. simpl. lia.
  - inversion Hs as [| ? ? Hs' Hall]; subst.
    rewrite Forall_forall in Hall.
    change (last (first :: y :: rest) first) with (last (y :: rest) first).
    rewrite (last_default (y :: rest) first y) by discriminate.
    assert (Hy : key first <= key y) by (apply Hall; now left).
    destruct Hx as [<- | Hx].
    + pose proof (IH y Hs' y (or_introl eq_refl)). lia.
    + pose proof (IH y Hs' x Hx). lia.
Qed.

Lemma last_In {A : Type} (l : list A) (d : A) : l <> [] -> In (last l d) l.
Proof.
  induction l as [| a l IH]; [contradiction|]. intros _.
  destruct l as [| b l]; [now left|]. right. apply IH. discriminate.
Qed.

Section WithRuntime.

Context {rt : Runtime}.

Lemma agents_length (xs : list AgentInvocation) :
  List.length (set_to_list (map agent_name (sort_by by_time xs))) =
  List.length (PyStr.distinct (map agent_name xs)).
Proof.
  apply Permutation_length, NoDup_Permutation;
    [apply set_to_list_NoDup | apply NoDup_nodup|].
  intros a. rewrite set_to_list_In. unfold PyStr.distinct. rewrite nodup_In.
  pose proof (Permutation_map agent_name (sort_by_perm by_time xs)) as Hp.
  split; apply Permutation_in; [exact Hp | now symmetry].
Qed.

(* a session yields a formation exactly when it has two distinct agent names *)
Lemma session_formation_cases (sid : string) (xs : list AgentInvocation) :
  match session_formation sid xs with
  | Ok (Some f) =>
      (2 <= List.length (PyStr.distinct (map agent_name xs)))%nat /\
      sf_session_id f = sid /\ timed xs f
  | Ok None => (List.length (PyStr.distinct (map agent_name xs)) < 2)%nat
  | Raise _ => False
  end.
Proof.
  unfold session_formation.
  destruct (Nat.ltb_spec (List.length xs) 2) as [Hlen | Hlen].
  { pose proof (distinct_length_le (map agent_name xs)) as H.
    rewrite length_map in H. lia. }
  fold by_time. pose proof (agents_length xs) as Hag.
  set (s := sort_by by_time xs) in *.
  assert (Hs : List.length s = List.length xs) by apply sort_by_length.
  assert (Hp : Permutation s xs) by apply sort_by_perm.
  destruct (Nat.ltb_spec (List.length (set_to_list (map agent_name s))) 2)
    as [Hlt | Hge]; [lia|].
  pose proof (sort_by_sorted by_time xs) as Hsorted. fold s in Hsorted.
  destruct s as [| first rest] eqn:Es; [simpl in Hs; lia|].
  unfold _calculate_synergy_score.
  apply Nat.ltb_ge in Hge. rewrite Hge. apply Nat.ltb_ge in Hge.
  cbn [bind sf_session_id]. split; [lia|]. split; [reflexivity|].
  unfold timed. cbn [start_time end_time sf_project_path success_rate].
  split; [|split].
  - exists first, (last (first :: rest) first).
    repeat split; try reflexivity.
    + apply (Permutation_in _ Hp). now left.
    + apply (Permutation_in _ Hp). apply last_In. discriminate.
  - intros inv Hin. apply (sorted_ends by_time first rest Hsorted).
    apply (Permutation_in _ (Permutation_sym Hp)). exact Hin.
  - assert (Hpos : (0 <? Z.of_nat (List.length (first :: rest))) = true).
    { apply Z.ltb_lt. simpl List.length. lia. }
    rewrite Hpos. unfold count_success.
    rewrite (FormationMore.filter_perm_length success _ _ Hp), Hs. reflexivity.
Qed.


End WithRuntime.

Section TwoRuntimes.

Variables rt1 rt2 : Runtime.

Lemma agents_perm (names : list string) :
  Permutation (@set_to_list rt1 names) (@set_to_list rt2 names).
Proof.
  apply NoDup_Permutation; try apply set_to_list_NoDup.
  intros a. now rewrite !set_to_list_In.
Qed.

Lemma session_formation_indep (sid : string) (xs : list AgentInvocation) :
  match @session_formation rt1 sid xs, @session_formation rt2 sid xs with
  | Ok (Some f), Ok (Some g) => same_but_agent_order f g
  | Ok None, Ok None => True
  | _, _ => False
  end.
Proof.
  unfold session_formation.
  destruct (Nat.ltb_spec (List.length xs) 2) as [Hlen | Hlen]; [exact I|].
  pose proof (sort_by_length (fun inv => instant (timestamp inv)) xs) as Hs.
  set (s := sort_by (fun inv => instant (timestamp inv)) xs) in *.
  pose proof (agents_perm (map agent_name s)) as Hp.
  rewrite <- (Permutation_length Hp).
  destruct (Nat.ltb (List.length (@set_to_list rt1 (map agent_name s))) 2) eqn:Hlt;
    [exact I|].
  destruct s as [| first rest]; [simpl in Hs; lia|].
  unfold _calculate_synergy_score.
  rewrite <- (Permutation_length Hp), Hlt. cbn [bind].
  unfold same_but_agent_order.
  cbn [sf_session_id agents start_time end_time sf_project_path total_tasks
       success_rate synergy_score formation_type].
  repeat split; try reflexivity; try exact Hp.
  - now rewrite (FormationMore.specialization_score_perm _ _ Hp).
  - now apply FormationMore.classify_perm.
Qed.

Lemma formations_loop_indep (sessions : dict (list AgentInvocation))
      (acc1 acc2 : list SquadFormation) :
  Forall2 same_but_agent_order acc1 acc2 ->
  match @formations_loop rt1 sessions acc1, @formations_loop rt2 sessions acc2 with
  | Ok fs1, Ok fs2 => Forall2 same_but_agent_order fs1 fs2
  | _, _ => False
  end.
Proof.
  revert acc1 acc2. induction sessions as [| [sid xs] sessions IH];
    intros acc1 acc2 Hacc; cbn [formations_loop]; [exact Hacc|].
  pose proof (session_formation_indep sid xs) as H.
  destruct (@session_formation rt1 sid xs) as [[f|]|],
           (@session_formation rt2 sid xs) as [[g|]|]; try contradiction;
    cbn [bind]; apply IH; [|exact Hacc].
  apply Forall2_app; [exact Hacc | now constructor].
Qed.

End TwoRuntimes.

End DetectionMore.


(** X20.  A formation spans its session: its start and end times are
    timestamps of invocations of the session, every invocation of the
    session lies between them, the project path is that of the invocation
    the start time is taken from, the task count is the number of the
    session's invocations, and the success rate is the share of successful
    ones, between 0 and 1. *)
Theorem formation_spans_its_session
  {rt : Runtime} (invocations : list Analyzer.AgentInvocation) :
  exists fs,
    Analyzer.detect_squad_formations invocations = Ok fs /\
    forall f, In f fs ->
      let xs := Notions.session invocations (Analyzer.sf_session_id f) in
      (exists a b, In a xs /\ In b xs /\
                   Analyzer.start_time f = Analyzer.timestamp a /\
                   Analyzer.end_time f = Analyzer.timestamp b /\
                   Analyzer.sf_project_path f = Analyzer.project_path a) /\
      (forall inv, In inv xs ->
         instant (Analyzer.start_time f) <= instant (Analyzer.timestamp inv) /\
         instant (Analyzer.timestamp inv) <= instant (Analyzer.end_time f)) /\
      Analyzer.total_tasks f = Z.of_nat (List.length xs) /\
      Analyzer.success_rate f =
        (inject_Z (Z.of_nat (Analyzer.count_success xs)) /
         inject_Z (Z.of_nat (List.length xs)))%Q /\
      (0 <= Analyzer.success_rate f /\ Analyzer.success_rate f <= 1)%Q.
Proof.
  destruct (FormationFacts.detect_spec invocations) as [fs [Hfs Hall]].
  exists fs. split; [exact Hfs|]. intros f Hf. cbv zeta.
  pose proof (Hall f Hf) as Hformed.
  unfold Analyzer.detect_squad_formations in Hfs.
  destruct (FormationFacts.formations_loop_spec
              (Dict.group_by Analyzer.session_id invocations) [])
    as [fs' [Hfs' Hin]].
  rewrite Hfs in Hfs'. injection Hfs' as <-.
  apply Hin in Hf. destruct Hf as [[] | [sid [xs [Hg Hform]]]].
  pose proof (DetectionMore.session_formation_cases sid xs) as Hc.
  rewrite Hform in Hc. destruct Hc as [H2 [Hs [Hends [Hbetween Hrate]]]].
  apply group_by_In in Hg. destruct Hg as [Hxs _].
  rewrite Hs. fold (Notions.session invocations sid) in Hxs. rewrite <- Hxs.
  split; [exact Hends|]. split; [exact Hbetween|].
  split.
  { destruct Hformed as [_ [_ [_ [_ [Ht _]]]]]. rewrite Hs, <- Hxs in Ht. exact Ht. }
  split; [exact Hrate|]. rewrite Hrate. unfold Analyzer.count_success.
  apply (FormationFacts.ratio_bounds _ _ 1).
  - pose proof (FormationFacts.distinct_length_le (map Analyzer.agent_name xs)) as H.
    rewrite length_map in H. lia.
  - rewrite Nat.mul_1_l. apply filter_length_le.
Qed.

(** X21.  What detection returns does not depend on the order in which sets
    are iterated: under any two iteration orders it returns formations for
    the same sessions in the same order, equal in every field but [agents],
    whose lists are rearrangements of each other. *)
Theorem detection_independent_of_set_order
  (rt1 rt2 : Runtime) (invocations : list Analyzer.AgentInvocation) :
  match Analyzer.detect_squad_formations (rt := rt1) invocations,
        Analyzer.detect_squad_formations (rt := rt2) invocations with
  | Ok fs1, Ok fs2 => Forall2 FurtherNotions.same_but_agent_order fs1 fs2
  | _, _ => False
  end.
Proof.
  unfold Analyzer.detect_squad_formations.
  apply DetectionMore.formations_loop_indep. constructor.
Qed.

(** X22.  The formation type reads the agent list as a set: any
    rearrangement of the list is classified alike. *)
Theorem formation_type_ignores_order (agents agents' : list string) :
  Permutation agents agents' ->
  Analyzer._classify_squad_formation agents =
  Analyzer._classify_squad_formation agents'.
Proof. apply FormationMore.classify_perm. Qed.

Lemma formation_type_ignores_order_witness :
  Analyzer._classify_squad_formation ["python-pro"; "security-auditor"] =
  Analyzer._classify_squad_formation ["security-auditor"; "python-pro"].
Proof. apply formation_type_ignores_order. apply perm_swap. Defined.

(** ** More on per-agent XP *)

Module XPMore.

Import Analyzer Notions.

Lemma Qsum_from_bounds (l : list Q) (acc : Q) (n : nat) :
  Forall (fun q => 0 <= q /\ q <= 5)%Q l ->
  (0 <= acc /\ acc <= 5 * inject_Z (Z.of_nat n))%Q ->
  (0 <= fold_left Qplus l acc /\
   fold_left Qplus l acc <= 5 * inject_Z (Z.of_nat (n + List.length l)))%Q.
Proof.
  intros Hl. revert acc n.
  induction Hl as [| q l [Hq0 Hq5] Hl IH]; intros acc n [Ha0 Ha5]; cbn [fold_left].
  - rewrite Nat.add_0_r. now split.
  - cbn [List.length]. replace (n + S (List.length l))%nat
      with (S n + List.length l)%nat by lia.
    apply IH. split.
    + rewrite <- (Qplus_0_l 0). now apply Qplus_le_compat.
    + assert (E : (5 * inject_Z (Z.of_nat (S n)) ==
                   5 * inject_Z (Z.of_nat n) + 5)%Q).
      { rewrite Nat2Z.inj_succ. unfold Z.succ. rewrite inject_Z_plus. ring. }
      rewrite E. now apply Qplus_le_compat.
Qed.

Lemma int_of_float_bounds (q : Q) (hi : Z) :
  (0 <= q)%Q -> (q <= inject_Z hi)%Q -> 0 <= int_of_float q <= hi.
Proof.
  intros H0 Hhi. rewrite SessionMore.int_of_float_nonneg by exact H0. split.
  - change 0 with (Qfloor 0). now apply Qfloor_resp_le.
  - rewrite <- (Qfloor_Z hi). now apply Qfloor_resp_le.
Qed.

(* days of a list whose invocations share one calendar day *)
Lemma one_day (invocations : list AgentInvocation) (day : Z) :
  Forall (fun inv => date (timestamp inv) = day) invocations ->
  (List.length
     (nodup Z.eq_dec (map (fun inv => date (timestamp inv)) invocations)) <= 1)%nat.
Proof.
  intros H.
  assert (Hincl : incl (nodup Z.eq_dec
                          (map (fun inv => date (timestamp inv)) invocations))
                       [day]).
  { intros d Hd. apply nodup_In, in_map_iff in Hd.
    destruct Hd as [inv [<- Hin]]. rewrite Forall_forall in H.
    left. symmetry. now apply H. }
  apply NoDup_incl_length in Hincl; [exact Hincl | apply NoDup_nodup].
Qed.

Lemma consistency_bounds (invocations : list AgentInvocation) :
  0 <= _calculate_consistency_bonus invocations <= 100.
Proof.
  unfold _calculate_consistency_bonus.
  destruct (Nat.ltb _ 2); [lia|].
  destruct (Nat.leb 7 _); [lia|].
  destruct (Nat.leb 3 _); [lia|].
  destruct (Nat.leb 2 _); lia.
Qed.

Lemma specialization_bonus_bounds (name : string)
      (invocations : list AgentInvocation) :
  0 <= _calculate_specialization_bonus name invocations <=
  20 * Z.of_nat (List.length (PyStr.distinct (map project_path invocations))).
Proof.
  unfold _calculate_specialization_bonus.
  destruct (find _ specialization_categories) as [[spec members]|]; [|lia].
  match goal with
  | |- context [filter ?p invocations] => set (in_domain := p)
  end.
  assert (H : (List.length (PyStr.distinct
                              (map project_path (filter in_domain invocations)))
               <= List.length (PyStr.distinct (map project_path invocations)))%nat).
  { apply NoDup_incl_length; [apply NoDup_nodup|].
    intros p Hp. apply nodup_In in Hp. apply nodup_In.
    apply in_map_iff in Hp. destruct Hp as [inv [<- Hin]].
    apply in_map. now apply filter_In in Hin. }
  lia.
Qed.

Lemma xp_loop_spec (groups : dict (list AgentInvocation))
      (acc : dict AgentXPCalculation) :
  (forall name invs, In (name, invs) groups -> invs <> []) ->
  exists d,
    xp_loop groups acc = Ok d /\
    map fst d = (map fst acc ++ map fst groups)%list /\
    forall name x,
      In (name, x) d <->
      In (name, x) acc \/
      exists invs, In (name, invs) groups /\
                   _calculate_individual_agent_xp name invs = Ok x.
Proof.
  revert acc. induction groups as [| [name invs] groups IH]; intros acc Hne.
  - exists acc. split; [reflexivity|]. split; [now rewrite app_nil_r|].
    intros n x. split; [now left|]. intros [H | [? [[] _]]]. exact H.
  - destruct invs as [| inv invs].
    { exfalso. apply (Hne name []); [now left | reflexivity]. }
    destruct (XPFacts.individual_xp_itemized name inv invs) as [x [Hx _]].
    cbn [xp_loop]. rewrite Hx. cbn [bind].
    destruct (IH (acc ++ [(name, x)])%list) as [d [Hd [Hkeys Hin]]].
    { intros n l H. apply (Hne n l). now right. }
    exists d. split; [exact Hd|]. split.
    { rewrite Hkeys, map_app, <- app_assoc. reflexivity. }
    intros n y. rewrite Hin. clear Hin. split.
    + intros [H | [l [Hl Hy]]].
      * apply in_app_or in H. destruct H as [H | [H | []]]; [now left|].
        injection H as <- <-. right. exists (inv :: invs). split; [now left | exact Hx].
      * right. exists l. split; [now right | exact Hy].
    + intros [H | [l [[Hl | Hl] Hy]]].
      * left. apply in_or_app. now left.
      * injection Hl as <- <-. rewrite Hx in Hy. injection Hy as <-.
        left. apply in_or_app. right. now left.
      * right. exists l. split; assumption.
Qed.

End XPMore.

(** X23.  The XP of an agent is bounded by its invocation count n: for a
    non-empty list whose complexity scores lie between 0 and 5, the base XP
    is 20 n, the success bonus at most 30 n, the complexity bonus at most
    200 n, the collaboration bonus at most 25 n, the specialization bonus at
    most 20 n, the consistency bonus at most 100, none of them negative, the
    total at least the base XP, and the level between 1 and 10. *)
Theorem agent_xp_bounds
  (name : string) (inv : Analyzer.AgentInvocation)
  (invs : list Analyzer.AgentInvocation) :
  Forall (fun i => (0 <= Analyzer.complexity_score i /\
                    Analyzer.complexity_score i <= 5)%Q) (inv :: invs) ->
  exists x,
    Analyzer._calculate_individual_agent_xp name (inv :: invs) = Ok x /\
    let n := Z.of_nat (List.length (inv :: invs)) in
    Analyzer.base_xp x = 20 * n /\
    0 <= Analyzer.success_bonus x <= 30 * n /\
    0 <= Analyzer.tool_mastery_bonus x /\
    0 <= Analyzer.complexity_bonus x <= 200 * n /\
    0 <= Analyzer.collaboration_bonus x <= 25 * n /\
    0 <= Analyzer.specialization_bonus x <= 20 * n /\
    0 <= Analyzer.consistency_bonus x <= 100 /\
    Analyzer.base_xp x <= Analyzer.total_xp x /\
    1 <= Analyzer.level x <= 10.
Proof.
  intros Hscores. eexists. split; [reflexivity|]. cbv zeta.
  cbn [Analyzer.base_xp Analyzer.success_bonus Analyzer.tool_mastery_bonus
       Analyzer.complexity_bonus Analyzer.collaboration_bonus
       Analyzer.specialization_bonus Analyzer.consistency_bonus
       Analyzer.total_xp Analyzer.level].
  set (l := inv :: invs) in *.
  assert (Hn : (0 < List.length l)%nat) by (unfold l; simpl; lia).
  assert (Hsucc : (Analyzer.count_success l <= List.length l)%nat)
    by apply filter_length_le.
  assert (Hcollab : (List.length (filter Analyzer.has_collaboration l)
                     <= List.length l)%nat) by apply filter_length_le.
  pose proof (XPMore.specialization_bonus_bounds name l) as Hspec.
  pose proof (FormationFacts.distinct_length_le (map Analyzer.project_path l))
    as Hpaths. rewrite length_map in Hpaths.
  pose proof (XPMore.consistency_bounds l) as Hcons.
  assert (Hcx : 0 <= int_of_float
                       (Analyzer.Qsum (map Analyzer.complexity_score l) /
                        Analyzer.Qlen l * 40 * Analyzer.Qlen l)
                <= 200 * Z.of_nat (List.length l)).
  { destruct (XPMore.Qsum_from_bounds (map Analyzer.complexity_score l) 0 0)
      as [Hs0 Hs5].
    { apply Forall_forall. intros q Hq. apply in_map_iff in Hq.
      destruct Hq as [i [<- Hi]]. rewrite Forall_forall in Hscores.
      now apply Hscores. }
    { split; [apply Qle_refl | discriminate]. }
    rewrite length_map in Hs5. cbn [Nat.add] in Hs5.
    fold (Analyzer.Qsum (map Analyzer.complexity_score l)) in Hs0, Hs5.
    assert (E : (Analyzer.Qsum (map Analyzer.complexity_score l) /
                 Analyzer.Qlen l * 40 * Analyzer.Qlen l ==
                 40 * Analyzer.Qsum (map Analyzer.complexity_score l))%Q).
    { field. intros E0.
      pose proof (FormationFacts.Qlen_pos l) as Hpos.
      assert (Hl : l <> []) by (unfold l; discriminate).
      specialize (Hpos Hl). rewrite E0 in Hpos. discriminate. }
    rewrite (SessionFacts.int_of_float_comp _ _ E).
    apply XPMore.int_of_float_bounds.
    - apply Qmult_le_0_compat; [discriminate | exact Hs0].
    - assert (E2 : (inject_Z (200 * Z.of_nat (List.length l)) ==
                    40 * (5 * inject_Z (Z.of_nat (List.length l))))%Q).
      { rewrite inject_Z_mult. ring. }
      rewrite E2. apply Qmult_le_l; [reflexivity | exact Hs5]. }
  pose proof (analyzer_level_range
                (Z.of_nat (List.length l) * 20 +
                 Z.of_nat (Analyzer.count_success l) * 30 +
                 Z.of_nat (List.length
                             (PyStr.distinct (flat_map Analyzer.tools_used l))) * 15 +
                 int_of_float
                   (Analyzer.Qsum (map Analyzer.complexity_score l) /
                    Analyzer.Qlen l * 40 * Analyzer.Qlen l) +
                 Z.of_nat (List.length (filter Analyzer.has_collaboration l)) * 25 +
                 Analyzer._calculate_specialization_bonus name l +
                 Analyzer._calculate_consistency_bonus l)) as Hlevel.
  repeat split; try lia; apply Hlevel.
Qed.

Lemma agent_xp_bounds_witness :
  exists x,
    Analyzer._calculate_individual_agent_xp "python-pro"
      (Examples.invocation "python-pro" "s1" Examples.t0 true ::
       [Examples.invocation "python-pro" "s2" (Examples.t0 + 86400000000) false])
      = Ok x /\
    Analyzer.base_xp x = 20 * 2 /\
    0 <= Analyzer.success_bonus x <= 30 * 2 /\
    0 <= Analyzer.tool_mastery_bonus x /\
    0 <= Analyzer.complexity_bonus x <= 200 * 2 /\
    0 <= Analyzer.collaboration_bonus x <= 25 * 2 /\
    0 <= Analyzer.specialization_bonus x <= 20 * 2 /\
    0 <= Analyzer.consistency_bonus x <= 100 /\
    Analyzer.base_xp x <= Analyzer.total_xp x /\
    1 <= Analyzer.level x <= 10.
Proof.
  apply (agent_xp_bounds "python-pro").
  repeat constructor; discriminate.
Defined.

(** X24.  The consistency bonus is zero exactly when all the invocations of
    the agent fall on one calendar day (which includes the lists with fewer
    than two invocations); in every case it lies between 0 and 100. *)
Theorem consistency_bonus_needs_two_days
  (invocations : list Analyzer.AgentInvocation) :
  (Analyzer._calculate_consistency_bonus invocations = 0 <->
   forall a b, In a invocations -> In b invocations ->
               date (Analyzer.timestamp a) = date (Analyzer.timestamp b)) /\
  0 <= Analyzer._calculate_consistency_bonus invocations <= 100.
Proof.
  split; [| apply XPMore.consistency_bounds].
  assert (Hsmall : forall (l : list Z) x y,
             (List.length l < 2)%nat -> In x l -> In y l -> x = y).
  { intros [| z [| z' l]] x y Hl Hx Hy; simpl in *; [tauto | | lia].
    destruct Hx as [<- | []], Hy as [<- | []]. reflexivity. }
  split.
  - intros H a b Ha Hb. unfold Analyzer._calculate_consistency_bonus in H.
    destruct (Nat.ltb_spec (List.length invocations) 2) as [Hlen | Hlen].
    + assert (E : a = b); [| now rewrite E].
      destruct invocations as [| i [| i' l]]; simpl in *; try lia; try tauto.
      destruct Ha as [<- | []], Hb as [<- | []]. reflexivity.
    + set (days := nodup Z.eq_dec
                     (map (fun inv => date (Analyzer.timestamp inv)) invocations))
        in *.
      destruct (Nat.leb_spec 7 (List.length days)); [discriminate|].
      destruct (Nat.leb_spec 3 (List.length days)); [discriminate|].
      destruct (Nat.leb_spec 2 (List.length days)); [discriminate|].
      apply (Hsmall days); [assumption | |]; apply nodup_In;
        apply (in_map (fun inv => date (Analyzer.timestamp inv))); assumption.
  - intros H. unfold Analyzer._calculate_consistency_bonus.
    destruct (Nat.ltb_spec (List.length invocations) 2) as [Hlen | Hlen];
      [reflexivity|].
    destruct invocations as [| i l]; [simpl in Hlen; lia|].
    pose proof (XPMore.one_day (i :: l) (date (Analyzer.timestamp i))) as Hone.
    assert (Hall : Forall (fun inv => date (Analyzer.timestamp inv) =
                                      date (Analyzer.timestamp i)) (i :: l)).
    { apply Forall_forall. intros inv Hin. apply H; [exact Hin | now left]. }
    specialize (Hone Hall).
    set (days := nodup Z.eq_dec
                   (map (fun inv => date (Analyzer.timestamp inv)) (i :: l))) in *.
    destruct (Nat.leb_spec 7 (List.length days)); [lia|].
    destruct (Nat.leb_spec 3 (List.length days)); [lia|].
    destruct (Nat.leb_spec 2 (List.length days)); [lia|].
    reflexivity.
Qed.

(** X25.  The specialization bonus is at most 20 for each distinct project
    path among the agent's invocations, whatever their number, and it is 0
    for an agent that no specialization category lists. *)
Theorem specialization_bonus_limits
  (name : string) (invocations : list Analyzer.AgentInvocation) :
  0 <= Analyzer._calculate_specialization_bonus name invocations <=
    20 * Z.of_nat (List.length
                     (PyStr.distinct (map Analyzer.project_path invocations))) /\
  (forallb (fun c => negb (PyStr.mem name (snd c)))
           Analyzer.specialization_categories = true ->
   Analyzer._calculate_specialization_bonus name invocations = 0).
Proof.
  split; [apply XPMore.specialization_bonus_bounds|].
  intros H. unfold Analyzer._calculate_specialization_bonus.
  destruct (find _ Analyzer.specialization_categories) as [[spec members]|] eqn:E;
    [| reflexivity].
  apply find_some in E. destruct E as [Hin Hmem].
  rewrite forallb_forall in H. specialize (H _ Hin).
  cbn [snd] in H, Hmem. rewrite Hmem in H. discriminate.
Qed.

(** X26.  [calculate_agent_xp] returns one record per agent name: its keys
    are distinct and are exactly the agent names that occur among the
    invocations, and the record under a name is the individual calculation
    on the invocations of that name, in their order, and carries that
    name. *)
Theorem agent_xp_is_per_agent (invocations : list Analyzer.AgentInvocation) :
  exists d,
    Analyzer.calculate_agent_xp invocations = Ok d /\
    NoDup (map fst d) /\
    (forall name, In name (map fst d) <->
                  In name (map Analyzer.agent_name invocations)) /\
    forall name x,
      In (name, x) d ->
      Analyzer._calculate_individual_agent_xp name
        (filter (keyed Analyzer.agent_name name) invocations) = Ok x /\
      Analyzer.xp_agent_name x = name.
Proof.
  unfold Analyzer.calculate_agent_xp.
  destruct (XPMore.xp_loop_spec
              (Dict.group_by Analyzer.agent_name invocations) [])
    as [d [Hd [Hkeys Hin]]].
  { intros name invs H. now apply group_by_In in H. }
  exists d. split; [exact Hd|]. cbn [map app] in Hkeys. split; [|split].
  - rewrite Hkeys. apply group_by_keys_NoDup.
  - intros name. rewrite Hkeys. split.
    + intros H. apply in_map_iff in H. destruct H as [[k invs] [<- H]].
      cbn [fst]. apply group_by_In in H. destruct H as [-> Hne].
      destruct (filter (keyed Analyzer.agent_name k) invocations) as [| i l] eqn:E;
        [congruence|].
      assert (Hi : In i (filter (keyed Analyzer.agent_name k) invocations))
        by (rewrite E; now left).
      apply filter_In in Hi. destruct Hi as [Hi Hk].
      apply String.eqb_eq in Hk. rewrite <- Hk. now apply in_map.
    + intros H. apply in_map_iff in H. destruct H as [inv [<- H]].
      apply (group_by_has Analyzer.agent_name) in H.
      apply (in_map fst) in H. exact H.
  - intros name x H. apply Hin in H. destruct H as [[] | [invs [Hg Hx]]].
    apply group_by_In in Hg. destruct Hg as [-> Hne].
    split; [exact Hx|].
    destruct (filter (keyed Analyzer.agent_name name) invocations) as [| i l];
      [congruence|].
    cbn in Hx. injection Hx as <-. reflexivity.
Qed.

(** ** The project path of a log directory *)

Module PathFacts.

Lemma no_hyphen_after_replace (s : string) :
  PyStr.contains "-" (PyStr.replace_char "-"%char "/" s) = false.
Proof.
  induction s as [| c s IH]; [reflexivity|].
  cbn [PyStr.replace_char].
  destruct (Ascii.eqb c "-"%char) eqn:E.
  - change ("/" ++ PyStr.replace_char "-"%char "/" s)%string
      with (String "/"%char (PyStr.replace_char "-"%char "/" s)).
    cbn [PyStr.contains PyStr.startswith]. rewrite IH. reflexivity.
  - cbn [PyStr.contains PyStr.startswith].
    rewrite Ascii.eqb_sym, E, IH. reflexivity.
Qed.

End PathFacts.

(** X27.  [_extract_project_path] decodes a directory name that starts and
    ends with a hyphen into a path that starts with a slash and holds no
    hyphen at all (every inner hyphen becomes a slash, also one that was
    part of a directory name); any other directory name is returned
    unchanged. *)
Theorem project_path_decoding (parent_dir : string) :
  if PyStr.startswith "-" parent_dir && PyStr.endswith "-" parent_dir
  then PyStr.startswith "/" (Analyzer._extract_project_path parent_dir) = true /\
       PyStr.contains "-" (Analyzer._extract_project_path parent_dir) = false
  else Analyzer._extract_project_path parent_dir = parent_dir.
Proof.
  unfold Analyzer._extract_project_path.
  destruct (PyStr.startswith "-" parent_dir && PyStr.endswith "-" parent_dir);
    [| reflexivity].
  cbv zeta.
  change ("/" ++ ?s)%string with (String "/"%char s).
  split; [reflexivity|].
  cbn [PyStr.contains PyStr.startswith].
  rewrite PathFacts.no_hyphen_after_replace. reflexivity.
Qed.
